(** * Agentic customer support: event bus, context store, coordinator gates
      and escalation queue

    A shallow embedding of [src/event_bus.py], [src/context_store.py],
    [src/agents/coordinator.py] and [src/agents/escalation_agent.py],
    followed by the properties of the specification that concern them.

    Conventions of the embedding.
    - Python dictionaries are [gmap]s; the event payload, a
      [Dict[str, Any]], is a [gmap string Value].
    - Every method runs in the monad [M]: it threads the [World] (the bus,
      the clock, the log and the state of the subscribed components) and
      ends by returning a value, by raising an exception, or by running out
      of the recursion budget that bounds re-entrant [publish] calls.
    - [self.bus.publish] is passed to a handler as its argument [pub], and
      [EventBus.publish] ties the knot.
    - The escalation records of the escalation agent are shared between its
      queue and its map of active escalations: they live in a store of
      objects and both containers hold references. *)

From Stdlib Require Import QArith.
From stdpp Require Import gmap strings list fin_maps pretty.

Set Warnings "-register-all".
#[local] Open Scope string_scope.
#[local] Open Scope list_scope.

(** ** Python values *)

(** The values an event payload carries. A Python [float] is the rational
    it denotes (NaN and the infinities are not represented). *)
Inductive Value : Type :=
| VNone
| VBool (b : bool)
| VNum (x : Q)
| VStr (s : string)
| VList (l : list Value)
| VDict (d : gmap string Value).

Abbreviation Payload := (gmap string Value).

(** Truth value of an object, as [if x:] and [x or y] test it. *)
Definition truthy (v : Value) : bool :=
  match v with
  | VNone => false
  | VBool b => b
  | VNum x => negb (Qeq_bool x 0)
  | VStr s => negb (String.eqb s "")
  | VList l => match l with [] => false | _ => true end
  | VDict d => negb (bool_decide (d = ∅))
  end.

(** [v == s] for a string literal [s]. *)
Definition eq_str (v : Value) (s : string) : bool :=
  match v with
  | VStr s' => String.eqb s' s
  | _ => false
  end.

(** The number a value stands for in arithmetic and in [{x:.2f}]:
    [bool] is a subclass of [int]. *)
Definition as_number (v : Value) : option Q :=
  match v with
  | VNum x => Some x
  | VBool b => Some (if b then 1 else 0)%Q
  | _ => None
  end.

Definition Qlt_bool (x y : Q) : bool := negb (Qle_bool y x).

Definition opt_str (o : option string) : Value :=
  match o with Some s => VStr s | None => VNone end.

Definition opt_num (o : option Q) : Value :=
  match o with Some x => VNum x | None => VNone end.

Definition opt_dict (o : option Payload) : Value :=
  match o with Some d => VDict d | None => VNone end.

(** ** Exceptions and log records *)

Inductive exn : Type :=
| KeyError (key : string)
| TypeError (msg : string)
| ValueError (msg : string).

(** [str(e)] *)
Definition str_of_exn (e : exn) : string :=
  match e with
  | KeyError k => "'" +:+ k +:+ "'"
  | TypeError m => m
  | ValueError m => m
  end.

Inductive Level : Type := WARNING | ERROR | CRITICAL.

(** The log keeps the diagnostics, that is the records of level WARNING and
    above; [logger.info] and [logger.debug] lines decide nothing and are
    left out, with one exception: the line by which [publish] announces an
    event is kept apart, in [announced]. *)
Record LogRecord : Type := mkLog { levelname : Level; message : string }.

(** ** src/event_bus.py *)

Record Event : Type := mkEvent {
  event_type : string;
  payload : Payload;
  timestamp : nat;
  event_id : nat
}.

Record BusStats : Type := mkBusStats {
  published : nat;
  delivered : nat;
  errors : nat
}.

Section EventBusModel.
(** [Cb] names the callbacks that can subscribe ([EqDecision]: Python
    compares callbacks in [list.remove]); [Env] is the state of the
    components behind them. *)
Context {Cb : Type} `{!EqDecision Cb} {Env : Type}.

Record EventBus : Type := mkEventBus {
  _subscribers : gmap string (list Cb);
  _stats : BusStats
}.

(** [clock] counts the readings of [datetime.utcnow()] and [uuids] the
    identifiers drawn from [uuid.uuid4()]: the n-th reading is the
    timestamp [n], the n-th identifier is [n]. *)
Record World : Type := mkWorld {
  bus : EventBus;
  env : Env;
  clock : nat;
  uuids : nat;
  log : list LogRecord;
  announced : list Event
}.

Inductive outcome (A : Type) : Type :=
| Returned (a : A) (w : World)
| Raised (e : exn) (w : World)
| OutOfFuel.
#[global] Arguments Returned {A} a w.
#[global] Arguments Raised {A} e w.
#[global] Arguments OutOfFuel {A}.

Definition M (A : Type) : Type := World → outcome A.

Definition ret {A} (a : A) : M A := λ w, Returned a w.

Definition bind {A B} (m : M A) (k : A → M B) : M B :=
  λ w, match m w with
       | Returned a w' => k a w'
       | Raised e w' => Raised e w'
       | OutOfFuel => OutOfFuel
       end.

Definition raise {A} (e : exn) : M A := λ w, Raised e w.

(** [try: m except Exception as e: h e] *)
Definition try_except {A} (m : M A) (h : exn → M A) : M A :=
  λ w, match m w with
       | Raised e w' => h e w'
       | r => r
       end.

Notation "x <- m ;; k" := (bind m (λ x, k))
  (at level 61, m at level 60, k at level 200, only parsing).
Notation "m ;; k" := (bind m (λ _, k))
  (at level 100, k at level 200, right associativity, only parsing).

Definition gets {A} (f : World → A) : M A := λ w, Returned (f w) w.
Definition modify (f : World → World) : M unit := λ w, Returned tt (f w).

Definition set_bus (f : EventBus → EventBus) (w : World) : World :=
  mkWorld (f (bus w)) (env w) (clock w) (uuids w) (log w) (announced w).
Definition set_env (f : Env → Env) (w : World) : World :=
  mkWorld (bus w) (f (env w)) (clock w) (uuids w) (log w) (announced w).
Definition set_subscribers (f : gmap string (list Cb) → gmap string (list Cb))
    (b : EventBus) : EventBus :=
  mkEventBus (f (_subscribers b)) (_stats b).
Definition set_stats (f : BusStats → BusStats) (b : EventBus) : EventBus :=
  mkEventBus (_subscribers b) (f (_stats b)).

Definition incr_published (s : BusStats) : BusStats :=
  mkBusStats (S (published s)) (delivered s) (errors s).
Definition incr_delivered (s : BusStats) : BusStats :=
  mkBusStats (published s) (S (delivered s)) (errors s).
Definition incr_errors (s : BusStats) : BusStats :=
  mkBusStats (published s) (delivered s) (S (errors s)).

(** [datetime.utcnow()] *)
Definition utcnow : M nat :=
  λ w, Returned (clock w)
         (mkWorld (bus w) (env w) (S (clock w)) (uuids w) (log w) (announced w)).

(** [str(uuid.uuid4())] *)
Definition uuid4 : M nat :=
  λ w, Returned (uuids w)
         (mkWorld (bus w) (env w) (clock w) (S (uuids w)) (log w) (announced w)).

Definition logger (lvl : Level) (msg : string) : M unit :=
  λ w, Returned tt
         (mkWorld (bus w) (env w) (clock w) (uuids w)
                  (log w ++ [mkLog lvl msg]) (announced w)).

Definition announce (e : Event) : M unit :=
  λ w, Returned tt
         (mkWorld (bus w) (env w) (clock w) (uuids w) (log w) (announced w ++ [e])).

(** [payload[key]] *)
Definition getitem (p : Payload) (key : string) : M Value :=
  match p !! key with
  | Some v => ret v
  | None => raise (KeyError key)
  end.

(** [payload.get(key, dflt)] *)
Definition get_default (p : Payload) (key : string) (dflt : Value) : Value :=
  default dflt (p !! key).

(** Session ids, labels, reasons and texts are typed [str] by the
    docstrings of the handlers, and they are strings in the model: they
    key its dictionaries. A payload that carries a value of another kind
    in such a field is outside the model, which answers with a
    [TypeError] where Python would go on with the foreign value. *)
Definition as_str (v : Value) : M string :=
  match v with
  | VStr s => ret s
  | _ => raise (TypeError "expected str")
  end.

(** The [{x:.2f}] of an f-string: it needs a number. *)
Definition format_2f (v : Value) : M unit :=
  match as_number v with
  | Some _ => ret tt
  | None => raise (TypeError "unsupported format string")
  end.

(** [EventBus.__init__] *)
Definition EventBus_init : EventBus := mkEventBus ∅ (mkBusStats 0 0 0).

(** [EventBus.subscribe] *)
Definition subscribe (event_type : string) (callback : Cb) : M unit :=
  modify (set_bus (set_subscribers (λ subs,
    <[event_type := default [] (subs !! event_type) ++ [callback]]> subs))).

(** [list.remove(x)]: drops the first element equal to [x]; [None] is
    Python's [ValueError]. *)
Fixpoint list_remove (x : Cb) (l : list Cb) : option (list Cb) :=
  match l with
  | [] => None
  | y :: l' => if decide (y = x) then Some l' else cons y <$> list_remove x l'
  end.

(** [EventBus.unsubscribe] *)
Definition unsubscribe (event_type : string) (callback : Cb) : M unit :=
  entry <- gets (λ w, _subscribers (bus w) !! event_type) ;;
  match entry with
  | Some callbacks =>
      match list_remove callback callbacks with
      | Some callbacks' =>
          modify (set_bus (set_subscribers (<[event_type := callbacks']>)))
      | None =>
          logger WARNING ("Callback not found for '" +:+ event_type +:+ "'")
      end
  | None => ret tt
  end.

(** The [for callback in subscribers] loop of [publish]. Next to the
    world it returns, for the statements about delivery, the callbacks it
    invoked, each with [true] when the call returned and [false] when it
    raised. *)
Fixpoint deliver (call : Cb → Event → M unit) (subscribers : list Cb)
    (event : Event) : M (list (Cb * bool)) :=
  match subscribers with
  | [] => ret []
  | callback :: rest =>
      λ w, match call callback event w with
           | Returned _ w' =>
               (modify (set_bus (set_stats incr_delivered)) ;;
                r <- deliver call rest event ;;
                ret ((callback, true) :: r)) w'
           | Raised e w' =>
               (modify (set_bus (set_stats incr_errors)) ;;
                logger ERROR ("Error in subscriber callback for '"
                              +:+ event_type event +:+ "': " +:+ str_of_exn e) ;;
                r <- deliver call rest event ;;
                ret ((callback, false) :: r)) w'
           | OutOfFuel => OutOfFuel
           end
  end.

(** What a callback does when the bus calls it: [run cb pub event], where
    [pub] is the [publish] of the bus it may call back into. *)
Variable run : Cb → (string → Payload → M Event) → Event → M unit.

(** [EventBus.publish], with the report of its delivery loop. [fuel]
    bounds the depth of re-entrant publishes (Python's recursion limit).
    [json.dumps(payload)] in the debug line always succeeds: every
    [Value] is serialisable. *)
Fixpoint publish_report (fuel : nat) (event_type : string) (payload : Payload)
    : M (Event * list (Cb * bool)) :=
  match fuel with
  | 0 => λ _, OutOfFuel
  | S fuel' =>
      let publish' ty p := (r <- publish_report fuel' ty p ;; ret (fst r)) in
      now <- utcnow ;;
      id <- uuid4 ;;
      let event := mkEvent event_type payload now id in
      modify (set_bus (set_stats incr_published)) ;;
      announce event ;;
      subscribers <- gets (λ w, default [] (_subscribers (bus w) !! event_type)) ;;
      match subscribers with
      | [] =>
          logger WARNING ("No subscribers for event type '" +:+ event_type +:+ "'") ;;
          ret (event, [])
      | _ =>
          r <- deliver (λ cb, run cb publish') subscribers event ;;
          ret (event, r)
      end
  end.

Definition publish (fuel : nat) (event_type : string) (payload : Payload)
    : M Event :=
  r <- publish_report fuel event_type payload ;; ret (fst r).

(** [EventBus.get_stats] *)
Definition get_stats : M BusStats := gets (λ w, _stats (bus w)).

(** [EventBus.get_subscribers]: the number of callbacks of one event type,
    or of every event type when [event_type] is [None]; the empty string
    is as good as [None] to [if event_type:]. *)
Definition get_subscribers (event_type : option string) : M (gmap string nat) :=
  subscribers <- gets (λ w, _subscribers (bus w)) ;;
  match event_type with
  | Some ty =>
      if String.eqb ty "" then ret (length <$> subscribers)
      else ret {[ ty := length (default [] (subscribers !! ty)) ]}
  | None => ret (length <$> subscribers)
  end.

(** [EventBus.clear_all_subscribers] *)
Definition clear_all_subscribers : M unit :=
  modify (set_bus (set_subscribers (λ _, ∅))).

End EventBusModel.

Arguments EventBus Cb : clear implicits.
Arguments World Cb Env : clear implicits.
Arguments M Cb Env A : clear implicits.
Arguments outcome Cb Env A : clear implicits.

Notation "x <- m ;; k" := (bind m (λ x, k))
  (at level 61, m at level 60, k at level 200, only parsing).
Notation "m ;; k" := (bind m (λ _, k))
  (at level 100, k at level 200, right associativity, only parsing).

Definition VNat (n : nat) : Value := VNum (inject_Z (Z.of_nat n)).
Definition VInt (n : Z) : Value := VNum (inject_Z n).

(** ** src/context_store.py *)

Inductive ConversationStatus : Type := ACTIVE | ESCALATED | RESOLVED | ABANDONED.

(** [ConversationStatus.X.value] *)
Definition status_value (s : ConversationStatus) : string :=
  match s with
  | ACTIVE => "ACTIVE"
  | ESCALATED => "ESCALATED"
  | RESOLVED => "RESOLVED"
  | ABANDONED => "ABANDONED"
  end.

Record Message : Type := mkMessage {
  msg_sender : string;
  msg_text : string;
  msg_timestamp : nat;
  msg_intent_label : option string;
  msg_sentiment_label : option string;
  msg_entities : option Payload;
  msg_agent_action : option Payload
}.

Record ConversationContext : Type := mkContext {
  ctx_session_id : string;
  ctx_start_time : nat;
  ctx_customer_email : option string;
  ctx_customer_id : option string;
  ctx_status : string;
  ctx_current_sentiment : option string;
  ctx_current_intent : option string;
  ctx_intent_confidence : option Q;
  ctx_messages : list Message;
  ctx_entities : Payload;
  ctx_metadata : Payload;
  ctx_escalation_reason : option string;
  ctx_operator_id : option string
}.

(** The keyword arguments [add_message] hands on to [Message]. *)
Record MessageKwargs : Type := mkKwargs {
  kw_intent_label : option string;
  kw_sentiment_label : option string;
  kw_entities : option Payload;
  kw_agent_action : option Payload
}.

Definition no_kwargs : MessageKwargs := mkKwargs None None None None.

Definition set_messages (f : list Message → list Message)
    (c : ConversationContext) : ConversationContext :=
  mkContext (ctx_session_id c) (ctx_start_time c) (ctx_customer_email c)
    (ctx_customer_id c) (ctx_status c) (ctx_current_sentiment c)
    (ctx_current_intent c) (ctx_intent_confidence c) (f (ctx_messages c))
    (ctx_entities c) (ctx_metadata c) (ctx_escalation_reason c) (ctx_operator_id c).

Definition set_sentiment_label (sentiment : string) (m : Message) : Message :=
  mkMessage (msg_sender m) (msg_text m) (msg_timestamp m) (msg_intent_label m)
    (Some sentiment) (msg_entities m) (msg_agent_action m).

Definition set_intent_label (intent : string) (m : Message) : Message :=
  mkMessage (msg_sender m) (msg_text m) (msg_timestamp m) (Some intent)
    (msg_sentiment_label m) (msg_entities m) (msg_agent_action m).

(** [m.entities.update(entities)], after [m.entities] has been made a
    dictionary when it was [None]; the new bindings win. *)
Definition update_entities (entities : Payload) (m : Message) : Message :=
  mkMessage (msg_sender m) (msg_text m) (msg_timestamp m) (msg_intent_label m)
    (msg_sentiment_label m) (Some (entities ∪ default ∅ (msg_entities m)))
    (msg_agent_action m).

(** [self.messages[-1] = f(self.messages[-1])], under [if self.messages:]. *)
Definition on_last_message (f : Message → Message) (messages : list Message)
    : list Message :=
  match messages with
  | [] => []
  | _ :: _ => alter f (length messages - 1) messages
  end.

Definition Message_to_dict (m : Message) : Payload :=
  let put (key : string) (o : option Value) (d : Payload) : Payload :=
    match o with Some v => <[key := v]> d | None => d end in
  put "agent_action" (VDict <$> msg_agent_action m)
  (put "entities" (VDict <$> msg_entities m)
  (put "sentiment_label" (VStr <$> msg_sentiment_label m)
  (put "intent_label" (VStr <$> msg_intent_label m)
  ({[ "sender" := VStr (msg_sender m);
      "text" := VStr (msg_text m);
      "timestamp" := VNat (msg_timestamp m) ]})))).

Module ConversationContext.

(** [get_last_n_messages]. [n] is a Python [int]. The slice
    [messages[-n:]] starts [n] places from the end when [n] is positive,
    at the first message when [n] is [0] (for [-0] is [0]), and at the index
    [-n] when [n] is negative. *)
Definition get_last_n_messages (n : Z) (self : ConversationContext) : list Message :=
  let messages := ctx_messages self in
  if bool_decide (n ≤ Z.of_nat (length messages))%Z then
    if bool_decide (0 < n)%Z then drop (length messages - Z.to_nat n) messages
    else drop (Z.to_nat (- n)) messages
  else messages.

(** [get_user_message_history] *)
Definition get_user_message_history (self : ConversationContext) : list string :=
  msg_text <$> filter (λ msg, msg_sender msg = "USER") (ctx_messages self).

(** [add_message]; [now] is the reading of [datetime.utcnow()]. *)
Definition add_message (sender text : string) (kwargs : MessageKwargs) (now : nat)
    (self : ConversationContext) : Message * ConversationContext :=
  let msg := mkMessage sender text now (kw_intent_label kwargs)
               (kw_sentiment_label kwargs) (kw_entities kwargs)
               (kw_agent_action kwargs) in
  (msg, set_messages (λ messages, messages ++ [msg]) self).

(** [update_sentiment]; the [confidence] argument is not used. *)
Definition update_sentiment (sentiment : string) (self : ConversationContext)
    : ConversationContext :=
  mkContext (ctx_session_id self) (ctx_start_time self) (ctx_customer_email self)
    (ctx_customer_id self) (ctx_status self) (Some sentiment)
    (ctx_current_intent self) (ctx_intent_confidence self)
    (on_last_message (set_sentiment_label sentiment) (ctx_messages self))
    (ctx_entities self) (ctx_metadata self) (ctx_escalation_reason self)
    (ctx_operator_id self).

(** [update_intent] *)
Definition update_intent (intent : string) (confidence : Q)
    (self : ConversationContext) : ConversationContext :=
  mkContext (ctx_session_id self) (ctx_start_time self) (ctx_customer_email self)
    (ctx_customer_id self) (ctx_status self) (ctx_current_sentiment self)
    (Some intent) (Some confidence)
    (on_last_message (set_intent_label intent) (ctx_messages self))
    (ctx_entities self) (ctx_metadata self) (ctx_escalation_reason self)
    (ctx_operator_id self).

(** [merge_entities] *)
Definition merge_entities (entities : Payload) (self : ConversationContext)
    : ConversationContext :=
  mkContext (ctx_session_id self) (ctx_start_time self) (ctx_customer_email self)
    (ctx_customer_id self) (ctx_status self) (ctx_current_sentiment self)
    (ctx_current_intent self) (ctx_intent_confidence self)
    (on_last_message (update_entities entities) (ctx_messages self))
    (entities ∪ ctx_entities self) (ctx_metadata self)
    (ctx_escalation_reason self) (ctx_operator_id self).

(** [escalate] *)
Definition escalate (reason : string) (self : ConversationContext)
    : ConversationContext :=
  mkContext (ctx_session_id self) (ctx_start_time self) (ctx_customer_email self)
    (ctx_customer_id self) (status_value ESCALATED) (ctx_current_sentiment self)
    (ctx_current_intent self) (ctx_intent_confidence self) (ctx_messages self)
    (ctx_entities self) (ctx_metadata self) (Some reason) (ctx_operator_id self).

(** [resolve] *)
Definition resolve (self : ConversationContext) : ConversationContext :=
  mkContext (ctx_session_id self) (ctx_start_time self) (ctx_customer_email self)
    (ctx_customer_id self) (status_value RESOLVED) (ctx_current_sentiment self)
    (ctx_current_intent self) (ctx_intent_confidence self) (ctx_messages self)
    (ctx_entities self) (ctx_metadata self) (ctx_escalation_reason self)
    (ctx_operator_id self).

(** [to_dict] *)
Definition to_dict (self : ConversationContext) : Payload :=
  {[ "session_id" := VStr (ctx_session_id self);
     "start_time" := VNat (ctx_start_time self);
     "customer_email" := opt_str (ctx_customer_email self);
     "customer_id" := opt_str (ctx_customer_id self);
     "status" := VStr (ctx_status self);
     "current_sentiment" := opt_str (ctx_current_sentiment self);
     "current_intent" := opt_str (ctx_current_intent self);
     "intent_confidence" := opt_num (ctx_intent_confidence self);
     "messages" := VList ((λ msg, VDict (Message_to_dict msg)) <$> ctx_messages self);
     "entities" := VDict (ctx_entities self);
     "metadata" := VDict (ctx_metadata self);
     "escalation_reason" := opt_str (ctx_escalation_reason self);
     "operator_id" := opt_str (ctx_operator_id self) ]}.

End ConversationContext.

Record StoreStats : Type := mkStoreStats {
  sessions_created : Z;
  sessions_active : Z;
  sessions_ended : Z;
  total_messages : Z
}.

Record ContextStore : Type := mkContextStore {
  _contexts : gmap string ConversationContext;
  _store_stats : StoreStats
}.

(** ** The components on the bus *)

(** [CoordinatorAgent.stats] *)
Record CoordinatorStats : Type := mkCoordinatorStats {
  messages_processed : Z;
  escalations : Z;
  successful_routes : Z;
  coordinator_errors : Z
}.

(** An escalation record: the dictionary [handle_escalation] builds. *)
Record Escalation : Type := mkEscalation {
  esc_session_id : string;
  esc_reason : string;
  esc_details : Value;
  esc_context : Value;
  esc_priority : Value;
  esc_escalated_at : nat;
  esc_status : string;
  esc_operator_id : Value;
  esc_assigned_at : option nat;
  esc_queue_position : nat
}.

(** [EscalationAgent.stats] *)
Record EscalationStats : Type := mkEscalationStats {
  total_escalations : Z;
  queued : Z;
  assigned : Z;
  resolved : Z;
  by_reason : gmap string Z
}.

(** The escalation agent. [queue] (a [deque], leftmost first) and
    [active_escalations] hold references into [objects], the records the
    agent has created: a record that is both queued and active is one
    object, and [assign_to_operator] updates it in place. [next_ref] is the
    next free reference. *)
Record EscalationAgent : Type := mkEscalationAgent {
  objects : gmap nat Escalation;
  next_ref : nat;
  queue : list nat;
  active_escalations : gmap string nat;
  escalation_stats : EscalationStats
}.

Record Core : Type := mkCore {
  store : ContextStore;
  coordinator_stats : CoordinatorStats;
  escalation_agent : EscalationAgent
}.

(** The bound methods that subscribe to the bus. *)
Inductive Handler : Type :=
| Coordinator_handle_new_message
| Coordinator_handle_sentiment_result
| Coordinator_handle_intent_result
| Coordinator_handle_escalation_request
| Coordinator_handle_agent_error
| Escalation_handle_escalation
| Escalation_assign_to_operator
| Escalation_handle_resolution.

#[global] Instance Handler_eq_dec : EqDecision Handler.
Proof. solve_decision. Defined.

Abbreviation CM := (M Handler Core).
Abbreviation CoreWorld := (World Handler Core).

Definition set_store (f : ContextStore → ContextStore) (c : Core) : Core :=
  mkCore (f (store c)) (coordinator_stats c) (escalation_agent c).
Definition set_coordinator_stats (f : CoordinatorStats → CoordinatorStats)
    (c : Core) : Core :=
  mkCore (store c) (f (coordinator_stats c)) (escalation_agent c).
Definition set_escalation_agent (f : EscalationAgent → EscalationAgent)
    (c : Core) : Core :=
  mkCore (store c) (coordinator_stats c) (f (escalation_agent c)).

Definition set_contexts
    (f : gmap string ConversationContext → gmap string ConversationContext)
    (s : ContextStore) : ContextStore :=
  mkContextStore (f (_contexts s)) (_store_stats s).
Definition set_store_stats (f : StoreStats → StoreStats) (s : ContextStore)
    : ContextStore :=
  mkContextStore (_contexts s) (f (_store_stats s)).

Module ContextStore.

(** [ContextStore.__init__] *)
Definition init : ContextStore := mkContextStore ∅ (mkStoreStats 0 0 0 0).

(** [create_session] *)
Definition create_session (session_id : string) (customer_email : option string)
    : CM ConversationContext :=
  contexts <- gets (λ w, _contexts (store (env w))) ;;
  if decide (is_Some (contexts !! session_id)) then
    raise (ValueError ("Session " +:+ session_id +:+ " already exists"))
  else
    now <- utcnow ;;
    let context := mkContext session_id now customer_email None
                     (status_value ACTIVE) None None None [] ∅ ∅ None None in
    modify (set_env (set_store (λ s,
      set_store_stats (λ st, mkStoreStats (sessions_created st + 1)
                                          (sessions_active st + 1)
                                          (sessions_ended st) (total_messages st))
        (set_contexts (<[session_id := context]>) s)))) ;;
    ret context.

(** [get] *)
Definition get (session_id : string) : CM (option ConversationContext) :=
  gets (λ w, _contexts (store (env w)) !! session_id).

(** [get_or_create] *)
Definition get_or_create (session_id : string) (customer_email : option string)
    : CM ConversationContext :=
  context <- get session_id ;;
  match context with
  | None => create_session session_id customer_email
  | Some context => ret context
  end.

(** [add_message] *)
Definition add_message (session_id sender text : string) (kwargs : MessageKwargs)
    : CM (option Message) :=
  context <- gets (λ w, _contexts (store (env w)) !! session_id) ;;
  match context with
  | None =>
      logger WARNING ("Cannot add message to non-existent session: " +:+ session_id) ;;
      ret None
  | Some context =>
      now <- utcnow ;;
      let r := ConversationContext.add_message sender text kwargs now context in
      modify (set_env (set_store (λ s,
        set_store_stats (λ st, mkStoreStats (sessions_created st) (sessions_active st)
                                            (sessions_ended st) (total_messages st + 1))
          (set_contexts (<[session_id := snd r]>) s)))) ;;
      ret (Some (fst r))
  end.

(** [delete] *)
Definition delete (session_id : string) : CM (option ConversationContext) :=
  context <- gets (λ w, _contexts (store (env w)) !! session_id) ;;
  match context with
  | Some _ =>
      modify (set_env (set_store (λ s,
        set_store_stats (λ st, mkStoreStats (sessions_created st) (sessions_active st - 1)
                                            (sessions_ended st + 1) (total_messages st))
          (set_contexts (base.delete session_id) s)))) ;;
      ret context
  | None => ret None
  end.

(** [get_active_count] *)
Definition get_active_count : CM nat :=
  gets (λ w, size (_contexts (store (env w)))).

(** [get_stats] *)
Definition get_stats : CM StoreStats :=
  gets (λ w, _store_stats (store (env w))).

(** [clear_all] *)
Definition clear_all : CM unit :=
  count <- gets (λ w, size (_contexts (store (env w)))) ;;
  modify (set_env (set_store (λ s,
    set_store_stats (λ st, mkStoreStats (sessions_created st) 0 (sessions_ended st)
                                        (total_messages st))
      (set_contexts (λ _, ∅) s)))) ;;
  logger WARNING ("Cleared all sessions (removed " +:+ pretty count +:+ " contexts)").

End ContextStore.

(** Reads of payload fields at the types the handlers expect. *)
Definition as_opt_str (v : Value) : CM (option string) :=
  match v with
  | VNone => ret None
  | VStr s => ret (Some s)
  | _ => raise (TypeError "expected str or None")
  end.

(** A number, where the handler formats the field with [{x:.2f}] and
    compares it with [<]. *)
Definition as_float (v : Value) : CM Q :=
  match as_number v with
  | Some x => ret x
  | None => raise (TypeError "unsupported format string")
  end.

(** A dictionary, where the handler hands the field to [dict.update]. *)
Definition as_dict (v : Value) : CM Payload :=
  match v with
  | VDict d => ret d
  | _ => raise (TypeError "expected dict")
  end.

(** A method call [context.method(...)] on the object the store holds
    under [session_id]; it returns the object after the call. The handlers
    call these methods on the object they have just got from the store and
    before they publish anything, so the object is still the stored one. *)
Definition on_context (session_id : string) (context : ConversationContext)
    (method : ConversationContext → ConversationContext)
    : CM ConversationContext :=
  modify (set_env (set_store (set_contexts (<[session_id := method context]>)))) ;;
  ret (method context).

(** ** src/agents/coordinator.py *)

Module CoordinatorAgent.

Definition SENTIMENT_ESCALATION_LABELS : list string := ["NEGATIVE"; "ANGRY"].

(** [0.7]: the double nearest to seven tenths, 3152519739159347 / 2^52. *)
Definition INTENT_CONFIDENCE_THRESHOLD : Q := 3152519739159347 # 4503599627370496.

Definition INTENT_ROUTING : gmap string string :=
  {[ "track_order" := "TASK_HANDLE_ORDER_TRACKING";
     "process_return" := "TASK_HANDLE_RETURNS";
     "general_inquiry" := "TASK_HANDLE_GENERAL_INQUIRY";
     "update_account" := "TASK_HANDLE_ACCOUNT" ]}.

Definition incr_messages_processed : CM unit :=
  modify (set_env (set_coordinator_stats (λ s,
    mkCoordinatorStats (messages_processed s + 1) (escalations s)
      (successful_routes s) (coordinator_errors s)))).
Definition incr_escalations : CM unit :=
  modify (set_env (set_coordinator_stats (λ s,
    mkCoordinatorStats (messages_processed s) (escalations s + 1)
      (successful_routes s) (coordinator_errors s)))).
Definition incr_successful_routes : CM unit :=
  modify (set_env (set_coordinator_stats (λ s,
    mkCoordinatorStats (messages_processed s) (escalations s)
      (successful_routes s + 1) (coordinator_errors s)))).
Definition incr_errors : CM unit :=
  modify (set_env (set_coordinator_stats (λ s,
    mkCoordinatorStats (messages_processed s) (escalations s)
      (successful_routes s) (coordinator_errors s + 1)))).

Section Handlers.
(** [self.bus.publish] *)
Variable pub : string → Payload → CM Event.

(** [_escalate] *)
Definition _escalate (session_id reason : string) (details : Value) : CM unit :=
  logger WARNING ("[ESCALATION] Escalating session " +:+ session_id +:+ ": " +:+ reason) ;;
  incr_escalations ;;
  context <- ContextStore.get session_id ;;
  context <- match context with
             | Some context =>
                 c <- on_context session_id context (ConversationContext.escalate reason) ;;
                 ret (Some c)
             | None => ret None
             end ;;
  pub "TASK_ESCALATE"
    {[ "session_id" := VStr session_id;
       "reason" := VStr reason;
       "details" := if truthy details then details else VDict ∅;
       "context" := opt_dict (ConversationContext.to_dict <$> context) ]} ;;
  ret tt.

(** [_emergency_escalate] *)
Definition _emergency_escalate (session_id : Value) (error : string) : CM unit :=
  if truthy session_id then
    session_id <- as_str session_id ;;
    _escalate session_id "SYSTEM_ERROR" (VDict {[ "error" := VStr error ]})
  else
    logger CRITICAL ("Emergency escalation without session_id: " +:+ error).

(** Gate 0: [handle_new_message] *)
Definition handle_new_message (event : Event) : CM unit :=
  try_except
    (let payload := payload event in
     session_id <- getitem payload "session_id" ;;
     session_id <- as_str session_id ;;
     text <- getitem payload "text" ;;
     text <- as_str text ;;
     customer_email <- as_opt_str (get_default payload "customer_email" VNone) ;;
     incr_messages_processed ;;
     ContextStore.get_or_create session_id customer_email ;;
     ContextStore.add_message session_id "USER" text no_kwargs ;;
     pub "TASK_RECOGNIZE_SENTIMENT"
       {[ "session_id" := VStr session_id; "text" := VStr text ]} ;;
     ret tt)
    (λ e,
     logger ERROR ("[GATE 0] Error handling new message: " +:+ str_of_exn e) ;;
     incr_errors ;;
     _emergency_escalate (get_default (payload event) "session_id" VNone)
       (str_of_exn e)).

(** Gate 1: [handle_sentiment_result] *)
Definition handle_sentiment_result (event : Event) : CM unit :=
  try_except
    (let payload := payload event in
     session_id <- getitem payload "session_id" ;;
     session_id <- as_str session_id ;;
     sentiment <- getitem payload "sentiment" ;;
     sentiment <- as_str sentiment ;;
     let confidence := get_default payload "confidence" (VNum 0) in
     format_2f confidence ;;
     context <- ContextStore.get session_id ;;
     match context with
     | None =>
         logger ERROR ("[GATE 1] Session " +:+ session_id
                       +:+ " not found in context store")
     | Some context =>
         context <- on_context session_id context
                      (ConversationContext.update_sentiment sentiment) ;;
         if bool_decide (sentiment ∈ SENTIMENT_ESCALATION_LABELS) then
           logger WARNING ("[GATE 1] Negative sentiment detected: " +:+ sentiment) ;;
           _escalate session_id ("NEGATIVE_SENTIMENT_" +:+ sentiment)
             (VDict {[ "sentiment" := VStr sentiment; "confidence" := confidence ]})
         else
           let last_message :=
             match last (ctx_messages context) with
             | Some msg => msg_text msg
             | None => ""
             end in
           pub "TASK_RECOGNIZE_INTENT"
             {[ "session_id" := VStr session_id;
                "text" := VStr last_message;
                "conversation_history" :=
                  VList (VStr <$> ConversationContext.get_user_message_history context) ]} ;;
           ret tt
     end)
    (λ e,
     logger ERROR ("[GATE 1] Error handling sentiment result: " +:+ str_of_exn e) ;;
     incr_errors ;;
     _emergency_escalate (get_default (payload event) "session_id" VNone)
       (str_of_exn e)).

(** [_route_to_agent] *)
Definition _route_to_agent (session_id intent : string)
    (context : ConversationContext) : CM unit :=
  match INTENT_ROUTING !! intent with
  | None =>
      logger WARNING ("[ROUTING] Unknown intent: " +:+ intent) ;;
      _escalate session_id "UNKNOWN_INTENT" (VDict {[ "intent" := VStr intent ]})
  | Some task_name =>
      incr_successful_routes ;;
      pub task_name (ConversationContext.to_dict context) ;;
      ret tt
  end.

(** Gate 2: [handle_intent_result] *)
Definition handle_intent_result (event : Event) : CM unit :=
  try_except
    (let payload := payload event in
     session_id <- getitem payload "session_id" ;;
     session_id <- as_str session_id ;;
     intent <- getitem payload "intent" ;;
     intent <- as_str intent ;;
     confidence <- getitem payload "confidence" ;;
     let entities := get_default payload "entities" (VDict ∅) in
     conf <- as_float confidence ;;
     context <- ContextStore.get session_id ;;
     match context with
     | None =>
         logger ERROR ("[GATE 2] Session " +:+ session_id
                       +:+ " not found in context store")
     | Some context =>
         context <- on_context session_id context
                      (ConversationContext.update_intent intent conf) ;;
         context <- (if truthy entities then
                       entities <- as_dict entities ;;
                       on_context session_id context
                         (ConversationContext.merge_entities entities)
                     else ret context) ;;
         if Qlt_bool conf INTENT_CONFIDENCE_THRESHOLD then
           logger WARNING "[GATE 2] Low confidence" ;;
           _escalate session_id "LOW_INTENT_CONFIDENCE"
             (VDict {[ "intent" := VStr intent; "confidence" := confidence ]})
         else
           _route_to_agent session_id intent context
     end)
    (λ e,
     logger ERROR ("[GATE 2] Error handling intent result: " +:+ str_of_exn e) ;;
     incr_errors ;;
     _emergency_escalate (get_default (payload event) "session_id" VNone)
       (str_of_exn e)).

(** [handle_escalation_request]: no [try] around it, a missing field
    raises into the bus. *)
Definition handle_escalation_request (event : Event) : CM unit :=
  let payload := payload event in
  session_id <- getitem payload "session_id" ;;
  session_id <- as_str session_id ;;
  reason <- getitem payload "reason" ;;
  reason <- as_str reason ;;
  let details := get_default payload "details" (VDict ∅) in
  _escalate session_id reason details.

(** [handle_agent_error] *)
Definition handle_agent_error (event : Event) : CM unit :=
  let payload := payload event in
  session_id <- getitem payload "session_id" ;;
  session_id <- as_str session_id ;;
  agent_name <- getitem payload "agent_name" ;;
  agent_name <- as_str agent_name ;;
  error <- getitem payload "error" ;;
  logger ERROR ("[ERROR] Agent " +:+ agent_name +:+ " reported error for session "
                +:+ session_id) ;;
  incr_errors ;;
  _escalate session_id ("AGENT_ERROR_" +:+ agent_name)
    (VDict {[ "agent" := VStr agent_name; "error" := error ]}).

End Handlers.

(** [_subscribe_to_events], called by [__init__] *)
Definition _subscribe_to_events : CM unit :=
  subscribe "NEW_USER_MESSAGE" Coordinator_handle_new_message ;;
  subscribe "RESULT_SENTIMENT_RECOGNIZED" Coordinator_handle_sentiment_result ;;
  subscribe "RESULT_INTENT_RECOGNIZED" Coordinator_handle_intent_result ;;
  subscribe "REQUEST_ESCALATION" Coordinator_handle_escalation_request ;;
  subscribe "AGENT_ERROR" Coordinator_handle_agent_error.

Definition init_stats : CoordinatorStats := mkCoordinatorStats 0 0 0 0.

(** [get_stats]: the counters and the number of sessions the store holds. *)
Definition get_stats : CM Payload :=
  s <- gets (λ w, coordinator_stats (env w)) ;;
  active <- ContextStore.get_active_count ;;
  ret {[ "messages_processed" := VInt (messages_processed s);
         "escalations" := VInt (escalations s);
         "successful_routes" := VInt (successful_routes s);
         "errors" := VInt (coordinator_errors s);
         "active_sessions" := VNat active ]}.

(** [get_session_info] *)
Definition get_session_info (session_id : string) : CM (option Payload) :=
  context <- ContextStore.get session_id ;;
  ret (ConversationContext.to_dict <$> context).

End CoordinatorAgent.

(** ** src/agents/escalation_agent.py *)

Module EscalationAgent.

Definition init : EscalationAgent :=
  mkEscalationAgent ∅ 0 [] ∅ (mkEscalationStats 0 0 0 0 ∅).

Definition set_objects (f : gmap nat Escalation → gmap nat Escalation)
    (a : EscalationAgent) : EscalationAgent :=
  mkEscalationAgent (f (objects a)) (next_ref a) (queue a) (active_escalations a)
    (escalation_stats a).
Definition set_queue (f : list nat → list nat) (a : EscalationAgent)
    : EscalationAgent :=
  mkEscalationAgent (objects a) (next_ref a) (f (queue a)) (active_escalations a)
    (escalation_stats a).
Definition set_active_escalations (f : gmap string nat → gmap string nat)
    (a : EscalationAgent) : EscalationAgent :=
  mkEscalationAgent (objects a) (next_ref a) (queue a) (f (active_escalations a))
    (escalation_stats a).
Definition set_escalation_stats (f : EscalationStats → EscalationStats)
    (a : EscalationAgent) : EscalationAgent :=
  mkEscalationAgent (objects a) (next_ref a) (queue a) (active_escalations a)
    (f (escalation_stats a)).

Definition self_modify (f : EscalationAgent → EscalationAgent) : CM unit :=
  modify (set_env (set_escalation_agent f)).
Definition self_gets {A} (f : EscalationAgent → A) : CM A :=
  gets (λ w, f (escalation_agent (env w))).

(** A new dictionary object: its reference. *)
Definition new_object (escalation : Escalation) : CM nat :=
  r <- self_gets next_ref ;;
  self_modify (λ a, mkEscalationAgent (<[r := escalation]> (objects a)) (S r)
                      (queue a) (active_escalations a) (escalation_stats a)) ;;
  ret r.

(** The dictionary behind a reference. The agent never frees a record, so
    a reference it holds is never dangling; the model has to answer for one
    all the same, and raises. *)
Definition deref (r : nat) : CM Escalation :=
  o <- self_gets (λ a, objects a !! r) ;;
  match o with
  | Some escalation => ret escalation
  | None => raise (KeyError "dangling reference")
  end.

(** [_estimate_wait_time] *)
Definition _estimate_wait_time : CM Z :=
  self_gets (λ a, Z.of_nat (length (queue a)) * 300)%Z.

(** [_calculate_wait_time] *)
Definition _calculate_wait_time (escalation : Escalation) : Z :=
  match esc_assigned_at escalation with
  | None => 0
  | Some assigned => Z.of_nat assigned - Z.of_nat (esc_escalated_at escalation)
  end.

(** [_calculate_total_time] *)
Definition _calculate_total_time (escalation : Escalation) : CM Z :=
  resolved <- utcnow ;;
  ret (Z.of_nat resolved - Z.of_nat (esc_escalated_at escalation))%Z.

Section Handlers.
(** [self.bus.publish] *)
Variable pub : string → Payload → CM Event.

(** [handle_escalation] *)
Definition handle_escalation (event : Event) : CM unit :=
  try_except
    (let payload := payload event in
     session_id <- getitem payload "session_id" ;;
     session_id <- as_str session_id ;;
     reason <- getitem payload "reason" ;;
     reason <- as_str reason ;;
     let details := get_default payload "details" (VDict ∅) in
     let context := get_default payload "context" VNone in
     let priority := get_default payload "priority" (VStr "NORMAL") in
     logger WARNING ("[Escalation Agent] Escalating session " +:+ session_id) ;;
     now <- utcnow ;;
     position <- self_gets (λ a, length (queue a) + 1) ;;
     escalation <- new_object
       (mkEscalation session_id reason details context priority now "QUEUED"
          VNone None position) ;;
     (if eq_str priority "HIGH" then
        self_modify (set_queue (λ q, escalation :: q))
      else
        self_modify (set_queue (λ q, q ++ [escalation]))) ;;
     self_modify (set_active_escalations (<[session_id := escalation]>)) ;;
     self_modify (set_escalation_stats (λ s,
       mkEscalationStats (total_escalations s + 1) (queued s + 1) (assigned s)
         (resolved s)
         (<[reason := (default 0 (by_reason s !! reason) + 1)%Z]> (by_reason s)))) ;;
     wait <- _estimate_wait_time ;;
     pub "RESULT_ESCALATION_COMPLETE"
       {[ "session_id" := VStr session_id;
          "status" := VStr "QUEUED";
          "queue_position" := VNat position;
          "estimated_wait_time" := VInt wait ]} ;;
     queue_size <- self_gets (λ a, length (queue a)) ;;
     pub "NOTIFICATION_OPERATOR"
       {[ "type" := VStr "NEW_ESCALATION";
          "session_id" := VStr session_id;
          "reason" := VStr reason;
          "priority" := priority;
          "queue_size" := VNat queue_size ]} ;;
     ret tt)
    (λ e,
     logger ERROR ("[Escalation Agent] Error handling escalation: " +:+ str_of_exn e)).

(** [assign_to_operator] *)
Definition assign_to_operator (event : Event) : CM unit :=
  try_except
    (let payload := payload event in
     operator_id <- getitem payload "operator_id" ;;
     let operator_name := get_default payload "operator_name" operator_id in
     q <- self_gets queue ;;
     match q with
     | [] =>
         pub "RESULT_OPERATOR_ASSIGNED"
           {[ "operator_id" := operator_id;
              "assigned" := VBool false;
              "reason" := VStr "QUEUE_EMPTY" ]} ;;
         ret tt
     | escalation :: rest =>
         self_modify (set_queue (λ _, rest)) ;;
         record <- deref escalation ;;
         let session_id := esc_session_id record in
         now <- utcnow ;;
         let record :=
           mkEscalation (esc_session_id record) (esc_reason record)
             (esc_details record) (esc_context record) (esc_priority record)
             (esc_escalated_at record) "ASSIGNED" operator_id (Some now)
             (esc_queue_position record) in
         self_modify (set_objects (<[escalation := record]>)) ;;
         self_modify (set_escalation_stats (λ s,
           mkEscalationStats (total_escalations s) (queued s - 1) (assigned s + 1)
             (resolved s) (by_reason s))) ;;
         pub "RESULT_OPERATOR_ASSIGNED"
           {[ "operator_id" := operator_id;
              "operator_name" := operator_name;
              "assigned" := VBool true;
              "session_id" := VStr session_id;
              "reason" := VStr (esc_reason record);
              "context" := esc_context record;
              "escalated_at" := VNat (esc_escalated_at record);
              "wait_time_seconds" := VInt (_calculate_wait_time record) ]} ;;
         ret tt
     end)
    (λ e,
     logger ERROR ("[Escalation Agent] Error assigning to operator: " +:+ str_of_exn e)).

(** [handle_resolution] *)
Definition handle_resolution (event : Event) : CM unit :=
  try_except
    (let payload := payload event in
     session_id <- getitem payload "session_id" ;;
     session_id <- as_str session_id ;;
     operator_id <- getitem payload "operator_id" ;;
     entry <- self_gets (λ a, active_escalations a !! session_id) ;;
     match entry with
     | None =>
         logger WARNING ("[Escalation Agent] Session " +:+ session_id
                         +:+ " not found in active escalations")
     | Some escalation =>
         self_modify (set_active_escalations (base.delete session_id)) ;;
         self_modify (set_escalation_stats (λ s,
           mkEscalationStats (total_escalations s) (queued s) (assigned s - 1)
             (resolved s + 1) (by_reason s))) ;;
         record <- deref escalation ;;
         total <- _calculate_total_time record ;;
         pub "RESULT_ESCALATION_RESOLVED"
           {[ "session_id" := VStr session_id;
              "operator_id" := operator_id;
              "total_time_seconds" := VInt total;
              "resolution_notes" := get_default payload "resolution_notes" VNone ]} ;;
         ret tt
     end)
    (λ e,
     logger ERROR ("[Escalation Agent] Error handling resolution: " +:+ str_of_exn e)).

End Handlers.

(** The subscriptions of [__init__]. *)
Definition _subscribe_to_events : CM unit :=
  subscribe "TASK_ESCALATE" Escalation_handle_escalation ;;
  subscribe "OPERATOR_AVAILABLE" Escalation_assign_to_operator ;;
  subscribe "ESCALATION_RESOLVED" Escalation_handle_resolution.

(** The list comprehension of [get_queue_status]: one entry for each
    record of the queue, leftmost first, with its place in the queue. *)
Fixpoint queue_entries (i : nat) (q : list nat) : CM (list Value) :=
  match q with
  | [] => ret []
  | r :: rest =>
      esc <- deref r ;;
      entries <- queue_entries (S i) rest ;;
      ret (VDict {[ "session_id" := VStr (esc_session_id esc);
                    "reason" := VStr (esc_reason esc);
                    "priority" := esc_priority esc;
                    "position" := VNat (i + 1) ]} :: entries)
  end.

(** [get_queue_status] *)
Definition get_queue_status : CM Payload :=
  q <- self_gets queue ;;
  active <- self_gets (λ a, size (active_escalations a)) ;;
  wait <- _estimate_wait_time ;;
  entries <- queue_entries 0 q ;;
  ret {[ "queue_size" := VNat (length q);
         "active_escalations" := VNat active;
         "estimated_wait_time" := VInt wait;
         "queue" := VList entries ]}.

(** [get_stats]: the counters, with the sizes of the queue and of the map
    of active escalations. *)
Definition get_stats : CM Payload :=
  s <- self_gets escalation_stats ;;
  q <- self_gets queue ;;
  active <- self_gets (λ a, size (active_escalations a)) ;;
  ret {[ "total_escalations" := VInt (total_escalations s);
         "queued" := VInt (queued s);
         "assigned" := VInt (assigned s);
         "resolved" := VInt (resolved s);
         "by_reason" := VDict (VInt <$> by_reason s);
         "queue_size" := VNat (length q);
         "active_escalations" := VNat active ]}.

End EscalationAgent.

(** ** The system: coordinator and escalation agent on one bus *)

(** The call of a subscribed bound method. *)
Definition run (cb : Handler) (pub : string → Payload → CM Event) (event : Event)
    : CM unit :=
  match cb with
  | Coordinator_handle_new_message => CoordinatorAgent.handle_new_message pub event
  | Coordinator_handle_sentiment_result =>
      CoordinatorAgent.handle_sentiment_result pub event
  | Coordinator_handle_intent_result => CoordinatorAgent.handle_intent_result pub event
  | Coordinator_handle_escalation_request =>
      CoordinatorAgent.handle_escalation_request pub event
  | Coordinator_handle_agent_error => CoordinatorAgent.handle_agent_error pub event
  | Escalation_handle_escalation => EscalationAgent.handle_escalation pub event
  | Escalation_assign_to_operator => EscalationAgent.assign_to_operator pub event
  | Escalation_handle_resolution => EscalationAgent.handle_resolution pub event
  end.

(** [bus.publish] of the system. *)
Definition bus_publish (fuel : nat) : string → Payload → CM Event :=
  publish run fuel.

Definition initial_world : CoreWorld :=
  mkWorld EventBus_init
    (mkCore ContextStore.init CoordinatorAgent.init_stats EscalationAgent.init)
    0 0 [] [].

(** [bus = EventBus(); store = ContextStore();
     CoordinatorAgent(bus, store); EscalationAgent(bus)] *)
Definition startup : CM unit :=
  CoordinatorAgent._subscribe_to_events ;;
  EscalationAgent._subscribe_to_events.

(** ** Vocabulary of the statements *)

Section EventBusVocabulary.
Context {Cb : Type} {Env : Type}.
Implicit Types w : World Cb Env.

(** The event [publish] constructs in [w]. *)
Definition event_of (ty : string) (p : Payload) w : Event :=
  mkEvent ty p (clock w) (uuids w).

(** The world at the moment of dispatch: the event is stamped, counted and
    announced. *)
Definition dispatching (ty : string) (p : Payload) w : World Cb Env :=
  mkWorld (set_stats incr_published (bus w)) (env w) (S (clock w)) (S (uuids w))
    (log w) (announced w ++ [event_of ty p w]).

Definition snapshot (ty : string) w : list Cb :=
  default [] (_subscribers (bus w) !! ty).

(** The world after a publish that found no subscriber. *)
Definition undelivered (ty : string) (p : Payload) w : World Cb Env :=
  mkWorld (set_stats incr_published (bus w)) (env w) (S (clock w)) (S (uuids w))
    (log w ++ [mkLog WARNING ("No subscribers for event type '" +:+ ty +:+ "'")])
    (announced w ++ [event_of ty p w]).

(** An invariant of the world that the bookkeeping of the bus (counters,
    clock, identifiers, log, announcements) cannot break. *)
Definition stable (I : World Cb Env → Prop) : Prop :=
  ∀ w stats clock' uuids' log' announced',
    I w →
    I (mkWorld (mkEventBus (_subscribers (bus w)) stats) (env w) clock' uuids'
         log' announced').

(** [m] started in a world of [I] comes back, by a return or by an
    exception, in a world of [I]. *)
Definition keeps {A} (I : World Cb Env → Prop) (m : M Cb Env A) : Prop :=
  ∀ w, I w → match m w with
             | Returned _ w' => I w'
             | Raised _ w' => I w'
             | OutOfFuel => False
             end.

End EventBusVocabulary.


(** ** A bench of probe callbacks

    Four callbacks for trying the bus alone, in the way of the tests the
    specification describes. Each records its call in the environment, a
    list of the calls made so far. *)
Inductive Probe : Type :=
| probe_raises    (* raises after recording the call *)
| probe_returns   (* records the call and returns *)
| probe_rewires   (* unsubscribes [probe_returns], subscribes [probe_late] *)
| probe_late.

#[global] Instance Probe_eq_dec : EqDecision Probe.
Proof. solve_decision. Defined.

Definition run_probe (cb : Probe)
    (pub : string → Payload → M Probe (list Probe) Event) (event : Event)
    : M Probe (list Probe) unit :=
  modify (set_env (λ calls, calls ++ [cb])) ;;
  match cb with
  | probe_raises => raise (ValueError "probe failure")
  | probe_returns => ret tt
  | probe_rewires =>
      unsubscribe (event_type event) probe_returns ;;
      subscribe (event_type event) probe_late
  | probe_late => ret tt
  end.

(** A fresh bus on which [subscribers] have subscribed to "PING", in that
    order. *)
Definition probe_world (subscribers : list Probe) : World Probe (list Probe) :=
  mkWorld (mkEventBus {[ "PING" := subscribers ]} (mkBusStats 0 0 0)) [] 0 0 [] [].

(** ** Drivers of the context store *)

(** A call of the registry's interface. *)
Inductive StoreCall : Type :=
| call_create_session (session_id : string) (customer_email : option string)
| call_get (session_id : string)
| call_get_or_create (session_id : string) (customer_email : option string)
| call_add_message (session_id sender text : string) (kwargs : MessageKwargs)
| call_delete (session_id : string).

Definition store_call (c : StoreCall) : CM unit :=
  match c with
  | call_create_session session_id customer_email =>
      ContextStore.create_session session_id customer_email ;; ret tt
  | call_get session_id => ContextStore.get session_id ;; ret tt
  | call_get_or_create session_id customer_email =>
      ContextStore.get_or_create session_id customer_email ;; ret tt
  | call_add_message session_id sender text kwargs =>
      ContextStore.add_message session_id sender text kwargs ;; ret tt
  | call_delete session_id => ContextStore.delete session_id ;; ret tt
  end.

(** The world a call leaves behind, whether it returned or raised. *)
Definition after {Cb Env A} (m : M Cb Env A) (w : World Cb Env) : World Cb Env :=
  match m w with
  | Returned _ w' => w'
  | Raised _ w' => w'
  | OutOfFuel => w
  end.

Definition after_store_calls (calls : list StoreCall) (w : CoreWorld) : CoreWorld :=
  foldl (λ w c, after (store_call c) w) w calls.

(** The contexts the registry holds for a session id. *)
Definition contexts_for (session_id : string) (w : CoreWorld)
    : list (string * ConversationContext) :=
  filter (λ kc, ctx_session_id kc.2 = session_id)
    (map_to_list (_contexts (store (env w)))).

(** The history of the demonstration at the end of [context_store.py]: a
    user message, then the reply of an agent. *)
Definition demo_messages : list Message :=
  [ mkMessage "USER" "I need to return my laptop" 1 None None None None;
    mkMessage "AGENT" "I can help with that!" 2 None None None None ].

Definition demo_context : ConversationContext :=
  mkContext "session-123" 0 (Some "user@example.com") None (status_value ACTIVE)
    None None None demo_messages ∅ ∅ None None.

(** Every context is filed under its own session id. *)
Definition filed_by_session_id (w : CoreWorld) : Prop :=
  ∀ key context, _contexts (store (env w)) !! key = Some context →
                 ctx_session_id context = key.

(** ** Vocabulary of the system *)

(** The subscriber table after [startup]. *)
Definition system_subscribers : gmap string (list Handler) :=
  {[ "NEW_USER_MESSAGE" := [Coordinator_handle_new_message];
     "RESULT_SENTIMENT_RECOGNIZED" := [Coordinator_handle_sentiment_result];
     "RESULT_INTENT_RECOGNIZED" := [Coordinator_handle_intent_result];
     "REQUEST_ESCALATION" := [Coordinator_handle_escalation_request];
     "AGENT_ERROR" := [Coordinator_handle_agent_error];
     "TASK_ESCALATE" := [Escalation_handle_escalation];
     "OPERATOR_AVAILABLE" := [Escalation_assign_to_operator];
     "ESCALATION_RESOLVED" := [Escalation_handle_resolution] ]}.

(** The coordinator and the escalation agent are the subscribers. *)
Definition wired (w : CoreWorld) : Prop :=
  _subscribers (bus w) = system_subscribers.

(** The world after [startup]. *)
Definition system_start : CoreWorld := after startup initial_world.

(** The escalation agent after [handle_escalation] has queued a request
    read at time [now]. *)
Definition enqueued (session_id reason : string) (details context priority : Value)
    (now : nat) (a : EscalationAgent) : EscalationAgent :=
  let r := next_ref a in
  let s := escalation_stats a in
  mkEscalationAgent
    (<[r := mkEscalation session_id reason details context priority now "QUEUED"
              VNone None (length (queue a) + 1)]> (objects a))
    (S r)
    (if eq_str priority "HIGH" then r :: queue a else queue a ++ [r])
    (<[session_id := r]> (active_escalations a))
    (mkEscalationStats (total_escalations s + 1) (queued s + 1) (assigned s)
       (resolved s)
       (<[reason := (default 0 (by_reason s !! reason) + 1)%Z]> (by_reason s))).

(** The escalation agent after [assign_to_operator] has handed the record
    [r], the leftmost of the queue, to an operator at time [now]. *)
Definition assigned_record (operator_id : Value) (now : nat) (record : Escalation)
    : Escalation :=
  mkEscalation (esc_session_id record) (esc_reason record) (esc_details record)
    (esc_context record) (esc_priority record) (esc_escalated_at record)
    "ASSIGNED" operator_id (Some now) (esc_queue_position record).

Definition assigned_next (operator_id : Value) (now : nat) (r : nat)
    (record : Escalation) (a : EscalationAgent) : EscalationAgent :=
  let s := escalation_stats a in
  mkEscalationAgent
    (<[r := assigned_record operator_id now record]> (objects a))
    (next_ref a) (tail (queue a)) (active_escalations a)
    (mkEscalationStats (total_escalations s) (queued s - 1) (assigned s + 1)
       (resolved s) (by_reason s)).

(** The escalation agent after [handle_resolution] has resolved an active
    session. *)
Definition resolved_session (session_id : string) (a : EscalationAgent)
    : EscalationAgent :=
  let s := escalation_stats a in
  mkEscalationAgent (objects a) (next_ref a) (queue a)
    (base.delete session_id (active_escalations a))
    (mkEscalationStats (total_escalations s) (queued s) (assigned s - 1)
       (resolved s + 1) (by_reason s)).

(** The events announced between two worlds. *)
Definition announced_since {Cb Env} (w w' : World Cb Env) : list Event :=
  drop (length (announced w)) (announced w').

Definition of_type (ty : string) (events : list Event) : list Event :=
  filter (λ e, event_type e = ty) events.

(** The WARNING record [handle_resolution] writes for a session that is not
    in the map of active escalations. *)
Definition not_active_warning (session_id : string) : LogRecord :=
  mkLog WARNING ("[Escalation Agent] Session " +:+ session_id
                 +:+ " not found in active escalations").

(** ** Drivers of the escalation queue *)

(** The session a reference of the agent stands for. *)
Definition session_of (a : EscalationAgent) (r : nat) : option string :=
  esc_session_id <$> objects a !! r.

(** The sessions in the queue, leftmost first. *)
Definition queue_sessions (a : EscalationAgent) : list string :=
  omap (session_of a) (queue a).

(** References are handed out in increasing order. *)
Definition allocated_below (a : EscalationAgent) : Prop :=
  ∀ r, is_Some (objects a !! r) → r < next_ref a.

Definition queue_allocated (a : EscalationAgent) : Prop :=
  Forall (λ r, is_Some (objects a !! r)) (queue a).

(** An escalation request: [enqueue(session_id, reason, priority)], the
    priority being optional. *)
Record Request : Type := mkRequest {
  req_session_id : string;
  req_reason : string;
  req_priority : option string
}.

Definition is_high (r : Request) : bool :=
  match req_priority r with
  | Some priority => String.eqb priority "HIGH"
  | None => false
  end.

(** The payload of the "TASK_ESCALATE" event of a request. *)
Definition escalation_request (r : Request) : Payload :=
  match req_priority r with
  | Some priority =>
      {[ "session_id" := VStr (req_session_id r);
         "reason" := VStr (req_reason r);
         "priority" := VStr priority ]}
  | None =>
      {[ "session_id" := VStr (req_session_id r);
         "reason" := VStr (req_reason r) ]}
  end.

Fixpoint enqueue_all (fuel : nat) (requests : list Request) : CM unit :=
  match requests with
  | [] => ret tt
  | r :: rest =>
      bus_publish fuel "TASK_ESCALATE" (escalation_request r) ;;
      enqueue_all fuel rest
  end.

(** [assignNext] for each operator in turn. *)
Fixpoint assign_all (fuel : nat) (operators : list Value) : CM unit :=
  match operators with
  | [] => ret tt
  | operator_id :: rest =>
      bus_publish fuel "OPERATOR_AVAILABLE" {[ "operator_id" := operator_id ]} ;;
      assign_all fuel rest
  end.

(** The session an event assigns to an operator, if it is an assignment. *)
Definition assigned_session (e : Event) : option string :=
  if String.eqb (event_type e) "RESULT_OPERATOR_ASSIGNED" then
    match payload e !! "session_id" with
    | Some (VStr session_id) => Some session_id
    | _ => None
    end
  else None.

Definition assigned_sessions (events : list Event) : list string :=
  omap assigned_session events.

(** The order in which the sessions of [requests], queued one after the
    other on the system as it starts, are handed to as many operators. *)
Definition assignment_order (fuel : nat) (requests : list Request) : list string :=
  let w1 := after (enqueue_all fuel requests) system_start in
  let w2 := after (assign_all fuel (replicate (length requests) (VStr "operator")))
              w1 in
  assigned_sessions (announced_since w1 w2).

(** First in, first out within the priority classes that [class] admits:
    of two requests of one such priority, the earlier is assigned earlier. *)
Definition fifo_within_priority_of (class : Request → Prop)
    (requests : list Request) (order : list string) : Prop :=
  ∀ i j ri rj,
    i < j → requests !! i = Some ri → requests !! j = Some rj →
    class ri → class rj → req_priority ri = req_priority rj →
    ∃ a b, a < b ∧ order !! a = Some (req_session_id ri)
                 ∧ order !! b = Some (req_session_id rj).

(** First in, first out within every priority class. *)
Definition fifo_within_priority (requests : list Request) (order : list string)
    : Prop :=
  fifo_within_priority_of (λ _, True) requests order.

(** The example of the specification. *)
Definition requests_A_B_C : list Request :=
  [ mkRequest "A" "MANUAL_REQUEST" (Some "NORMAL");
    mkRequest "B" "MANUAL_REQUEST" (Some "HIGH");
    mkRequest "C" "MANUAL_REQUEST" (Some "NORMAL") ].

(** Two urgent requests. *)
Definition requests_two_high : list Request :=
  [ mkRequest "first" "NEGATIVE_SENTIMENT_ANGRY" (Some "HIGH");
    mkRequest "second" "NEGATIVE_SENTIMENT_ANGRY" (Some "HIGH") ].

(** The system after one escalation of session "s1", still in the queue. *)
Definition one_queued : CoreWorld :=
  after (enqueue_all 2 [mkRequest "s1" "LOW_INTENT_CONFIDENCE" None]) system_start.

(** The payload of an "ESCALATION_RESOLVED" event. *)
Definition resolution (session_id : string) (operator_id : Value) : Payload :=
  {[ "session_id" := VStr session_id; "operator_id" := operator_id ]}.

(** ** Vocabulary of the gates *)

(** Between [w] and [w'] the session went to a business process agent: one
    task of the routing table was published, and no escalation. *)
Definition routed_without_escalation (w w' : CoreWorld) : Prop :=
  (∃ intent task e,
      CoordinatorAgent.INTENT_ROUTING !! intent = Some task
      ∧ of_type task (announced_since w w') = [e])
  ∧ of_type "TASK_ESCALATE" (announced_since w w') = [].

(** Between [w] and [w'] the session was escalated once, for [reason], and
    no task of the routing table was published. *)
Definition escalated_for (reason session_id : string) (w w' : CoreWorld) : Prop :=
  (∃ e, of_type "TASK_ESCALATE" (announced_since w w') = [e]
        ∧ payload e !! "session_id" = Some (VStr session_id)
        ∧ payload e !! "reason" = Some (VStr reason))
  ∧ ∀ intent task, CoordinatorAgent.INTENT_ROUTING !! intent = Some task →
                   of_type task (announced_since w w') = [].

(** The system after the first message of session "s1". *)
Definition one_session : CoreWorld :=
  after (bus_publish 3 "NEW_USER_MESSAGE"
           {[ "session_id" := VStr "s1"; "text" := VStr "I cannot log in" ]})
    system_start.

(** An intent result at the threshold, for an intent the intent agent
    reports and the routing table does not list. *)
Definition account_issues_at_threshold : Payload :=
  {[ "session_id" := VStr "s1";
     "intent" := VStr "account_issues";
     "confidence" := VNum CoordinatorAgent.INTENT_CONFIDENCE_THRESHOLD ]}.

(** A sentiment result with the label "ANGRY". *)
Definition angry_result : Payload :=
  {[ "session_id" := VStr "s1";
     "sentiment" := VStr "ANGRY";
     "confidence" := VNum (9 # 10) ]}.

(** ** Vocabulary of the escalation records *)

(** [status ∈ {QUEUED, ASSIGNED}] *)
Definition is_outstanding (e : Escalation) : bool :=
  String.eqb (esc_status e) "QUEUED" || String.eqb (esc_status e) "ASSIGNED".

(** The record behind [r] is an outstanding record of [session_id]. *)
Definition outstanding_for (a : EscalationAgent) (session_id : string) (r : nat)
    : bool :=
  match objects a !! r with
  | Some e => String.eqb (esc_session_id e) session_id && is_outstanding e
  | None => false
  end.

(** The records the agent holds, in its queue or in its map of active
    escalations, each counted once. *)
Definition held_records (a : EscalationAgent) : list nat :=
  remove_dups (queue a ++ (map_to_list (active_escalations a)).*2).

(** The outstanding records the agent holds for a session. *)
Definition outstanding_records (a : EscalationAgent) (session_id : string)
    : list nat :=
  filter (λ r, outstanding_for a session_id r = true) (held_records a).

(** The outstanding records the map of active escalations holds for a
    session, with the keys they are filed under. *)
Definition active_records (a : EscalationAgent) (session_id : string)
    : list (string * nat) :=
  filter (λ kr, outstanding_for a session_id kr.2 = true)
    (map_to_list (active_escalations a)).

(** Every entry of the map of active escalations refers to an outstanding
    record of the session it is filed under, and references are handed out
    in increasing order. *)
Definition records_ok (objs : gmap nat Escalation) (next : nat)
    (active : gmap string nat) : Prop :=
  (∀ session_id r, active !! session_id = Some r →
     ∃ e, objs !! r = Some e ∧ esc_session_id e = session_id
          ∧ is_outstanding e = true)
  ∧ (∀ r, is_Some (objs !! r) → r < next).

Definition escalations_ok (w : CoreWorld) : Prop :=
  wired w
  ∧ records_ok (objects (escalation_agent (env w)))
      (next_ref (escalation_agent (env w)))
      (active_escalations (escalation_agent (env w))).

(** An event type whose subscribers, if any, are methods of the escalation
    agent. *)
Definition escalation_level (ty : string) : Prop :=
  Forall (λ cb, cb ∈ [Escalation_handle_escalation; Escalation_assign_to_operator;
                      Escalation_handle_resolution])
    (default [] (system_subscribers !! ty)).

(** Events published one after the other. *)
Fixpoint publish_all (fuel : nat) (events : list (string * Payload)) : CM unit :=
  match events with
  | [] => ret tt
  | (ty, p) :: rest => bus_publish fuel ty p ;; publish_all fuel rest
  end.

(** The system after two escalation requests for the session "s1". *)
Definition escalated_twice : CoreWorld :=
  after (enqueue_all 2 [ mkRequest "s1" "NEGATIVE_SENTIMENT_ANGRY" None;
                         mkRequest "s1" "LOW_INTENT_CONFIDENCE" None ])
    system_start.

(** An intent result at the threshold for an intent of the routing table. *)
Definition return_at_threshold : Payload :=
  {[ "session_id" := VStr "s1";
     "intent" := VStr "process_return";
     "confidence" := VNum CoordinatorAgent.INTENT_CONFIDENCE_THRESHOLD ]}.
(** ** Further drivers of the context store *)

(** Messages added to a session one after the other, each given by its
    sender and its text. *)
Fixpoint add_messages (session_id : string) (messages : list (string * string))
    : CM unit :=
  match messages with
  | [] => ret tt
  | (sender, text) :: rest =>
      ContextStore.add_message session_id sender text no_kwargs ;;
      add_messages session_id rest
  end.

(** The sender and the text of a message. *)
Definition sender_and_text (m : Message) : string * string :=
  (msg_sender m, msg_text m).

(** A call of the registry's interface, [clear_all] included. *)
Inductive RegistryCall : Type :=
| registry_call (c : StoreCall)
| registry_clear_all.

Definition registry_call_run (c : RegistryCall) : CM unit :=
  match c with
  | registry_call c => store_call c
  | registry_clear_all => ContextStore.clear_all
  end.

Definition after_registry_calls (calls : list RegistryCall) (w : CoreWorld)
    : CoreWorld :=
  foldl (λ w c, after (registry_call_run c) w) w calls.

(** The number of messages in the contexts the registry holds. *)
Definition stored_messages (contexts : gmap string ConversationContext) : nat :=
  sum_list ((λ kc, length (ctx_messages kc.2)) <$> map_to_list contexts).

(** What the counters of the registry say of its contents, whatever was
    called: [sessions_active] is the number of contexts held, sessions that
    ended were created, and every message held was counted. *)
Definition store_counts (s : ContextStore) : Prop :=
  sessions_active (_store_stats s) = Z.of_nat (size (_contexts s))
  ∧ (0 ≤ sessions_ended (_store_stats s))%Z
  ∧ (sessions_active (_store_stats s) + sessions_ended (_store_stats s)
     ≤ sessions_created (_store_stats s))%Z
  ∧ (Z.of_nat (stored_messages (_contexts s)) ≤ total_messages (_store_stats s))%Z.

Section EventBusCountersVocabulary.
Context {Cb : Type} {Env : Type}.

(** A call that comes back, by a return or by an exception, and leaves the
    counters of the bus as they were. *)
Definition keeps_counters (m : M Cb Env unit) : Prop :=
  ∀ w, match m w with
       | Returned _ w' => _stats (bus w') = _stats (bus w)
       | Raised _ w' => _stats (bus w') = _stats (bus w)
       | OutOfFuel => False
       end.

(** The calls of a delivery report that returned, and those that raised. *)
Definition returned_calls (report : list (Cb * bool)) : nat :=
  length (filter (λ r, r.2 = true) report).
Definition raised_calls (report : list (Cb * bool)) : nat :=
  length (filter (λ r, r.2 = false) report).

End EventBusCountersVocabulary.

(** ** Vocabulary of the counters of the system *)

(** The escalations counted by reason, added up. *)
Definition by_reason_total (counts : gmap string Z) : Z :=
  map_fold (λ _ n total, (n + total)%Z) 0%Z counts.

(** What the counters of the escalation agent say of its records: the queue
    holds the records that are QUEUED, each once; a reference is allocated
    exactly when it is below [next_ref]; [queued] is the length of the queue;
    [total_escalations] is the number of records created, and the sum of the
    counts by reason; [resolved] is not negative, and the escalations resolved
    and the active ones are not more than were created. *)
Definition agent_counts (objs : gmap nat Escalation) (next : nat) (q : list nat)
    (active : gmap string nat) (stats : EscalationStats) : Prop :=
  NoDup q
  ∧ (∀ r, r ∈ q ↔ ∃ e, objs !! r = Some e ∧ esc_status e = "QUEUED")
  ∧ (∀ r, is_Some (objs !! r) ↔ r < next)
  ∧ queued stats = Z.of_nat (length q)
  ∧ total_escalations stats = Z.of_nat next
  ∧ by_reason_total (by_reason stats) = total_escalations stats
  ∧ (0 ≤ resolved stats)%Z
  ∧ (resolved stats + Z.of_nat (size active) ≤ total_escalations stats)%Z.

(** What the counters of the registry and of the coordinator say of the
    contexts, in a system where nothing deletes a context: every context is
    filed under its own session id; the sessions created are the sessions
    held, all active, none ended; [total_messages] is the number of messages
    in the contexts, and it is the number of messages the coordinator has
    processed. *)
Definition registry_counts (contexts : gmap string ConversationContext)
    (stats : StoreStats) (processed : Z) : Prop :=
  (∀ key context, contexts !! key = Some context → ctx_session_id context = key)
  ∧ sessions_created stats = Z.of_nat (size contexts)
  ∧ sessions_active stats = Z.of_nat (size contexts)
  ∧ sessions_ended stats = 0%Z
  ∧ total_messages stats = Z.of_nat (stored_messages contexts)
  ∧ processed = total_messages stats.

Definition system_counts (w : CoreWorld) : Prop :=
  wired w
  ∧ agent_counts (objects (escalation_agent (env w)))
      (next_ref (escalation_agent (env w))) (queue (escalation_agent (env w)))
      (active_escalations (escalation_agent (env w)))
      (escalation_stats (escalation_agent (env w)))
  ∧ registry_counts (_contexts (store (env w))) (_store_stats (store (env w)))
      (messages_processed (coordinator_stats (env w))).

(** The payloads of the model. The docstrings of the handlers type the
    fields they read, and the model reads them at these types: a session
    id, a text, a label, a reason and the name of an agent are strings, the
    email of the customer is a string or [None], a confidence is a number,
    and the entities are a dictionary, or an object [if entities:] skips. A
    field the payload lacks is not constrained. *)
Definition is_str (v : Value) : bool :=
  match v with VStr _ => true | _ => false end.

Definition is_opt_str (v : Value) : bool :=
  match v with VStr _ | VNone => true | _ => false end.

Definition is_number (v : Value) : bool :=
  match as_number v with Some _ => true | None => false end.

Definition is_entities (v : Value) : bool :=
  match v with VDict _ => true | _ => negb (truthy v) end.

Definition field_is (check : Value → bool) (p : Payload) (key : string) : bool :=
  match p !! key with
  | Some v => check v
  | None => true
  end.

Definition typed_payload (p : Payload) : bool :=
  forallb (field_is is_str p)
    ["session_id"; "text"; "sentiment"; "intent"; "reason"; "agent_name"]
  && field_is is_opt_str p "customer_email"
  && field_is is_number p "confidence"
  && field_is is_entities p "entities".

Definition typed_events (events : list (string * Payload)) : bool :=
  forallb (λ e, typed_payload e.2) events.

(** A field of an entry of a list of dictionaries. *)
Definition entry_field (key : string) (entry : Value) : option Value :=
  match entry with
  | VDict d => d !! key
  | _ => None
  end.

(** ** Vocabulary of single events *)

(** The event [ty] with payload [p], published on [w], was handed to its
    subscriber, which logged an error and did nothing else: no component
    changed and nothing further was published. The bus counts the call as
    delivered. *)
Definition dropped_by_its_handler (fuel : nat) (ty : string) (p : Payload)
    (w : CoreWorld) : Prop :=
  ∃ record w',
    bus_publish fuel ty p w = Returned (event_of ty p w) w'
    ∧ env w' = env w
    ∧ announced w' = announced w ++ [event_of ty p w]
    ∧ log w' = log w ++ [record]
    ∧ levelname record = ERROR
    ∧ _stats (bus w')
      = mkBusStats (S (published (_stats (bus w)))) (S (delivered (_stats (bus w))))
          (errors (_stats (bus w))).

(** The event [ty] with payload [p], published on [w], made its subscriber
    raise [e]: the bus caught the exception, logged it and counted an error;
    no component changed and nothing further was published. *)
Definition failed_in_the_bus (fuel : nat) (ty : string) (p : Payload) (e : exn)
    (w : CoreWorld) : Prop :=
  ∃ w',
    bus_publish fuel ty p w = Returned (event_of ty p w) w'
    ∧ env w' = env w
    ∧ announced w' = announced w ++ [event_of ty p w]
    ∧ log w' = log w ++ [mkLog ERROR ("Error in subscriber callback for '" +:+ ty
                                      +:+ "': " +:+ str_of_exn e)]
    ∧ _stats (bus w')
      = mkBusStats (S (published (_stats (bus w)))) (delivered (_stats (bus w)))
          (S (errors (_stats (bus w)))).

(** The context of a session after [handle_new_message] has recorded the
    message [text] in it: the context the registry held, or the one it
    creates at [now], with the message appended; a new session is created
    one reading of the clock before its first message is stamped. *)
Definition with_user_message (session_id text : string) (email : option string)
    (now : nat) (held : option ConversationContext) : ConversationContext :=
  match held with
  | Some context =>
      set_messages (λ messages,
        messages ++ [mkMessage "USER" text now None None None None]) context
  | None =>
      mkContext session_id now email None (status_value ACTIVE) None None None
        [mkMessage "USER" text (S now) None None None None] ∅ ∅ None None
  end.

(** The messages of a session, none if the registry does not hold it. *)
Definition messages_of (session_id : string) (w : CoreWorld) : list Message :=
  match _contexts (store (env w)) !! session_id with
  | Some context => ctx_messages context
  | None => []
  end.

(** The payload of a "NEW_USER_MESSAGE" event. *)
Definition user_message (session_id text : string) : Payload :=
  {[ "session_id" := VStr session_id; "text" := VStr text ]}.

(** The messages of a user, one "NEW_USER_MESSAGE" event each. *)
Fixpoint send_messages (fuel : nat) (session_id : string) (texts : list string)
    : CM unit :=
  match texts with
  | [] => ret tt
  | text :: rest =>
      bus_publish fuel "NEW_USER_MESSAGE" (user_message session_id text) ;;
      send_messages fuel session_id rest
  end.

(** The texts sent to the sentiment agent. *)
Definition sentiment_tasks (events : list Event) : list Value :=
  omap (λ e, payload e !! "text") (of_type "TASK_RECOGNIZE_SENTIMENT" events).

(** Between [w] and [w'] the coordinator escalated the session for
    [reason], the request went through the escalation agent, and the new
    record was put at the back of the queue: the request of the coordinator
    carries no priority, which the agent takes for NORMAL. The record holds
    the context of the session as the registry has it afterwards, marked
    ESCALATED with the reason, or [None] for a session the registry does not
    hold; the record is the active escalation of the session. *)
Definition queued_at_the_back (session_id reason : string) (w w' : CoreWorld)
    : Prop :=
  ∃ record,
    queue (escalation_agent (env w'))
      = queue (escalation_agent (env w)) ++ [next_ref (escalation_agent (env w))]
    ∧ objects (escalation_agent (env w')) !! next_ref (escalation_agent (env w))
      = Some record
    ∧ esc_session_id record = session_id
    ∧ esc_reason record = reason
    ∧ esc_priority record = VStr "NORMAL"
    ∧ esc_status record = "QUEUED"
    ∧ esc_context record
      = opt_dict (ConversationContext.to_dict
                    <$> _contexts (store (env w')) !! session_id)
    ∧ active_escalations (escalation_agent (env w')) !! session_id
      = Some (next_ref (escalation_agent (env w)))
    ∧ escalations (coordinator_stats (env w'))
      = (escalations (coordinator_stats (env w)) + 1)%Z
    ∧ match _contexts (store (env w)) !! session_id with
      | Some _ =>
          ∃ context', _contexts (store (env w')) !! session_id = Some context'
                      ∧ ctx_status context' = "ESCALATED"
                      ∧ ctx_escalation_reason context' = Some reason
      | None => _contexts (store (env w')) !! session_id = None
      end.

(** ** Further concrete inputs *)

(** An urgent escalation request for the session "s2". *)
Definition urgent_request : Payload :=
  {[ "session_id" := VStr "s2";
     "reason" := VStr "NEGATIVE_SENTIMENT_ANGRY";
     "priority" := VStr "HIGH" ]}.

(** The request of a business process agent, which asks for priority. *)
Definition agent_request : Payload :=
  {[ "session_id" := VStr "s1";
     "reason" := VStr "BPA_CANNOT_HANDLE";
     "priority" := VStr "HIGH" ]}.

(** An event that names its session and nothing else. *)
Definition only_session : Payload := {[ "session_id" := VStr "s1" ]}.

(** The first message of a customer who is known by email. *)
Definition first_message : Payload :=
  {[ "session_id" := VStr "s1";
     "text" := VStr "I cannot log in";
     "customer_email" := VStr "user@example.com" ]}.


(** The context of the session "s1" after its first message. *)
Definition first_context : ConversationContext :=
  default demo_context (_contexts (store (env one_session)) !! "s1").

(** A conversation that ends with an operator: a message, an angry
    customer, a request of an agent for another session, an operator, and
    the resolution. *)
Definition conversation_events : list (string * Payload) :=
  [ ("NEW_USER_MESSAGE", first_message);
    ("RESULT_SENTIMENT_RECOGNIZED", angry_result);
    ("REQUEST_ESCALATION", urgent_request);
    ("OPERATOR_AVAILABLE", {[ "operator_id" := VStr "op-1" ]});
    ("ESCALATION_RESOLVED", resolution "s1" (VStr "op-1")) ].

(** A message that does not name its session. *)
Definition anonymous_message : Payload := {[ "text" := VStr "Hello" ]}.


(** Two callbacks on "PING": the first raises, the second returns. *)
Definition two_probes : World Probe (list Probe) :=
  probe_world [probe_raises; probe_returns].

(** A reply of an agent and the answer of the user. *)
Definition two_replies : list (string * string) :=
  [ ("AGENT", "I can help with that!"); ("USER", "Thank you") ].

(** Two messages of a user. *)
Definition two_texts : list string := [ "My order is late"; "It was due on Monday" ].

(** Two operators that become available. *)
Definition two_operators : list Value := [ VStr "op-2"; VStr "op-3" ].
(** * Properties *)

(** ** The monad *)

(** Unfolds the functional updates of the records of the world. *)
Ltac setters :=
  unfold set_env, set_bus, set_subscribers, set_stats, set_store,
    set_coordinator_stats, set_escalation_agent, set_contexts, set_store_stats,
    EscalationAgent.self_modify, EscalationAgent.self_gets,
    EscalationAgent.set_objects, EscalationAgent.set_queue,
    EscalationAgent.set_active_escalations, EscalationAgent.set_escalation_stats,
    CoordinatorAgent.incr_messages_processed, CoordinatorAgent.incr_escalations,
    CoordinatorAgent.incr_successful_routes, CoordinatorAgent.incr_errors in *.

Section MonadFacts.
Context {Cb : Type} `{!EqDecision Cb} {Env : Type}.
Implicit Types w : World Cb Env.

Lemma bind_Returned {A B} (m : M Cb Env A) (k : A → M Cb Env B) w a w' :
  m w = Returned a w' → bind m k w = k a w'.
Proof. unfold bind. by intros ->. Qed.

Lemma bind_Raised {A B} (m : M Cb Env A) (k : A → M Cb Env B) w e w' :
  m w = Raised e w' → bind m k w = Raised e w'.
Proof. unfold bind. by intros ->. Qed.

Lemma bind_OutOfFuel {A B} (m : M Cb Env A) (k : A → M Cb Env B) w :
  m w = OutOfFuel → bind m k w = OutOfFuel.
Proof. unfold bind. by intros ->. Qed.

End MonadFacts.

(** ** The event bus *)

Section EventBusFacts.
Context {Cb : Type} `{!EqDecision Cb} {Env : Type}.
Variable run : Cb → (string → Payload → M Cb Env Event) → Event → M Cb Env unit.
Implicit Types w : World Cb Env.

Lemma publish_report_unfold fuel ty p w :
  publish_report run (S fuel) ty p w =
  match snapshot ty w with
  | [] =>
      Returned (event_of ty p w, [])
        (mkWorld (set_stats incr_published (bus w)) (env w) (S (clock w))
           (S (uuids w))
           (log w ++ [mkLog WARNING ("No subscribers for event type '" +:+ ty +:+ "'")])
           (announced w ++ [event_of ty p w]))
  | subscribers =>
      bind (deliver (λ cb, run cb (publish run fuel)) subscribers (event_of ty p w))
        (λ r, ret (event_of ty p w, r)) (dispatching ty p w)
  end.
Proof.
  unfold snapshot. cbn [publish_report]. unfold bind at 1. cbn.
  destruct (_subscribers (bus w) !! ty) as [[|cb l]|]; reflexivity.
Qed.

Lemma publish_unfold fuel ty p w :
  publish run fuel ty p w =
  bind (publish_report run fuel ty p) (λ r, ret (fst r)) w.
Proof. reflexivity. Qed.

Lemma publish_inert fuel ty p w :
  snapshot ty w = [] →
  publish run (S fuel) ty p w = Returned (event_of ty p w) (undelivered ty p w).
Proof.
  intros H. rewrite publish_unfold.
  erewrite bind_Returned; [|rewrite publish_report_unfold, H; reflexivity].
  reflexivity.
Qed.

Lemma publish_single fuel ty p w cb :
  snapshot ty w = [cb] →
  publish run (S fuel) ty p w =
  match run cb (publish run fuel) (event_of ty p w) (dispatching ty p w) with
  | Returned _ w' =>
      Returned (event_of ty p w) (set_bus (set_stats incr_delivered) w')
  | Raised e w' =>
      Returned (event_of ty p w)
        (mkWorld (set_stats incr_errors (bus w')) (env w') (clock w') (uuids w')
           (log w' ++ [mkLog ERROR ("Error in subscriber callback for '" +:+ ty
                                    +:+ "': " +:+ str_of_exn e)])
           (announced w'))
  | OutOfFuel => OutOfFuel
  end.
Proof.
  intros H. rewrite publish_unfold. unfold bind at 1.
  rewrite publish_report_unfold, H. cbn [deliver]. unfold bind at 1.
  change ((λ cb0, run cb0 (publish run fuel)) cb) with (run cb (publish run fuel)).
  destruct (run cb (publish run fuel) (event_of ty p w) (dispatching ty p w));
    reflexivity.
Qed.

Lemma stable_same (I : World Cb Env → Prop) w w' :
  stable I → I w →
  _subscribers (bus w') = _subscribers (bus w) → env w' = env w → I w'.
Proof.
  intros HI Hw Hs He. destruct w' as [[subs st] e c u l a]. cbn in *. subst.
  by apply HI.
Qed.

Lemma deliver_keeps (I : World Cb Env → Prop) (call : Cb → Event → M Cb Env unit)
    subscribers event :
  stable I →
  (∀ cb, cb ∈ subscribers → keeps I (call cb event)) →
  ∀ w, I w → ∃ report w', deliver call subscribers event w = Returned report w'
                          ∧ I w'.
Proof.
  intros HI. induction subscribers as [|cb rest IH]; intros Hcall w Hw.
  - by exists [], w.
  - cbn [deliver].
    assert (Hrest : ∀ cb', cb' ∈ rest → keeps I (call cb' event))
      by (intros; apply Hcall; by right).
    pose proof (Hcall cb ltac:(by left) w Hw) as Hcb.
    destruct (call cb event w) as [[] w1|e w1|]; [| |done].
    + unfold bind at 1. cbn [modify].
      destruct (IH Hrest (set_bus (set_stats incr_delivered) w1)) as (r & w' & Hr & Hw').
      { by eapply stable_same. }
      exists ((cb, true) :: r), w'. by rewrite (bind_Returned _ _ _ _ _ Hr).
    + unfold bind at 1. cbn [modify]. unfold bind at 1. cbn [logger].
      match goal with |- context [bind _ _ ?w0] =>
        destruct (IH Hrest w0) as (r & w' & Hr & Hw') end.
      { by eapply stable_same. }
      exists ((cb, false) :: r), w'. by rewrite (bind_Returned _ _ _ _ _ Hr).
Qed.

(** [publish] keeps an invariant that its subscribers keep; the publish
    they may call back into has one unit of fuel less. *)
Lemma publish_keeps (I : World Cb Env → Prop) fuel ty p w :
  stable I →
  (∀ cb event, cb ∈ snapshot ty w → keeps I (run cb (publish run fuel) event)) →
  I w →
  ∃ w', publish run (S fuel) ty p w = Returned (event_of ty p w) w' ∧ I w'.
Proof.
  intros HI Hrun Hw. rewrite publish_unfold. unfold bind at 1.
  rewrite publish_report_unfold.
  destruct (snapshot ty w) as [|cb rest] eqn:Hsnap.
  - eexists. split; [reflexivity|]. by eapply stable_same.
  - destruct (deliver_keeps I (λ cb, run cb (publish run fuel)) (cb :: rest)
                (event_of ty p w) HI) with (w := dispatching ty p w)
      as (report & w' & Hdel & Hw').
    + intros cb' Hin. by apply Hrun.
    + by eapply stable_same.
    + exists w'. by rewrite (bind_Returned _ _ _ _ _ Hdel).
Qed.

Lemma deliver_report (call : Cb → Event → M Cb Env unit) subscribers event w :
  (∀ cb w1, cb ∈ subscribers → call cb event w1 ≠ OutOfFuel) →
  ∃ report w', deliver call subscribers event w = Returned report w'
               ∧ report.*1 = subscribers.
Proof.
  revert w. induction subscribers as [|cb rest IH]; intros w Hret.
  - by exists [], w.
  - cbn [deliver].
    assert (Hrest : ∀ cb' w1, cb' ∈ rest → call cb' event w1 ≠ OutOfFuel)
      by (intros; apply Hret; by right).
    destruct (call cb event w) as [[] w1|e w1|] eqn:Hcall.
    + unfold bind at 1. cbn [modify].
      destruct (IH (set_bus (set_stats incr_delivered) w1) Hrest) as (r & w' & Hr & Hfst).
      exists ((cb, true) :: r), w'. split; [|by rewrite fmap_cons, Hfst].
      by rewrite (bind_Returned _ _ _ _ _ Hr).
    + unfold bind at 1. cbn [modify]. unfold bind at 1. cbn [logger].
      match goal with |- context [bind _ _ ?w0] =>
        destruct (IH w0 Hrest) as (r & w' & Hr & Hfst) end.
      exists ((cb, false) :: r), w'. split; [|by rewrite fmap_cons, Hfst].
      by rewrite (bind_Returned _ _ _ _ _ Hr).
    + exfalso. eapply Hret; [by left | done].
Qed.

(** C6. [publish] builds the event from its arguments and hands it, within
    the call, to the subscribers the table lists for the type at the moment
    of dispatch: once per entry, in subscription order, whatever the
    callbacks do meanwhile (they may subscribe, unsubscribe or publish), as
    long as each call comes back. With no subscriber nothing is called, the
    event is returned all the same and one WARNING record is logged. *)
Theorem publish_delivers_snapshot_in_order fuel ty p w :
  (∀ cb w1, cb ∈ snapshot ty w →
     run cb (publish run fuel) (event_of ty p w) w1 ≠ OutOfFuel) →
  ∃ event report w',
    publish_report run (S fuel) ty p w = Returned (event, report) w'
    ∧ publish run (S fuel) ty p w = Returned event w'
    ∧ event_type event = ty ∧ payload event = p
    ∧ report.*1 = snapshot ty w
    ∧ (snapshot ty w = [] →
       bus w' = set_stats incr_published (bus w) ∧ env w' = env w
       ∧ log w' = log w ++ [mkLog WARNING ("No subscribers for event type '"
                                            +:+ ty +:+ "'")]).
Proof.
  intros Hret.
  assert (∃ report w',
    publish_report run (S fuel) ty p w = Returned (event_of ty p w, report) w'
    ∧ report.*1 = snapshot ty w
    ∧ (snapshot ty w = [] →
       bus w' = set_stats incr_published (bus w) ∧ env w' = env w
       ∧ log w' = log w ++ [mkLog WARNING ("No subscribers for event type '"
                                            +:+ ty +:+ "'")]))
    as (report & w' & Hrep & Hfst & Hnone).
  { rewrite publish_report_unfold.
    destruct (snapshot ty w) as [|cb rest] eqn:Hsnap.
    - eexists [], _. split; [reflexivity|]. by cbn.
    - destruct (deliver_report (λ cb, run cb (publish run fuel)) (cb :: rest)
                  (event_of ty p w) (dispatching ty p w) Hret)
        as (report & w' & Hdel & Hfst).
      exists report, w'. by rewrite (bind_Returned _ _ _ _ _ Hdel). }
  exists (event_of ty p w), report, w'. split; [done|]. split; [|done].
  by rewrite publish_unfold, (bind_Returned _ _ _ _ _ Hrep).
Qed.

(** C5. Two handlers are subscribed to one event type, the first raises
    and the second returns, and neither touches the delivery counters
    itself. Then [publish] returns normally, it has called both handlers,
    the first then the second, and the [delivered] and the [errors]
    counters have each grown by exactly one. *)
Theorem publish_isolates_failing_handler fuel ty p w h1 h2 :
  _subscribers (bus w) !! ty = Some [h1; h2] →
  (∀ w1, ∃ e w2, run h1 (publish run fuel) (event_of ty p w) w1 = Raised e w2
                 ∧ delivered (_stats (bus w2)) = delivered (_stats (bus w1))
                 ∧ errors (_stats (bus w2)) = errors (_stats (bus w1))) →
  (∀ w1, ∃ w2, run h2 (publish run fuel) (event_of ty p w) w1 = Returned tt w2
               ∧ delivered (_stats (bus w2)) = delivered (_stats (bus w1))
               ∧ errors (_stats (bus w2)) = errors (_stats (bus w1))) →
  ∃ w', publish_report run (S fuel) ty p w
          = Returned (event_of ty p w, [(h1, false); (h2, true)]) w'
        ∧ publish run (S fuel) ty p w = Returned (event_of ty p w) w'
        ∧ delivered (_stats (bus w')) = S (delivered (_stats (bus w)))
        ∧ errors (_stats (bus w')) = S (errors (_stats (bus w))).
Proof.
  intros Hsubs Hraise Hreturn.
  assert (∃ w', publish_report run (S fuel) ty p w
                  = Returned (event_of ty p w, [(h1, false); (h2, true)]) w'
        ∧ delivered (_stats (bus w')) = S (delivered (_stats (bus w)))
        ∧ errors (_stats (bus w')) = S (errors (_stats (bus w))))
    as (w' & Hrep & Hd & He).
  { rewrite publish_report_unfold. unfold snapshot. rewrite Hsubs.
    cbn [default from_option id deliver].
    destruct (Hraise (dispatching ty p w)) as (e & w1 & Hr1 & Hd1 & He1).
    unfold bind at 1. cbn beta. rewrite Hr1.
    unfold bind at 1. cbn [modify]. unfold bind at 1. cbn [logger].
    unfold bind at 1. cbn beta.
    match goal with |- context [run h2 _ _ ?w0] =>
      destruct (Hreturn w0) as (w2 & Hr2 & Hd2 & He2); rewrite Hr2 end.
    eexists. split; [reflexivity|]. cbn. rewrite Hd2, He2. cbn.
    by rewrite Hd1, He1. }
  exists w'. split; [done|]. split; [|done].
  by rewrite publish_unfold, (bind_Returned _ _ _ _ _ Hrep).
Qed.

End EventBusFacts.

Lemma publish_delivers_snapshot_in_order_witness :
  (∀ cb w1, cb ∈ snapshot "PING" (probe_world [probe_rewires; probe_returns]) →
     run_probe cb (publish run_probe 1)
       (event_of "PING" ∅ (probe_world [probe_rewires; probe_returns])) w1
     ≠ OutOfFuel)
  ∧ ∃ event report w',
      publish_report run_probe 2 "PING" ∅ (probe_world [probe_rewires; probe_returns])
        = Returned (event, report) w'
      ∧ publish run_probe 2 "PING" ∅ (probe_world [probe_rewires; probe_returns])
        = Returned event w'
      ∧ event_type event = "PING" ∧ payload event = ∅
      ∧ report.*1 = snapshot "PING" (probe_world [probe_rewires; probe_returns])
      ∧ (snapshot "PING" (probe_world [probe_rewires; probe_returns]) = [] →
         bus w' = set_stats incr_published
                    (bus (probe_world [probe_rewires; probe_returns]))
         ∧ env w' = env (probe_world [probe_rewires; probe_returns])
         ∧ log w' = log (probe_world [probe_rewires; probe_returns])
                    ++ [mkLog WARNING ("No subscribers for event type '"
                                       +:+ "PING" +:+ "'")]).
Proof.
  assert (H : ∀ cb w1,
    cb ∈ snapshot "PING" (probe_world [probe_rewires; probe_returns]) →
    run_probe cb (publish run_probe 1)
      (event_of "PING" ∅ (probe_world [probe_rewires; probe_returns])) w1
    ≠ OutOfFuel).
  { intros cb w1 _. destruct cb; cbn; try discriminate.
    unfold unsubscribe, bind, gets. cbn.
    destruct (_subscribers (bus w1) !! "PING") as [l|]; [|discriminate].
    destruct (list_remove probe_returns l); discriminate. }
  split; [exact H|].
  exact (publish_delivers_snapshot_in_order run_probe 1 "PING" ∅
           (probe_world [probe_rewires; probe_returns]) H).
Defined.

(** The scenario of the witness, run: [probe_rewires] has taken
    [probe_returns] off the table and put [probe_late] on it, and the
    publish in flight still called [probe_returns] and not [probe_late]. *)
Example publish_ignores_rewiring_in_flight :
  ∃ event w',
    publish_report run_probe 2 "PING" ∅ (probe_world [probe_rewires; probe_returns])
      = Returned (event, [(probe_rewires, true); (probe_returns, true)]) w'
    ∧ env w' = [probe_rewires; probe_returns]
    ∧ _subscribers (bus w') !! "PING" = Some [probe_rewires; probe_late].
Proof. eexists _, _. split; [vm_compute; reflexivity|]. by vm_compute. Qed.

Lemma publish_isolates_failing_handler_witness :
  _subscribers (bus (probe_world [probe_raises; probe_returns])) !! "PING"
    = Some [probe_raises; probe_returns]
  ∧ ∃ w', publish_report run_probe 1 "PING" ∅ (probe_world [probe_raises; probe_returns])
            = Returned (event_of "PING" ∅ (probe_world [probe_raises; probe_returns]),
                        [(probe_raises, false); (probe_returns, true)]) w'
          ∧ publish run_probe 1 "PING" ∅ (probe_world [probe_raises; probe_returns])
            = Returned (event_of "PING" ∅ (probe_world [probe_raises; probe_returns])) w'
          ∧ delivered (_stats (bus w')) = 1
          ∧ errors (_stats (bus w')) = 1.
Proof.
  split; [reflexivity|].
  apply (publish_isolates_failing_handler run_probe 0 "PING" ∅
           (probe_world [probe_raises; probe_returns]) probe_raises probe_returns).
  - reflexivity.
  - intros w1. eexists _, _. repeat split; reflexivity.
  - intros w1. eexists _. repeat split; reflexivity.
Defined.

(** ** The context store *)

Lemma on_last_message_snoc f msgs m :
  on_last_message f (msgs ++ [m]) = msgs ++ [f m].
Proof.
  unfold on_last_message. destruct (msgs ++ [m]) as [|m0 l] eqn:E.
  - by destruct msgs.
  - rewrite <- E, length_app. cbn [length].
    replace (length msgs + 1 - 1) with (length msgs + 0) by lia.
    by rewrite alter_app_r.
Qed.

Lemma on_last_message_length f msgs :
  length (on_last_message f msgs) = length msgs.
Proof. destruct msgs; [done|]. unfold on_last_message. by rewrite length_alter. Qed.

(** Messages are appended, never inserted or dropped. *)
Lemma add_message_appends sender text kwargs now ctx :
  ctx_messages (ConversationContext.add_message sender text kwargs now ctx).2
  = ctx_messages ctx
    ++ [(ConversationContext.add_message sender text kwargs now ctx).1].
Proof. reflexivity. Qed.

(** A label touches the last message only, and there only the label. *)
Lemma update_sentiment_frame s ctx msgs m :
  ctx_messages ctx = msgs ++ [m] →
  ctx_messages (ConversationContext.update_sentiment s ctx)
  = msgs ++ [set_sentiment_label s m].
Proof. intros H. cbn. by rewrite H, on_last_message_snoc. Qed.

Lemma update_intent_frame i c ctx msgs m :
  ctx_messages ctx = msgs ++ [m] →
  ctx_messages (ConversationContext.update_intent i c ctx)
  = msgs ++ [set_intent_label i m].
Proof. intros H. cbn. by rewrite H, on_last_message_snoc. Qed.

(** C4, at the history of the module's own demonstration. The sentiment and
    the intent found for the user's message are attached to the agent's
    reply, which is the last message; the user's message, the most recent
    one of the sender that was classified, stays without a label. Nothing
    else changes: two messages before, the same two senders, texts and
    timestamps after. *)
Theorem update_sentiment_labels_last_message_not_last_user_message :
  ctx_messages (ConversationContext.update_sentiment "NEUTRAL" demo_context)
  = [ mkMessage "USER" "I need to return my laptop" 1 None None None None;
      mkMessage "AGENT" "I can help with that!" 2 None (Some "NEUTRAL") None None ]
  ∧ ctx_messages (ConversationContext.update_intent "process_return" (95 # 100)
                    demo_context)
  = [ mkMessage "USER" "I need to return my laptop" 1 None None None None;
      mkMessage "AGENT" "I can help with that!" 2 (Some "process_return") None
        None None ].
Proof. split; reflexivity. Qed.

Lemma create_session_existing (w : CoreWorld) sid email ctx :
  _contexts (store (env w)) !! sid = Some ctx →
  ContextStore.create_session sid email w
  = Raised (ValueError ("Session " +:+ sid +:+ " already exists")) w.
Proof.
  intros H. unfold ContextStore.create_session, bind, gets. cbn.
  rewrite H. by rewrite decide_True by eauto.
Qed.

Lemma create_session_fresh (w : CoreWorld) sid email :
  _contexts (store (env w)) !! sid = None →
  ∃ w', ContextStore.create_session sid email w
        = Returned (mkContext sid (clock w) email None (status_value ACTIVE)
                      None None None [] ∅ ∅ None None) w'
        ∧ _contexts (store (env w'))
          = <[sid := mkContext sid (clock w) email None (status_value ACTIVE)
                       None None None [] ∅ ∅ None None]> (_contexts (store (env w))).
Proof.
  intros H. unfold ContextStore.create_session, bind, gets. cbn.
  rewrite H. rewrite decide_False by (by intros [? ?]).
  eexists. split; reflexivity.
Qed.

Lemma store_call_filed c (w : CoreWorld) :
  filed_by_session_id w → filed_by_session_id (after (store_call c) w).
Proof.
  intros Hw. unfold after. destruct c as [sid email|sid|sid email|sid sender text kw|sid];
    cbn [store_call].
  - destruct (_contexts (store (env w)) !! sid) as [ctx|] eqn:E.
    + unfold bind at 1. by rewrite (create_session_existing _ _ _ _ E).
    + destruct (create_session_fresh w sid email E) as (w' & Hc & Hm).
      unfold bind at 1. rewrite Hc. cbn. intros k c. rewrite Hm.
      intros [[<- <-]|[_ H]]%lookup_insert_Some; [done|by apply Hw].
  - done.
  - unfold ContextStore.get_or_create, ContextStore.get, bind at 1 2, gets.
    destruct (_contexts (store (env w)) !! sid) as [ctx|] eqn:E; [done|].
    destruct (create_session_fresh w sid email E) as (w' & Hc & Hm).
    rewrite Hc. cbn. intros k c. rewrite Hm.
    intros [[<- <-]|[_ H]]%lookup_insert_Some; [done|by apply Hw].
  - unfold ContextStore.add_message, bind at 1 2, gets.
    destruct (_contexts (store (env w)) !! sid) as [ctx|] eqn:E; [|done].
    setters. intros k c. cbn.
    intros [[<- <-]|[_ H]]%lookup_insert_Some; [cbn; by apply Hw|by apply Hw].
  - unfold ContextStore.delete, bind at 1 2, gets.
    destruct (_contexts (store (env w)) !! sid) as [ctx|] eqn:E; [|done].
    setters. intros k c. cbn. intros [_ H]%lookup_delete_Some. by apply Hw.
Qed.

Lemma after_store_calls_filed calls (w : CoreWorld) :
  filed_by_session_id w → filed_by_session_id (after_store_calls calls w).
Proof.
  revert w. induction calls as [|c calls IH]; intros w Hw; [done|].
  cbn. apply IH. by apply store_call_filed.
Qed.

Lemma contexts_for_at_most_one sid (w : CoreWorld) :
  filed_by_session_id w → (length (contexts_for sid w) ≤ 1)%nat.
Proof.
  intros Hw. unfold contexts_for.
  set (m := _contexts (store (env w))) in *.
  assert (Hnd : NoDup (filter (λ kc : string * ConversationContext,
                                 ctx_session_id kc.2 = sid) (map_to_list m)))
    by apply NoDup_filter, NoDup_map_to_list.
  assert (Hall : ∀ kc, kc ∈ filter (λ kc : string * ConversationContext,
                                      ctx_session_id kc.2 = sid) (map_to_list m) →
                       kc.1 = sid ∧ m !! sid = Some kc.2).
  { intros [k c] [Hs Hin]%list_elem_of_filter. cbn in *.
    apply elem_of_map_to_list in Hin. pose proof (Hw k c Hin) as Hk.
    rewrite Hs in Hk. subst k. done. }
  destruct (filter _ (map_to_list m)) as [|[k1 c1] [|[k2 c2] l]]; cbn; try lia.
  exfalso.
  destruct (Hall (k1, c1)) as [E1 L1]; [by left|].
  destruct (Hall (k2, c2)) as [E2 L2]; [by right; left|].
  cbn in *. subst. rewrite L1 in L2. injection L2 as ->.
  apply NoDup_cons in Hnd as [Hnot _]. apply Hnot. by left.
Qed.

(** C7. [create_session] with a session id the registry already holds
    raises [ValueError] to its caller and leaves the world as it was, the
    context filed under that id included; [get_or_create] hands that
    context back and creates nothing. And whatever calls of create, get,
    get-or-create, add-message and delete are made on a new registry, it
    never holds two contexts for one session id. *)
Theorem create_session_refuses_duplicate (w : CoreWorld) sid email ctx :
  _contexts (store (env w)) !! sid = Some ctx →
  ContextStore.create_session sid email w
  = Raised (ValueError ("Session " +:+ sid +:+ " already exists")) w
  ∧ ContextStore.get_or_create sid email w = Returned ctx w
  ∧ ∀ calls sid',
      (length (contexts_for sid' (after_store_calls calls initial_world)) ≤ 1)%nat.
Proof.
  intros H. split; [by eapply create_session_existing|]. split.
  - unfold ContextStore.get_or_create, ContextStore.get, bind, gets. by rewrite H.
  - intros calls sid'. apply contexts_for_at_most_one, after_store_calls_filed.
    intros k c. cbn. by rewrite lookup_empty.
Qed.

(** ** The system on the bus *)

Lemma startup_wires :
  startup initial_world = Returned tt system_start ∧ wired system_start.
Proof.
  split; [vm_compute; reflexivity|].
  unfold wired. apply (bool_decide_unpack _). vm_compute. exact I.
Qed.

(** Symbolic execution of a handler on a world whose records have been
    taken apart: unfolds the monad, the handlers and the record updates, and
    leaves maps, lists, strings and numbers alone. *)
Ltac wdestruct w :=
  destruct w as [[subs [npub ndel nerr]]
                 [[ctxs [screated sactive sended stotal]]
                  [cproc cesc croutes cerrs]
                  [objs nref q act [etotal equeued eassigned eresolved ereason]]]
                 clk uu lg ann].

Ltac mcbv :=
  cbv [bind ret raise try_except gets modify logger utcnow uuid4 announce
       getitem as_str as_opt_str as_float as_dict format_2f
       on_context
       bus env clock uuids log announced _subscribers _stats
       published delivered errors incr_published incr_delivered incr_errors
       store coordinator_stats escalation_agent _contexts _store_stats
       sessions_created sessions_active sessions_ended total_messages
       messages_processed escalations successful_routes coordinator_errors
       objects next_ref queue active_escalations escalation_stats
       total_escalations queued assigned resolved by_reason
       event_type payload timestamp event_id fst snd
       set_env set_bus set_subscribers set_stats set_store set_coordinator_stats
       set_escalation_agent set_contexts set_store_stats
       EscalationAgent.self_modify EscalationAgent.self_gets
       EscalationAgent.set_objects EscalationAgent.set_queue
       EscalationAgent.set_active_escalations EscalationAgent.set_escalation_stats
       EscalationAgent.new_object EscalationAgent.deref
       EscalationAgent._estimate_wait_time EscalationAgent._calculate_total_time
       EscalationAgent.handle_escalation EscalationAgent.assign_to_operator
       EscalationAgent.handle_resolution
       CoordinatorAgent.incr_messages_processed CoordinatorAgent.incr_escalations
       CoordinatorAgent.incr_successful_routes CoordinatorAgent.incr_errors
       CoordinatorAgent._escalate CoordinatorAgent._emergency_escalate
       CoordinatorAgent._route_to_agent
       CoordinatorAgent.handle_new_message CoordinatorAgent.handle_sentiment_result
       CoordinatorAgent.handle_intent_result
       CoordinatorAgent.handle_escalation_request CoordinatorAgent.handle_agent_error
       ContextStore.get ContextStore.get_or_create ContextStore.create_session
       ContextStore.add_message ContextStore.delete
       event_of undelivered dispatching snapshot].

Ltac wdestruct' w :=
  destruct w as [[subs' [npub' ndel' nerr']]
                 [[ctxs' [screated' sactive' sended' stotal']]
                  [cproc' cesc' croutes' cerrs']
                  [objs' nref' q' act' [etotal' equeued' eassigned' eresolved' ereason']]]
                 clk' uu' lg' ann'].

(** Filters a list of events whose types are known. *)
Ltac filter_types :=
  unfold of_type;
  repeat first
    [ rewrite filter_cons_True by (cbn [event_type]; congruence)
    | rewrite filter_cons_False by (cbn [event_type]; congruence) ];
  rewrite ?filter_nil.

(** Looks a key up in a dictionary display. *)
Ltac plookup :=
  repeat first
    [ rewrite lookup_insert_eq
    | rewrite lookup_insert_ne by discriminate
    | rewrite lookup_singleton_eq
    | rewrite lookup_singleton_ne by discriminate
    | rewrite lookup_empty ].

(** A publish to [ty], which has no subscriber in the wired system. *)
Ltac inert ty :=
  rewrite (publish_inert run _ ty) by
    (cbv [snapshot bus _subscribers]; by vm_compute).

(** The handler behind a subscribed method. *)
Ltac unrun :=
  repeat match goal with
  | |- context [run Coordinator_handle_new_message ?pub] =>
      change (run Coordinator_handle_new_message pub) with (CoordinatorAgent.handle_new_message pub)
  | |- context [run Coordinator_handle_sentiment_result ?pub] =>
      change (run Coordinator_handle_sentiment_result pub) with (CoordinatorAgent.handle_sentiment_result pub)
  | |- context [run Coordinator_handle_intent_result ?pub] =>
      change (run Coordinator_handle_intent_result pub) with (CoordinatorAgent.handle_intent_result pub)
  | |- context [run Coordinator_handle_escalation_request ?pub] =>
      change (run Coordinator_handle_escalation_request pub) with (CoordinatorAgent.handle_escalation_request pub)
  | |- context [run Coordinator_handle_agent_error ?pub] =>
      change (run Coordinator_handle_agent_error pub) with (CoordinatorAgent.handle_agent_error pub)
  | |- context [run Escalation_handle_escalation ?pub] =>
      change (run Escalation_handle_escalation pub) with (EscalationAgent.handle_escalation pub)
  | |- context [run Escalation_assign_to_operator ?pub] =>
      change (run Escalation_assign_to_operator pub) with (EscalationAgent.assign_to_operator pub)
  | |- context [run Escalation_handle_resolution ?pub] =>
      change (run Escalation_handle_resolution pub) with (EscalationAgent.handle_resolution pub)
  end.

(** A publish to [ty], which has the one subscriber [cb]. *)
Ltac single ty cb :=
  rewrite (publish_single run _ ty _ _ cb) by
    (cbv [snapshot bus _subscribers]; by vm_compute);
  unrun.

(** The world of a statement, taken apart, with the subscriber table of
    the wired system. *)
Ltac wproj :=
  cbv [bus env clock uuids log announced _subscribers _stats
       store coordinator_stats escalation_agent _contexts _store_stats
       objects next_ref queue active_escalations escalation_stats wired] in *.

Ltac wired_world w Hw :=
  wdestruct w; wproj; subst; unfold bus_publish.

(** The event types nobody in the system subscribes to. *)
Lemma wired_inert (w : CoreWorld) ty :
  wired w → system_subscribers !! ty = None → snapshot ty w = [].
Proof. unfold wired, snapshot. by intros -> ->. Qed.

Lemma wired_snapshot (w : CoreWorld) ty l :
  wired w → system_subscribers !! ty = Some l → snapshot ty w = l.
Proof. unfold wired, snapshot. by intros -> ->. Qed.

Lemma publish_task_escalate f (w : CoreWorld) sid reason p :
  wired w →
  p !! "session_id" = Some (VStr sid) →
  p !! "reason" = Some (VStr reason) →
  ∃ e2 e3 w',
    bus_publish (S (S f)) "TASK_ESCALATE" p w
      = Returned (event_of "TASK_ESCALATE" p w) w'
    ∧ wired w'
    ∧ store (env w') = store (env w)
    ∧ coordinator_stats (env w') = coordinator_stats (env w)
    ∧ escalation_agent (env w')
      = enqueued sid reason (get_default p "details" (VDict ∅))
          (get_default p "context" VNone)
          (get_default p "priority" (VStr "NORMAL")) (S (clock w))
          (escalation_agent (env w))
    ∧ announced w' = announced w ++ [event_of "TASK_ESCALATE" p w; e2; e3]
    ∧ event_type e2 = "RESULT_ESCALATION_COMPLETE"
    ∧ event_type e3 = "NOTIFICATION_OPERATOR".
Proof.
  intros Hw Hsid Hreason. wired_world w Hw.
  single "TASK_ESCALATE" Escalation_handle_escalation.
  mcbv. rewrite Hsid. mcbv. rewrite Hreason. mcbv.
  destruct (eq_str _ "HIGH") eqn:Hhigh; mcbv;
    inert "RESULT_ESCALATION_COMPLETE"; mcbv;
    inert "NOTIFICATION_OPERATOR"; mcbv.
  all: eexists _, _, _; split; [reflexivity|]; unfold wired, enqueued; cbn;
    rewrite Hhigh, <- !app_assoc; done.
Qed.

Lemma publish_operator_available_empty f (w : CoreWorld) operator_id p :
  wired w →
  p !! "operator_id" = Some operator_id →
  queue (escalation_agent (env w)) = [] →
  ∃ e2 w',
    bus_publish (S (S f)) "OPERATOR_AVAILABLE" p w
      = Returned (event_of "OPERATOR_AVAILABLE" p w) w'
    ∧ wired w'
    ∧ env w' = env w
    ∧ announced w' = announced w ++ [event_of "OPERATOR_AVAILABLE" p w; e2]
    ∧ event_type e2 = "RESULT_OPERATOR_ASSIGNED"
    ∧ payload e2 !! "assigned" = Some (VBool false)
    ∧ payload e2 !! "reason" = Some (VStr "QUEUE_EMPTY")
    ∧ payload e2 !! "session_id" = None.
Proof.
  intros Hw Hop Hq. wired_world w Hw.
  single "OPERATOR_AVAILABLE" Escalation_assign_to_operator.
  mcbv. rewrite Hop. mcbv.
  inert "RESULT_OPERATOR_ASSIGNED". mcbv.
  eexists _, _. split; [reflexivity|]. cbv [wired bus _subscribers env announced
    event_type payload]. rewrite <- !app_assoc. done.
Qed.

Lemma publish_operator_available_next f (w : CoreWorld) operator_id p r rest record :
  wired w →
  p !! "operator_id" = Some operator_id →
  queue (escalation_agent (env w)) = r :: rest →
  objects (escalation_agent (env w)) !! r = Some record →
  ∃ e2 w',
    bus_publish (S (S f)) "OPERATOR_AVAILABLE" p w
      = Returned (event_of "OPERATOR_AVAILABLE" p w) w'
    ∧ wired w'
    ∧ store (env w') = store (env w)
    ∧ coordinator_stats (env w') = coordinator_stats (env w)
    ∧ escalation_agent (env w')
      = assigned_next operator_id (S (clock w)) r record (escalation_agent (env w))
    ∧ announced w' = announced w ++ [event_of "OPERATOR_AVAILABLE" p w; e2]
    ∧ event_type e2 = "RESULT_OPERATOR_ASSIGNED"
    ∧ payload e2 !! "assigned" = Some (VBool true)
    ∧ payload e2 !! "operator_id" = Some operator_id
    ∧ payload e2 !! "session_id" = Some (VStr (esc_session_id record)).
Proof.
  intros Hw Hop Hq Hr. wired_world w Hw.
  single "OPERATOR_AVAILABLE" Escalation_assign_to_operator.
  mcbv. rewrite Hop. mcbv. rewrite Hr. mcbv.
  inert "RESULT_OPERATOR_ASSIGNED". mcbv.
  eexists _, _. split; [reflexivity|]. cbv [wired bus _subscribers env announced
    event_type payload store coordinator_stats escalation_agent assigned_next
    assigned_record objects next_ref queue active_escalations escalation_stats
    total_escalations queued assigned resolved by_reason tail].
  rewrite <- !app_assoc. done.
Qed.

Lemma publish_resolution_unknown f (w : CoreWorld) sid p :
  wired w →
  p !! "session_id" = Some (VStr sid) →
  active_escalations (escalation_agent (env w)) !! sid = None →
  ∃ record w',
    bus_publish (S (S f)) "ESCALATION_RESOLVED" p w
      = Returned (event_of "ESCALATION_RESOLVED" p w) w'
    ∧ wired w'
    ∧ env w' = env w
    ∧ announced w' = announced w ++ [event_of "ESCALATION_RESOLVED" p w]
    ∧ log w' = log w ++ [record]
    ∧ (is_Some (p !! "operator_id") → record = not_active_warning sid).
Proof.
  intros Hw Hsid Hact. wired_world w Hw.
  single "ESCALATION_RESOLVED" Escalation_handle_resolution.
  mcbv. rewrite Hsid. mcbv.
  destruct (p !! "operator_id") as [op|] eqn:Hop; mcbv.
  - rewrite Hact. eexists _, _. split; [reflexivity|]. repeat split; done.
  - eexists _, _. split; [reflexivity|]. repeat split; done.
Qed.

Lemma publish_resolution_active f (w : CoreWorld) sid operator_id p r record :
  wired w →
  p !! "session_id" = Some (VStr sid) →
  p !! "operator_id" = Some operator_id →
  active_escalations (escalation_agent (env w)) !! sid = Some r →
  objects (escalation_agent (env w)) !! r = Some record →
  ∃ e2 w',
    bus_publish (S (S f)) "ESCALATION_RESOLVED" p w
      = Returned (event_of "ESCALATION_RESOLVED" p w) w'
    ∧ wired w'
    ∧ store (env w') = store (env w)
    ∧ coordinator_stats (env w') = coordinator_stats (env w)
    ∧ escalation_agent (env w') = resolved_session sid (escalation_agent (env w))
    ∧ announced w' = announced w ++ [event_of "ESCALATION_RESOLVED" p w; e2]
    ∧ event_type e2 = "RESULT_ESCALATION_RESOLVED"
    ∧ payload e2 !! "session_id" = Some (VStr sid).
Proof.
  intros Hw Hsid Hop Hact Hr. wired_world w Hw.
  single "ESCALATION_RESOLVED" Escalation_handle_resolution.
  mcbv. rewrite Hsid. mcbv. rewrite Hop. mcbv. rewrite Hact. mcbv.
  rewrite Hr. mcbv. inert "RESULT_ESCALATION_RESOLVED". mcbv.
  eexists _, _. split; [reflexivity|]. cbv [wired bus _subscribers env announced
    event_type payload store coordinator_stats escalation_agent resolved_session
    objects next_ref queue active_escalations escalation_stats
    total_escalations queued assigned resolved by_reason].
  rewrite <- !app_assoc. done.
Qed.

(** C9. Resolving a session that is not in the map of active escalations
    raises nothing and changes nothing: the state of every component is as
    before, the only event announced is the resolution notice itself (no
    confirmation is published), and one record is logged. So of two
    resolutions of an active session the first takes it out of the map and
    publishes one confirmation, and the second is that no-op. *)
Theorem resolution_is_idempotent f (w : CoreWorld) sid p :
  wired w →
  p !! "session_id" = Some (VStr sid) →
  (active_escalations (escalation_agent (env w)) !! sid = None →
   ∃ record w',
     bus_publish (S (S f)) "ESCALATION_RESOLVED" p w
       = Returned (event_of "ESCALATION_RESOLVED" p w) w'
     ∧ env w' = env w
     ∧ of_type "RESULT_ESCALATION_RESOLVED" (announced_since w w') = []
     ∧ log w' = log w ++ [record]
     ∧ (is_Some (p !! "operator_id") → record = not_active_warning sid))
  ∧ (∀ r record,
       active_escalations (escalation_agent (env w)) !! sid = Some r →
       objects (escalation_agent (env w)) !! r = Some record →
       is_Some (p !! "operator_id") →
       ∃ confirmation w1 w2,
         bus_publish (S (S f)) "ESCALATION_RESOLVED" p w
           = Returned (event_of "ESCALATION_RESOLVED" p w) w1
         ∧ escalation_agent (env w1) = resolved_session sid (escalation_agent (env w))
         ∧ of_type "RESULT_ESCALATION_RESOLVED" (announced_since w w1) = [confirmation]
         ∧ bus_publish (S (S f)) "ESCALATION_RESOLVED" p w1
           = Returned (event_of "ESCALATION_RESOLVED" p w1) w2
         ∧ env w2 = env w1
         ∧ of_type "RESULT_ESCALATION_RESOLVED" (announced_since w1 w2) = []
         ∧ log w2 = log w1 ++ [not_active_warning sid]).
Proof.
  intros Hw Hsid. split.
  - intros Hact.
    destruct (publish_resolution_unknown f w sid p Hw Hsid Hact)
      as (record & w' & Hpub & _ & Henv & Hann & Hlog & Hrec).
    exists record, w'. repeat split; try done.
    unfold announced_since. rewrite Hann, drop_app_length. by vm_compute.
  - intros r record Hact Hr [op Hop].
    destruct (publish_resolution_active f w sid op p r record Hw Hsid Hop Hact Hr)
      as (e2 & w1 & Hpub1 & Hw1 & _ & _ & Hagent & Hann1 & Hty & _).
    assert (Hact1 : active_escalations (escalation_agent (env w1)) !! sid = None)
      by (rewrite Hagent; cbn; apply lookup_delete_eq).
    destruct (publish_resolution_unknown f w1 sid p Hw1 Hsid Hact1)
      as (record' & w2 & Hpub2 & _ & Henv2 & Hann2 & Hlog2 & Hrec2).
    exists e2, w1, w2. repeat split; try done.
    + unfold announced_since. rewrite Hann1, drop_app_length.
      unfold of_type. rewrite filter_cons_False by (cbn; discriminate).
      rewrite filter_cons_True by done. done.
    + unfold announced_since. rewrite Hann2, drop_app_length. by vm_compute.
    + rewrite Hlog2, Hrec2; eauto.
Qed.

(** *** The queue discipline *)

Lemma session_of_enqueued a sid reason details context priority now r :
  allocated_below a → is_Some (objects a !! r) →
  session_of (enqueued sid reason details context priority now a) r = session_of a r.
Proof.
  intros Hb Hr. unfold session_of, enqueued. cbn.
  rewrite lookup_insert_ne; [done|]. specialize (Hb r Hr). lia.
Qed.

Lemma enqueued_allocated_below a sid reason details context priority now :
  allocated_below a →
  allocated_below (enqueued sid reason details context priority now a).
Proof.
  intros Hb r. unfold enqueued. cbn.
  rewrite lookup_insert_is_Some. intros [<-|[_ Hr]]; [lia|].
  specialize (Hb r Hr). lia.
Qed.

Lemma enqueued_queue_allocated a sid reason details context priority now :
  queue_allocated a →
  queue_allocated (enqueued sid reason details context priority now a).
Proof.
  unfold queue_allocated, enqueued. cbn. intros Hq.
  assert (Hold : Forall (λ r, is_Some (<[next_ref a :=
            mkEscalation sid reason details context priority now "QUEUED" VNone None
              (length (queue a) + 1)]> (objects a) !! r)) (queue a)).
  { eapply Forall_impl; [exact Hq|]. intros r Hr. cbn.
    rewrite lookup_insert_is_Some. destruct (decide (next_ref a = r)); auto. }
  assert (Hnew : is_Some (<[next_ref a :=
            mkEscalation sid reason details context priority now "QUEUED" VNone None
              (length (queue a) + 1)]> (objects a) !! next_ref a))
    by (rewrite lookup_insert_eq; eauto).
  destruct (eq_str priority "HIGH").
  - by apply Forall_cons.
  - apply Forall_app. split; [done|]. by apply Forall_singleton.
Qed.

Lemma enqueued_queue_sessions a sid reason details context priority now :
  allocated_below a → queue_allocated a →
  queue_sessions (enqueued sid reason details context priority now a)
  = if eq_str priority "HIGH" then sid :: queue_sessions a
    else queue_sessions a ++ [sid].
Proof.
  intros Hb Hq. unfold queue_sessions.
  assert (Hold : omap (session_of (enqueued sid reason details context priority now a))
                   (queue a) = omap (session_of a) (queue a)).
  { unfold queue_allocated in Hq. induction Hq as [|r l Hr Hl IH]; [done|].
    cbn. rewrite IH. by rewrite session_of_enqueued. }
  assert (Hnew : session_of (enqueued sid reason details context priority now a)
                   (next_ref a) = Some sid).
  { unfold session_of, enqueued. cbn. by rewrite lookup_insert_eq. }
  unfold enqueued at 2. cbn [queue]. destruct (eq_str priority "HIGH").
  - cbn [omap list_omap]. by rewrite Hnew, Hold.
  - rewrite omap_app, Hold. cbn. by rewrite Hnew.
Qed.

Lemma session_of_assigned_next a operator_id now r record r' :
  objects a !! r = Some record →
  session_of (assigned_next operator_id now r record a) r' = session_of a r'.
Proof.
  intros Hr. unfold session_of, assigned_next. cbn.
  destruct (decide (r = r')) as [<-|Hne].
  - by rewrite lookup_insert_eq, Hr.
  - by rewrite lookup_insert_ne.
Qed.

Lemma is_Some_session_of a r : is_Some (session_of a r) ↔ is_Some (objects a !! r).
Proof. unfold session_of. by rewrite fmap_is_Some. Qed.

Lemma omap_session_of_ext a a' (l : list nat) :
  (∀ r, session_of a' r = session_of a r) →
  omap (session_of a') l = omap (session_of a) l.
Proof. intros H. induction l as [|r l IH]; [done|]. cbn. by rewrite H, IH. Qed.

Lemma assigned_sessions_app l1 l2 :
  assigned_sessions (l1 ++ l2) = assigned_sessions l1 ++ assigned_sessions l2.
Proof. apply omap_app. Qed.

Lemma escalation_request_fields req :
  escalation_request req !! "session_id" = Some (VStr (req_session_id req))
  ∧ escalation_request req !! "reason" = Some (VStr (req_reason req))
  ∧ eq_str (get_default (escalation_request req) "priority" (VStr "NORMAL")) "HIGH"
    = is_high req.
Proof.
  unfold escalation_request, is_high, get_default.
  destruct (req_priority req) as [priority|]; repeat split;
    by simplify_map_eq.
Qed.

(** Queuing requests one after the other: a HIGH request goes to the front,
    any other one to the back. *)
Lemma enqueue_all_queue f requests (w : CoreWorld) :
  wired w →
  allocated_below (escalation_agent (env w)) →
  queue_allocated (escalation_agent (env w)) →
  ∃ new w',
    enqueue_all (S (S f)) requests w = Returned tt w'
    ∧ wired w'
    ∧ allocated_below (escalation_agent (env w'))
    ∧ queue_allocated (escalation_agent (env w'))
    ∧ queue_sessions (escalation_agent (env w'))
      = rev (req_session_id <$> filter (λ r, is_high r = true) requests)
        ++ queue_sessions (escalation_agent (env w))
        ++ (req_session_id <$> filter (λ r, is_high r ≠ true) requests)
    ∧ announced w' = announced w ++ new
    ∧ assigned_sessions new = [].
Proof.
  revert w. induction requests as [|req requests IH]; intros w Hw Hb Hq.
  - exists [], w. cbn. by rewrite !app_nil_r.
  - destruct (escalation_request_fields req) as (Hsid & Hreason & Hhigh).
    destruct (publish_task_escalate f w _ _ _ Hw Hsid Hreason)
      as (e2 & e3 & w1 & Hpub & Hw1 & _ & _ & Hagent & Hann & Hty2 & Hty3).
    destruct (IH w1 Hw1) as (new & w' & Hall & Hw' & Hb' & Hq' & Hqs & Hann' & Hnew).
    { rewrite Hagent. by apply enqueued_allocated_below. }
    { rewrite Hagent. by apply enqueued_queue_allocated. }
    exists ([event_of "TASK_ESCALATE" (escalation_request req) w; e2; e3] ++ new), w'.
    cbn [enqueue_all]. unfold bind at 1. rewrite Hpub. repeat split; try done.
    + rewrite Hqs, Hagent, enqueued_queue_sessions, Hhigh by done.
      destruct (is_high req) eqn:E.
      * rewrite filter_cons_True by done.
        rewrite filter_cons_False by (rewrite E; by intros H).
        rewrite fmap_cons. cbn [rev]. by rewrite <- !app_assoc.
      * rewrite filter_cons_False by (by rewrite E).
        rewrite filter_cons_True by (by rewrite E).
        rewrite fmap_cons. by rewrite <- !app_assoc.
    + by rewrite Hann', Hann, <- app_assoc.
    + rewrite assigned_sessions_app, Hnew, app_nil_r.
      unfold assigned_sessions. cbn. unfold assigned_session at 1 2 3.
      cbn [event_of event_type]. rewrite Hty2, Hty3. done.
Qed.

(** Operators take the sessions from the front of the queue, in the order
    of the queue. *)
Lemma assign_all_queue f operators (w : CoreWorld) :
  wired w →
  queue_allocated (escalation_agent (env w)) →
  ∃ new w',
    assign_all (S (S f)) operators w = Returned tt w'
    ∧ wired w'
    ∧ queue (escalation_agent (env w'))
      = drop (length operators) (queue (escalation_agent (env w)))
    ∧ (∀ r, session_of (escalation_agent (env w')) r
            = session_of (escalation_agent (env w)) r)
    ∧ active_escalations (escalation_agent (env w'))
      = active_escalations (escalation_agent (env w))
    ∧ announced w' = announced w ++ new
    ∧ assigned_sessions new
      = take (length operators) (queue_sessions (escalation_agent (env w))).
Proof.
  revert w. induction operators as [|op operators IH]; intros w Hw Hq.
  - exists [], w. cbn. by rewrite app_nil_r.
  - cbn [assign_all]. unfold bind at 1.
    assert (Hop : ({[ "operator_id" := op ]} : Payload) !! "operator_id" = Some op)
      by apply lookup_singleton_eq.
    destruct (queue (escalation_agent (env w))) as [|r rest] eqn:Eq.
    + destruct (publish_operator_available_empty f w op _ Hw Hop Eq)
        as (e2 & w1 & Hpub & Hw1 & Henv & Hann & Hty & _ & _ & Hnone).
      destruct (IH w1 Hw1) as (new & w' & Hall & Hw' & Hqueue & Hs & Hact & Hann' & Hnew).
      { by rewrite Henv. }
      rewrite Hpub.
      exists ([event_of "OPERATOR_AVAILABLE" {[ "operator_id" := op ]} w; e2] ++ new), w'.
      rewrite Henv in *. unfold queue_sessions in *. rewrite Eq in *.
      repeat split; try done.
      * rewrite Hqueue. by rewrite !drop_nil.
      * by rewrite Hann', Hann, <- app_assoc.
      * rewrite assigned_sessions_app, Hnew. cbn. rewrite take_nil.
        unfold assigned_session. cbn. by rewrite Hty, Hnone.
    + unfold queue_allocated in Hq. rewrite Eq in Hq.
      apply Forall_cons in Hq as [[record Hr] Hrest].
      destruct (publish_operator_available_next f w op _ r rest record Hw Hop Eq Hr)
        as (e2 & w1 & Hpub & Hw1 & _ & _ & Hagent & Hann & Hty & _ & _ & Hsid).
      assert (Hsame : ∀ r', session_of (escalation_agent (env w1)) r'
                            = session_of (escalation_agent (env w)) r')
        by (intros; rewrite Hagent; by apply session_of_assigned_next).
      assert (Hq1 : queue (escalation_agent (env w1)) = rest)
        by (rewrite Hagent; cbn; by rewrite Eq).
      destruct (IH w1 Hw1) as (new & w' & Hall & Hw' & Hqueue & Hs & Hact & Hann' & Hnew).
      { unfold queue_allocated. rewrite Hq1.
        eapply Forall_impl; [exact Hrest|]. intros r' Hr'. cbn in Hr'.
        by rewrite <- is_Some_session_of, Hsame, is_Some_session_of. }
      rewrite Hpub.
      exists ([event_of "OPERATOR_AVAILABLE" {[ "operator_id" := op ]} w; e2] ++ new), w'.
      repeat split; try done.
      * by rewrite Hqueue, Hq1.
      * intros r'. by rewrite Hs, Hsame.
      * rewrite Hact, Hagent. done.
      * by rewrite Hann', Hann, <- app_assoc.
      * rewrite assigned_sessions_app, Hnew.
        unfold queue_sessions. rewrite Hq1, Eq.
        rewrite (omap_session_of_ext _ _ rest Hsame).
        cbn [omap list_omap length take].
        assert (Hsr : session_of (escalation_agent (env w)) r
                      = Some (esc_session_id record))
          by (unfold session_of; by rewrite Hr).
        rewrite Hsr. cbn. unfold assigned_session. cbn. by rewrite Hty, Hsid.
Qed.

Lemma system_start_agent :
  escalation_agent (env system_start) = EscalationAgent.init.
Proof. vm_compute. reflexivity. Qed.

Lemma omap_session_of_length a (l : list nat) :
  Forall (λ r, is_Some (objects a !! r)) l →
  length (omap (session_of a) l) = length l.
Proof.
  induction 1 as [|r l Hr Hl IH]; [done|]. cbn.
  apply is_Some_session_of in Hr as [s ->]. cbn. by rewrite IH.
Qed.

Lemma high_or_not_length (requests : list Request) :
  length (filter (λ r, is_high r = true) requests)
  + length (filter (λ r, is_high r ≠ true) requests) = length requests.
Proof.
  induction requests as [|r l IH]; [done|].
  destruct (is_high r) eqn:E.
  - rewrite filter_cons_True by done.
    rewrite filter_cons_False by (rewrite E; by intros H). cbn. lia.
  - rewrite filter_cons_False by (by rewrite E).
    rewrite filter_cons_True by (by rewrite E). cbn. lia.
Qed.

Lemma assignment_order_eq f requests :
  assignment_order (S (S f)) requests
  = rev (req_session_id <$> filter (λ r, is_high r = true) requests)
    ++ (req_session_id <$> filter (λ r, is_high r ≠ true) requests).
Proof.
  unfold assignment_order. cbv zeta.
  destruct startup_wires as [_ Hw].
  destruct (enqueue_all_queue f requests system_start Hw)
    as (new1 & w1 & Hall1 & Hw1 & Hb1 & Hq1 & Hqs1 & Hann1 & _).
  { rewrite system_start_agent. intros r. cbn. rewrite lookup_empty. by intros [? ?]. }
  { rewrite system_start_agent. by apply Forall_nil. }
  assert (after (enqueue_all (S (S f)) requests) system_start = w1) as ->
    by (unfold after; by rewrite Hall1).
  destruct (assign_all_queue f (replicate (length requests) (VStr "operator")) w1 Hw1 Hq1)
    as (new2 & w2 & Hall2 & _ & _ & _ & _ & Hann2 & Hnew2).
  assert (after (assign_all (S (S f)) (replicate (length requests) (VStr "operator")))
            w1 = w2) as -> by (unfold after; by rewrite Hall2).
  unfold announced_since.
  rewrite Hann2, drop_app_length, Hnew2, Hqs1.
  rewrite system_start_agent. cbn [queue_sessions EscalationAgent.init queue omap
    list_omap app].
  rewrite take_ge; [done|].
  rewrite length_replicate, length_app, length_rev, !length_fmap.
  by rewrite high_or_not_length.
Qed.

Lemma filter_keeps_order {A} (P : A → Prop) `{!∀ x, Decision (P x)}
    (l : list A) i j x y :
  i < j → l !! i = Some x → l !! j = Some y → P x → P y →
  ∃ a b, a < b ∧ filter P l !! a = Some x ∧ filter P l !! b = Some y.
Proof.
  revert i j. induction l as [|z l IH]; intros i j Hij Hi Hj Px Py; [done|].
  destruct j as [|j]; [lia|]. cbn in Hj. destruct i as [|i].
  - cbn in Hi. injection Hi as ->. rewrite filter_cons_True by done.
    assert (y ∈ filter P l) as [b Hb]%list_elem_of_lookup.
    { apply list_elem_of_filter. split; [done|]. by eapply list_elem_of_lookup_2. }
    exists 0, (S b). repeat split; [lia|done..].
  - cbn in Hi. destruct (IH i j) as (a & b & Hab & Ha & Hb); [lia|done..|].
    destruct (decide (P z)).
    + rewrite filter_cons_True by done. exists (S a), (S b). repeat split; [lia|done..].
    + rewrite filter_cons_False by done. exists a, b. done.
Qed.

Lemma assignment_order_fifo_below_high f requests :
  fifo_within_priority_of (λ r, is_high r ≠ true) requests
    (assignment_order (S (S f)) requests).
Proof.
  intros i j ri rj Hij Hi Hj Hci Hcj _. rewrite assignment_order_eq.
  destruct (filter_keeps_order (λ r, is_high r ≠ true) requests i j ri rj)
    as (a & b & Hab & Ha & Hb); [done..|].
  remember (rev (req_session_id <$> filter (λ r, is_high r = true) requests))
    as high.
  exists (length high + a), (length high + b). split; [lia|].
  split; rewrite lookup_app_r by lia.
  - replace (length high + a - length high) with a by lia.
    by rewrite list_lookup_fmap, Ha.
  - replace (length high + b - length high) with b by lia.
    by rewrite list_lookup_fmap, Hb.
Qed.

(** C2, as the code has it. A HIGH request goes to the front of the queue
    and any other to the back, and operators take from the front: the
    sessions are assigned in the order "the HIGH ones, the latest first,
    then the others in their order of arrival". Hence requests that are not
    HIGH are assigned first in, first out; A (NORMAL), B (HIGH), C (NORMAL)
    are assigned as B, A, C; and two HIGH requests are assigned last in,
    first out. *)
Theorem escalation_queue_assignment_order fuel requests :
  (2 ≤ fuel)%nat →
  assignment_order fuel requests
  = rev (req_session_id <$> filter (λ r, is_high r = true) requests)
    ++ (req_session_id <$> filter (λ r, is_high r ≠ true) requests)
  ∧ fifo_within_priority_of (λ r, is_high r ≠ true) requests
      (assignment_order fuel requests)
  ∧ assignment_order fuel requests_A_B_C = ["B"; "A"; "C"]
  ∧ assignment_order fuel requests_two_high = ["second"; "first"].
Proof.
  intros Hfuel. destruct fuel as [|[|f]]; [lia..|].
  split; [apply assignment_order_eq|].
  split; [apply assignment_order_fifo_below_high|].
  split; by rewrite assignment_order_eq.
Qed.

Lemma escalation_queue_assignment_order_witness :
  (2 ≤ 2)%nat
  ∧ assignment_order 2 requests_A_B_C
    = rev (req_session_id <$> filter (λ r, is_high r = true) requests_A_B_C)
      ++ (req_session_id <$> filter (λ r, is_high r ≠ true) requests_A_B_C)
  ∧ fifo_within_priority_of (λ r, is_high r ≠ true) requests_A_B_C
      (assignment_order 2 requests_A_B_C)
  ∧ assignment_order 2 requests_A_B_C = ["B"; "A"; "C"]
  ∧ assignment_order 2 requests_two_high = ["second"; "first"].
Proof.
  split; [lia|]. apply (escalation_queue_assignment_order 2 requests_A_B_C). lia.
Defined.

(** C2, as the specification has it, fails: two HIGH requests are of one
    priority class and the later one is assigned first. *)
Lemma escalation_queue_not_fifo_within_high :
  ¬ fifo_within_priority requests_two_high (assignment_order 2 requests_two_high).
Proof.
  rewrite assignment_order_eq. intros H.
  destruct (H 0 1 (mkRequest "first" "NEGATIVE_SENTIMENT_ANGRY" (Some "HIGH"))
              (mkRequest "second" "NEGATIVE_SENTIMENT_ANGRY" (Some "HIGH")))
    as (a & b & Hab & Ha & Hb); [lia|done..|].
  destruct b as [|[|b]]; [lia| |done].
  destruct a as [|[|a]]; [done|lia|lia].
Qed.

Lemma take_to_element {A} (l1 l2 : list A) x :
  take (S (length l1)) (l1 ++ x :: l2) = l1 ++ [x].
Proof. induction l1 as [|y l1 IH]; cbn; [by rewrite take_0|]. by rewrite <- IH. Qed.

Lemma take_queue_sessions a pre r rest sid :
  queue_allocated a →
  queue a = pre ++ r :: rest →
  session_of a r = Some sid →
  take (S (length pre)) (queue_sessions a) = omap (session_of a) pre ++ [sid].
Proof.
  intros Hq Eq Hr. unfold queue_sessions, queue_allocated in *. rewrite Eq in *.
  apply Forall_app in Hq as [Hpre _].
  rewrite omap_app. cbn. rewrite Hr.
  rewrite <- (omap_session_of_length a pre Hpre). apply take_to_element.
Qed.

(** C10. An escalation that is resolved while it is still in the queue
    leaves the map of active escalations and stays in the queue, at its
    place. When the operators come, the one whose turn reaches that place
    is handed the session that has been resolved. *)
Theorem resolved_while_queued_is_assigned_later f (w : CoreWorld) sid operator_id
    r record pre rest operators :
  wired w →
  queue_allocated (escalation_agent (env w)) →
  active_escalations (escalation_agent (env w)) !! sid = Some r →
  objects (escalation_agent (env w)) !! r = Some record →
  esc_session_id record = sid →
  esc_status record = "QUEUED" →
  queue (escalation_agent (env w)) = pre ++ r :: rest →
  length operators = S (length pre) →
  ∃ w1 new w2,
    bus_publish (S (S f)) "ESCALATION_RESOLVED" (resolution sid operator_id) w
      = Returned (event_of "ESCALATION_RESOLVED" (resolution sid operator_id) w) w1
    ∧ active_escalations (escalation_agent (env w1)) !! sid = None
    ∧ queue (escalation_agent (env w1)) = pre ++ r :: rest
    ∧ objects (escalation_agent (env w1)) !! r = Some record
    ∧ assign_all (S (S f)) operators w1 = Returned tt w2
    ∧ announced w2 = announced w1 ++ new
    ∧ last (assigned_sessions new) = Some sid
    ∧ queue (escalation_agent (env w2)) = rest
    ∧ active_escalations (escalation_agent (env w2)) !! sid = None.
Proof.
  intros Hw Hq Hact Hr Hsid Hstatus Eq Hlen.
  destruct (publish_resolution_active f w sid operator_id (resolution sid operator_id)
              r record Hw) as (e2 & w1 & Hpub & Hw1 & _ & _ & Hagent & _);
    [by simplify_map_eq..|done|done|].
  assert (Hq1 : queue_allocated (escalation_agent (env w1))) by by rewrite Hagent.
  destruct (assign_all_queue f operators w1 Hw1 Hq1)
    as (new & w2 & Hall & _ & Hqueue & _ & Hact2 & Hann & Hnew).
  assert (Hqs : queue_sessions (escalation_agent (env w1))
                = queue_sessions (escalation_agent (env w)))
    by by rewrite Hagent.
  assert (Hq' : queue (escalation_agent (env w1)) = pre ++ r :: rest)
    by by rewrite Hagent.
  assert (Hact1 : active_escalations (escalation_agent (env w1)) !! sid = None)
    by (rewrite Hagent; apply lookup_delete_eq).
  exists w1, new, w2. repeat split; try done.
  - by rewrite Hagent.
  - rewrite Hnew, Hlen, Hqs.
    erewrite take_queue_sessions; [by rewrite last_snoc|done|done|].
    unfold session_of. by rewrite Hr, <- Hsid.
  - rewrite Hqueue, Hq', Hlen. cbn.
    replace (pre ++ r :: rest) with ((pre ++ [r]) ++ rest) by by rewrite <- app_assoc.
    replace (S (length pre)) with (length (pre ++ [r]))
      by (rewrite length_app; cbn; lia).
    by rewrite drop_app_length.
  - by rewrite Hact2.
Qed.

(** *** The gates *)

(** The nested escalation of a gate: the request goes through the
    escalation agent and comes back. *)
Ltac escalate_through_bus f sid reason :=
  match goal with |- context [publish run _ "TASK_ESCALATE" ?p ?w1] =>
    let Hpub := fresh "Hpub" in
    destruct (publish_task_escalate f w1 sid reason p)
      as (?e2 & ?e3 & ?w2 & Hpub & ?Hw2 & ?Hstore & _ & _ & ?Hann & ?Hty2 & ?Hty3);
      [done|by plookup..|];
    unfold bus_publish in Hpub; rewrite Hpub; clear Hpub
  end.

Lemma gate1_decision f (w : CoreWorld) sid label ctx p :
  wired w →
  _contexts (store (env w)) !! sid = Some ctx →
  p !! "session_id" = Some (VStr sid) →
  p !! "sentiment" = Some (VStr label) →
  is_Some (as_number (get_default p "confidence" (VNum 0))) →
  ∃ w',
    bus_publish (S (S (S f))) "RESULT_SENTIMENT_RECOGNIZED" p w
      = Returned (event_of "RESULT_SENTIMENT_RECOGNIZED" p w) w'
    ∧ if bool_decide (label ∈ CoordinatorAgent.SENTIMENT_ESCALATION_LABELS) then
        (∃ e, of_type "TASK_ESCALATE" (announced_since w w') = [e]
              ∧ payload e !! "session_id" = Some (VStr sid)
              ∧ payload e !! "reason" = Some (VStr ("NEGATIVE_SENTIMENT_" +:+ label)))
        ∧ of_type "TASK_RECOGNIZE_INTENT" (announced_since w w') = []
        ∧ ∃ ctx', _contexts (store (env w')) !! sid = Some ctx'
                  ∧ ctx_status ctx' = status_value ESCALATED
                  ∧ ctx_escalation_reason ctx' = Some ("NEGATIVE_SENTIMENT_" +:+ label)
      else
        (∃ e, of_type "TASK_RECOGNIZE_INTENT" (announced_since w w') = [e]
              ∧ payload e !! "session_id" = Some (VStr sid))
        ∧ of_type "TASK_ESCALATE" (announced_since w w') = []
        ∧ ∃ ctx', _contexts (store (env w')) !! sid = Some ctx'
                  ∧ ctx_status ctx' = ctx_status ctx.
Proof.
  intros Hw Hctx Hsid Hsent [c Hc]. wired_world w Hw.
  single "RESULT_SENTIMENT_RECOGNIZED" Coordinator_handle_sentiment_result.
  mcbv. rewrite Hsid. mcbv. rewrite Hsent. mcbv. rewrite Hc. mcbv.
  rewrite Hctx. mcbv.
  destruct (bool_decide (label ∈ CoordinatorAgent.SENTIMENT_ESCALATION_LABELS)) eqn:Hlabel.
  - mcbv. rewrite lookup_insert_eq. mcbv.
    escalate_through_bus f sid ("NEGATIVE_SENTIMENT_" +:+ label).
    wdestruct' w2. wproj. subst. mcbv.
    eexists. split; [reflexivity|]. unfold announced_since.
    cbv [announced store env _contexts].
    rewrite <- !app_assoc, drop_app_length. cbn [app].
    split; [|split].
    + eexists. split; [by filter_types|]. cbv [payload]. by plookup.
    + by filter_types.
    + injection Hstore as -> ->. eexists. rewrite lookup_insert_eq. done.
  - mcbv. inert "TASK_RECOGNIZE_INTENT". mcbv.
    eexists. split; [reflexivity|]. unfold announced_since.
    cbv [announced store env _contexts].
    rewrite <- !app_assoc, drop_app_length. cbn [app].
    split; [|split].
    + eexists. split; [by filter_types|]. cbv [payload]. by plookup.
    + by filter_types.
    + eexists. rewrite lookup_insert_eq. done.
Qed.

(** C8. Gate 1 decides on the label alone. For a session the registry
    holds, a sentiment result whose label is in the escalation set ("ANGRY"
    is) makes the system publish exactly one escalation, for that session
    and with the reason "NEGATIVE_SENTIMENT_" followed by the label, and no
    intent task; the context is marked escalated. A label outside the set
    makes it publish exactly one intent task and no escalation. *)
Theorem gate1_is_decided_by_the_label fuel (w : CoreWorld) sid label ctx p :
  (3 ≤ fuel)%nat →
  wired w →
  _contexts (store (env w)) !! sid = Some ctx →
  p !! "session_id" = Some (VStr sid) →
  p !! "sentiment" = Some (VStr label) →
  is_Some (as_number (get_default p "confidence" (VNum 0))) →
  "ANGRY" ∈ CoordinatorAgent.SENTIMENT_ESCALATION_LABELS
  ∧ ∃ w',
    bus_publish fuel "RESULT_SENTIMENT_RECOGNIZED" p w
      = Returned (event_of "RESULT_SENTIMENT_RECOGNIZED" p w) w'
    ∧ if bool_decide (label ∈ CoordinatorAgent.SENTIMENT_ESCALATION_LABELS) then
        (∃ e, of_type "TASK_ESCALATE" (announced_since w w') = [e]
              ∧ payload e !! "session_id" = Some (VStr sid)
              ∧ payload e !! "reason" = Some (VStr ("NEGATIVE_SENTIMENT_" +:+ label)))
        ∧ of_type "TASK_RECOGNIZE_INTENT" (announced_since w w') = []
        ∧ ∃ ctx', _contexts (store (env w')) !! sid = Some ctx'
                  ∧ ctx_status ctx' = status_value ESCALATED
                  ∧ ctx_escalation_reason ctx' = Some ("NEGATIVE_SENTIMENT_" +:+ label)
      else
        (∃ e, of_type "TASK_RECOGNIZE_INTENT" (announced_since w w') = [e]
              ∧ payload e !! "session_id" = Some (VStr sid))
        ∧ of_type "TASK_ESCALATE" (announced_since w w') = []
        ∧ ∃ ctx', _contexts (store (env w')) !! sid = Some ctx'
                  ∧ ctx_status ctx' = ctx_status ctx.
Proof.
  intros Hfuel Hw Hctx Hsid Hsent Hconf.
  destruct fuel as [|[|[|f]]]; [lia..|].
  split; [apply (bool_decide_unpack _); by vm_compute|]. by apply gate1_decision.
Qed.

Lemma Qlt_bool_spec x y : Qlt_bool x y = true ↔ (x < y)%Q.
Proof.
  unfold Qlt_bool. rewrite negb_true_iff. split.
  - intros H. apply Qnot_le_lt. intros Hle. apply Qle_bool_iff in Hle. congruence.
  - intros H. destruct (Qle_bool y x) eqn:E; [|done].
    apply Qle_bool_iff in E. by apply Qlt_not_le in H.
Qed.

Lemma routing_targets intent task :
  CoordinatorAgent.INTENT_ROUTING !! intent = Some task →
  task ∈ ["TASK_HANDLE_GENERAL_INQUIRY"; "TASK_HANDLE_ACCOUNT";
          "TASK_HANDLE_ORDER_TRACKING"; "TASK_HANDLE_RETURNS"].
Proof.
  intros H. apply elem_of_map_to_list in H.
  replace (map_to_list CoordinatorAgent.INTENT_ROUTING)
    with [("general_inquiry", "TASK_HANDLE_GENERAL_INQUIRY");
          ("update_account", "TASK_HANDLE_ACCOUNT");
          ("track_order", "TASK_HANDLE_ORDER_TRACKING");
          ("process_return", "TASK_HANDLE_RETURNS")] in H by by vm_compute.
  repeat (apply elem_of_cons in H as [[= _ ->]|H]; [set_solver|]).
  by apply elem_of_nil in H.
Qed.

Lemma gate2_decision f (w : CoreWorld) sid intent confidence c ctx p :
  wired w →
  _contexts (store (env w)) !! sid = Some ctx →
  p !! "session_id" = Some (VStr sid) →
  p !! "intent" = Some (VStr intent) →
  p !! "confidence" = Some confidence →
  as_number confidence = Some c →
  (p !! "entities" = None ∨ ∃ d, p !! "entities" = Some (VDict d)) →
  ∃ w',
    bus_publish (S (S (S f))) "RESULT_INTENT_RECOGNIZED" p w
      = Returned (event_of "RESULT_INTENT_RECOGNIZED" p w) w'
    ∧ if Qlt_bool c CoordinatorAgent.INTENT_CONFIDENCE_THRESHOLD then
        escalated_for "LOW_INTENT_CONFIDENCE" sid w w'
      else
        match CoordinatorAgent.INTENT_ROUTING !! intent with
        | Some task => routed_without_escalation w w'
        | None => escalated_for "UNKNOWN_INTENT" sid w w'
        end.
Proof.
  intros Hw Hctx Hsid Hintent Hconf Hc Hent.
  assert (∃ d, get_default p "entities" (VDict ∅) = VDict d) as [d Hd].
  { unfold get_default. destruct Hent as [->|[d ->]]; eauto. }
  wired_world w Hw.
  single "RESULT_INTENT_RECOGNIZED" Coordinator_handle_intent_result.
  mcbv. rewrite Hsid. mcbv. rewrite Hintent. mcbv. rewrite Hconf. mcbv.
  rewrite Hc. mcbv. rewrite Hctx. mcbv. rewrite Hd.
  destruct (truthy (VDict d)); mcbv;
    (destruct (Qlt_bool c CoordinatorAgent.INTENT_CONFIDENCE_THRESHOLD); mcbv;
     [|destruct (CoordinatorAgent.INTENT_ROUTING !! intent) as [task|] eqn:Hroute; mcbv]).
  all: try (rewrite lookup_insert_eq; mcbv;
             first [ escalate_through_bus f sid "LOW_INTENT_CONFIDENCE"
                   | escalate_through_bus f sid "UNKNOWN_INTENT" ];
             wdestruct' w2; wproj; subst; mcbv;
             (eexists; split; [reflexivity|]); unfold escalated_for, announced_since;
             cbv [announced]; rewrite <- !app_assoc, drop_app_length; cbn [app];
             (split;
              [eexists; split; [by filter_types|]; cbv [payload]; by plookup
              |intros intent' task' Hr; apply routing_targets in Hr;
               repeat (apply elem_of_cons in Hr as [->|Hr]; [by filter_types|]);
               by apply elem_of_nil in Hr])).
  all: pose proof (routing_targets _ _ Hroute) as Ht;
    repeat (apply elem_of_cons in Ht as [->|Ht]);
    try (by apply elem_of_nil in Ht).
  all: match goal with |- context [publish run _ ?ty _ _] => inert ty end; mcbv;
    (eexists; split; [reflexivity|]); unfold routed_without_escalation, announced_since;
    cbv [announced]; rewrite <- !app_assoc, drop_app_length; cbn [app];
    (split; [eexists intent, _, _; split; [exact Hroute|by filter_types]
            |by filter_types]).
Qed.

(** C1, as the code has it. For an intent result of a session the registry
    holds, Gate 2 escalates with the reason LOW_INTENT_CONFIDENCE if and
    only if the confidence is strictly below the threshold, and then no
    routing task is published. A confidence at the threshold or above is
    high enough: the session goes to routing, where an intent of the
    routing table gets its one task and no escalation, and an intent the
    table does not list is escalated with the reason UNKNOWN_INTENT. *)
Theorem gate2_threshold_is_strict fuel (w : CoreWorld) sid intent confidence c ctx p :
  (3 ≤ fuel)%nat →
  wired w →
  _contexts (store (env w)) !! sid = Some ctx →
  p !! "session_id" = Some (VStr sid) →
  p !! "intent" = Some (VStr intent) →
  p !! "confidence" = Some confidence →
  as_number confidence = Some c →
  (p !! "entities" = None ∨ ∃ d, p !! "entities" = Some (VDict d)) →
  ∃ w',
    bus_publish fuel "RESULT_INTENT_RECOGNIZED" p w
      = Returned (event_of "RESULT_INTENT_RECOGNIZED" p w) w'
    ∧ ((c < CoordinatorAgent.INTENT_CONFIDENCE_THRESHOLD)%Q →
       escalated_for "LOW_INTENT_CONFIDENCE" sid w w')
    ∧ (¬ (c < CoordinatorAgent.INTENT_CONFIDENCE_THRESHOLD)%Q →
       match CoordinatorAgent.INTENT_ROUTING !! intent with
       | Some task => routed_without_escalation w w'
       | None => escalated_for "UNKNOWN_INTENT" sid w w'
       end)
    ∧ ((c == CoordinatorAgent.INTENT_CONFIDENCE_THRESHOLD)%Q →
       is_Some (CoordinatorAgent.INTENT_ROUTING !! intent) →
       routed_without_escalation w w')
    ∧ ((∃ e, e ∈ of_type "TASK_ESCALATE" (announced_since w w')
             ∧ payload e !! "reason" = Some (VStr "LOW_INTENT_CONFIDENCE"))
       ↔ (c < CoordinatorAgent.INTENT_CONFIDENCE_THRESHOLD)%Q).
Proof.
  intros Hfuel Hw Hctx Hsid Hintent Hconf Hc Hent.
  destruct fuel as [|[|[|f]]]; [lia..|].
  destruct (gate2_decision f w sid intent confidence c ctx p) as (w' & Hpub & Hdec);
    [done..|].
  exists w'. split; [done|].
  pose proof (Qlt_bool_spec c CoordinatorAgent.INTENT_CONFIDENCE_THRESHOLD) as Hlt.
  destruct (Qlt_bool c CoordinatorAgent.INTENT_CONFIDENCE_THRESHOLD).
  - assert (Hlow : (c < CoordinatorAgent.INTENT_CONFIDENCE_THRESHOLD)%Q) by by apply Hlt.
    split; [done|]. split; [by intros H|]. split.
    + intros Heq. rewrite Heq in Hlow. by apply Qlt_irrefl in Hlow.
    + split; [done|]. intros _.
      destruct Hdec as [(e & He & _ & Hreason) _]. exists e. rewrite He.
      split; [by left|done].
  - assert (Hhigh : ¬ (c < CoordinatorAgent.INTENT_CONFIDENCE_THRESHOLD)%Q)
      by (intros H; by apply Hlt in H).
    split; [by intros H|]. split; [done|]. split.
    + intros _ [task Htask]. by rewrite Htask in Hdec.
    + split; [|by intros H]. intros (e & He & Hreason).
      destruct (CoordinatorAgent.INTENT_ROUTING !! intent).
      * destruct Hdec as [_ Hnone]. rewrite Hnone in He. by apply elem_of_nil in He.
      * destruct Hdec as [(e' & He' & _ & Hreason') _]. rewrite He' in He.
        apply list_elem_of_singleton in He as ->. congruence.
Qed.

(** C1, as the specification has it, fails at the threshold for an intent
    that is not in the routing table: the session "s1" exists, the
    confidence is the threshold, and the session is escalated, not routed. *)
Lemma gate2_at_threshold_unknown_intent_escalates :
  is_Some (_contexts (store (env one_session)) !! "s1")
  ∧ account_issues_at_threshold !! "confidence"
    = Some (VNum CoordinatorAgent.INTENT_CONFIDENCE_THRESHOLD)
  ∧ ¬ routed_without_escalation one_session
        (after (bus_publish 3 "RESULT_INTENT_RECOGNIZED" account_issues_at_threshold)
           one_session).
Proof.
  split; [|split].
  - apply (bool_decide_unpack _). by vm_compute.
  - by vm_compute.
  - intros [_ H]. vm_compute in H. discriminate H.
Qed.

(** *** Escalation records *)

Lemma records_ok_new objs n act e sid :
  records_ok objs n act →
  esc_session_id e = sid → is_outstanding e = true →
  records_ok (<[n := e]> objs) (S n) (<[sid := n]> act).
Proof.
  intros [Hact Hb] Hsid Hout. split.
  - intros k r [[<- <-]|[Hne Hk]]%lookup_insert_Some.
    + exists e. by rewrite lookup_insert_eq.
    + destruct (Hact k r Hk) as (e' & He' & ? & ?). exists e'.
      rewrite lookup_insert_ne; [done|]. 
      assert (r < n) by (apply Hb; eauto). lia.
  - intros r. rewrite lookup_insert_is_Some. intros [<-|[_ Hr]]; [lia|].
    specialize (Hb r Hr). lia.
Qed.

Lemma records_ok_update objs n act r old e :
  records_ok objs n act →
  objs !! r = Some old →
  esc_session_id e = esc_session_id old → is_outstanding e = true →
  records_ok (<[r := e]> objs) n act.
Proof.
  intros [Hact Hb] Hold Hsid Hout. split.
  - intros k r' Hk. destruct (Hact k r' Hk) as (e' & He' & Hs & Ho).
    destruct (decide (r = r')) as [<-|Hne].
    + exists e. rewrite lookup_insert_eq. rewrite Hold in He'. injection He' as <-.
      by rewrite Hsid.
    + exists e'. by rewrite lookup_insert_ne.
  - intros r'. rewrite lookup_insert_is_Some. intros [<-|[_ Hr]]; [|by apply Hb].
    apply Hb. eauto.
Qed.

Lemma records_ok_delete objs n act sid :
  records_ok objs n act → records_ok objs n (delete sid act).
Proof.
  intros [Hact Hb]. split; [|done].
  intros k r [_ Hk]%lookup_delete_Some. by apply Hact.
Qed.

(** Takes the innermost stuck [match] of the goal apart. *)
Ltac destruct_stuck :=
  match goal with
  | |- context [match ?x with _ => _ end] =>
      lazymatch x with
      | context [match _ with _ => _ end] => fail
      | _ => destruct x eqn:?
      end
  end.


Ltac wdestruct_fresh w :=
  let subs := fresh "subs" in let npub := fresh "npub" in
  let ndel := fresh "ndel" in let nerr := fresh "nerr" in
  let ctxs := fresh "ctxs" in let screated := fresh "screated" in
  let sactive := fresh "sactive" in let sended := fresh "sended" in
  let stotal := fresh "stotal" in let cproc := fresh "cproc" in
  let cesc := fresh "cesc" in let croutes := fresh "croutes" in
  let cerrs := fresh "cerrs" in let objs := fresh "objs" in
  let nref := fresh "nref" in let q := fresh "q" in let act := fresh "act" in
  let etotal := fresh "etotal" in let equeued := fresh "equeued" in
  let eassigned := fresh "eassigned" in let eresolved := fresh "eresolved" in
  let ereason := fresh "ereason" in let clk := fresh "clk" in
  let uu := fresh "uu" in let lg := fresh "lg" in let ann := fresh "ann" in
  destruct w as [[subs [npub ndel nerr]]
                 [[ctxs [screated sactive sended stotal]]
                  [cproc cesc croutes cerrs]
                  [objs nref q act [etotal equeued eassigned eresolved ereason]]]
                 clk uu lg ann].

(** The invariant on a world given by its records. *)
Ltac solve_ok :=
  split; [reflexivity|];
  cbv [objects next_ref active_escalations escalation_agent env];
  first
    [ assumption
    | by apply records_ok_delete
    | by apply records_ok_new
    | by eapply records_ok_update ].

(** A call of [pub], which keeps the invariant by [Hpub]. *)
Ltac use_pub pub Hpub side :=
  match goal with
  | |- context [pub ?ty ?p ?w1] =>
      let H := fresh "H" in
      let w2 := fresh "w" in
      assert (H : keeps escalations_ok (pub ty p)) by (apply Hpub; side);
      specialize (H w1 ltac:(solve_ok));
      destruct (pub ty p w1) as [? w2|? w2|]; [| |done];
      destruct H as [? ?]; wdestruct_fresh w2; wproj; subst
  end.

Ltac keeps_loop pub Hpub side :=
  repeat (mcbv; first [ use_pub pub Hpub side | destruct_stuck ]).

Lemma handle_resolution_keeps pub event :
  (∀ ty p, system_subscribers !! ty = None → keeps escalations_ok (pub ty p)) →
  keeps escalations_ok (EscalationAgent.handle_resolution pub event).
Proof.
  intros Hpub w [Hw Hok]. destruct event as [ty p ts id]. wired_world w Hw.
  keeps_loop pub Hpub ltac:(by vm_compute).
  all: try solve_ok.
Qed.

Lemma assign_to_operator_keeps pub event :
  (∀ ty p, system_subscribers !! ty = None → keeps escalations_ok (pub ty p)) →
  keeps escalations_ok (EscalationAgent.assign_to_operator pub event).
Proof.
  intros Hpub w [Hw Hok]. destruct event as [ty p ts id]. wired_world w Hw.
  keeps_loop pub Hpub ltac:(by vm_compute).
  all: try solve_ok.
Qed.

Lemma handle_escalation_keeps pub event :
  (∀ ty p, system_subscribers !! ty = None → keeps escalations_ok (pub ty p)) →
  keeps escalations_ok (EscalationAgent.handle_escalation pub event).
Proof.
  intros Hpub w [Hw Hok]. destruct event as [ty p ts id]. wired_world w Hw.
  keeps_loop pub Hpub ltac:(by vm_compute).
  all: try solve_ok.
Qed.

Lemma routing_level intent task :
  CoordinatorAgent.INTENT_ROUTING !! intent = Some task → escalation_level task.
Proof.
  intros H. apply routing_targets in H.
  repeat (apply elem_of_cons in H as [->|H];
          [apply (bool_decide_unpack _); by vm_compute|]).
  by apply elem_of_nil in H.
Qed.

Ltac level_side :=
  first [ apply (bool_decide_unpack _); by vm_compute
        | eapply routing_level; eassumption ].

Lemma coordinator_keeps cb pub event :
  cb ∈ [Coordinator_handle_new_message; Coordinator_handle_sentiment_result;
        Coordinator_handle_intent_result; Coordinator_handle_escalation_request;
        Coordinator_handle_agent_error] →
  (∀ ty p, escalation_level ty → keeps escalations_ok (pub ty p)) →
  keeps escalations_ok (run cb pub event).
Proof.
  intros Hcb Hpub w [Hw Hok]. destruct event as [ty p ts id]. wired_world w Hw.
  repeat (apply elem_of_cons in Hcb as [->|Hcb]); [..|by apply elem_of_nil in Hcb];
    unrun.
  - keeps_loop pub Hpub level_side. all: try solve_ok.
  - keeps_loop pub Hpub level_side. all: try solve_ok.
  - keeps_loop pub Hpub level_side. all: try solve_ok.
  - keeps_loop pub Hpub level_side. all: try solve_ok.
  - keeps_loop pub Hpub level_side. all: try solve_ok.
Qed.

Lemma escalations_ok_stable : stable escalations_ok.
Proof. intros w ? ? ? ? ? [Hw Hok]. by split. Qed.

Lemma keeps_of_publish (P : CoreWorld → Prop) fuel ty p :
  (∀ w, P w → ∃ w', publish run fuel ty p w = Returned (event_of ty p w) w' ∧ P w') →
  keeps P (publish run fuel ty p).
Proof. intros H w Hw. by destruct (H w Hw) as (w' & -> & Hw'). Qed.

Lemma publish_inert_keeps f ty p :
  system_subscribers !! ty = None →
  keeps escalations_ok (publish run (S f) ty p).
Proof.
  intros Hty. apply keeps_of_publish. intros w Hw.
  apply publish_keeps; [apply escalations_ok_stable| |done].
  intros cb event Hcb. destruct Hw as [Hw _].
  rewrite (wired_inert w ty Hw Hty) in Hcb. by apply elem_of_nil in Hcb.
Qed.

Lemma publish_escalation_level_keeps f ty p :
  escalation_level ty →
  keeps escalations_ok (publish run (S (S f)) ty p).
Proof.
  intros Hty. apply keeps_of_publish. intros w Hw.
  apply publish_keeps; [apply escalations_ok_stable| |done].
  intros cb event Hcb. destruct Hw as [Hw _].
  unfold snapshot in Hcb. rewrite Hw in Hcb.
  unfold escalation_level in Hty. rewrite Forall_forall in Hty.
  specialize (Hty cb Hcb).
  repeat (apply elem_of_cons in Hty as [->|Hty]); [..|by apply elem_of_nil in Hty];
    unrun.
  - apply handle_escalation_keeps. intros. by apply publish_inert_keeps.
  - apply assign_to_operator_keeps. intros. by apply publish_inert_keeps.
  - apply handle_resolution_keeps. intros. by apply publish_inert_keeps.
Qed.

(** With three units of fuel every publish on the system comes back, and
    it keeps the escalation records in order. *)
Lemma publish_any_returns f ty p (w : CoreWorld) :
  escalations_ok w →
  ∃ w', bus_publish (S (S (S f))) ty p w = Returned (event_of ty p w) w'
        ∧ escalations_ok w'.
Proof.
  intros Hw. unfold bus_publish.
  apply publish_keeps; [apply escalations_ok_stable| |done].
  intros cb event _. destruct cb.
  1-5: apply coordinator_keeps;
         [apply (bool_decide_unpack _); by vm_compute
         |intros; by apply publish_escalation_level_keeps].
  - apply handle_escalation_keeps. intros. by apply publish_inert_keeps.
  - apply assign_to_operator_keeps. intros. by apply publish_inert_keeps.
  - apply handle_resolution_keeps. intros. by apply publish_inert_keeps.
Qed.

Lemma publish_all_keeps f events (w : CoreWorld) :
  escalations_ok w →
  ∃ w', publish_all (S (S (S f))) events w = Returned tt w' ∧ escalations_ok w'.
Proof.
  revert w. induction events as [|[ty p] events IH]; intros w Hw.
  - by exists w.
  - cbn [publish_all]. unfold bind at 1.
    destruct (publish_any_returns f ty p w Hw) as (w1 & -> & Hw1). by apply IH.
Qed.

Lemma system_start_ok : escalations_ok system_start.
Proof.
  split; [apply startup_wires|]. rewrite system_start_agent. split.
  - intros sid r. cbn. by rewrite lookup_empty.
  - intros r. cbn. rewrite lookup_empty. by intros [? ?].
Qed.

Lemma active_records_at_most_one a sid :
  records_ok (objects a) (next_ref a) (active_escalations a) →
  (length (active_records a sid) ≤ 1)%nat.
Proof.
  intros [Hact _]. unfold active_records.
  set (m := active_escalations a) in *.
  assert (Hnd : NoDup (filter (λ kr : string * nat, outstanding_for a sid kr.2 = true)
                         (map_to_list m)))
    by apply NoDup_filter, NoDup_map_to_list.
  assert (Hall : ∀ kr, kr ∈ filter (λ kr : string * nat,
                                      outstanding_for a sid kr.2 = true)
                              (map_to_list m) →
                       kr.1 = sid ∧ m !! sid = Some kr.2).
  { intros [k r] [Hs Hin]%list_elem_of_filter. cbn in *.
    apply elem_of_map_to_list in Hin. destruct (Hact k r Hin) as (e & He & Hk & _).
    unfold outstanding_for in Hs. rewrite He in Hs.
    apply andb_true_iff in Hs as [Hs _]. apply String.eqb_eq in Hs.
    assert (k = sid) as -> by congruence. done. }
  destruct (filter _ (map_to_list m)) as [|[k1 r1] [|[k2 r2] l]]; cbn; try lia.
  exfalso.
  destruct (Hall (k1, r1)) as [E1 L1]; [by left|].
  destruct (Hall (k2, r2)) as [E2 L2]; [by right; left|].
  cbn in *. subst. rewrite L1 in L2. injection L2 as ->.
  apply NoDup_cons in Hnd as [Hnot _]. apply Hnot. by left.
Qed.

(** C3, as the code has it. Whatever events are published on the system,
    the map of active escalations holds at most one record for a session,
    an outstanding one (QUEUED or ASSIGNED) of that session. The queue is
    not bounded in this way: a further escalation request for the session
    comes back, files a new record in the map in place of the one that was
    there, and adds it to the queue, where the earlier records stay. *)
Theorem active_escalations_hold_one_record_per_session fuel events :
  (3 ≤ fuel)%nat →
  ∃ w',
    publish_all fuel events system_start = Returned tt w'
    ∧ (∀ sid, (length (active_records (escalation_agent (env w')) sid) ≤ 1)%nat)
    ∧ (∀ sid r,
         active_escalations (escalation_agent (env w')) !! sid = Some r →
         outstanding_for (escalation_agent (env w')) sid r = true)
    ∧ (∀ sid reason p,
         p !! "session_id" = Some (VStr sid) →
         p !! "reason" = Some (VStr reason) →
         ∃ w'',
           bus_publish fuel "TASK_ESCALATE" p w'
             = Returned (event_of "TASK_ESCALATE" p w') w''
           ∧ active_escalations (escalation_agent (env w'')) !! sid
             = Some (next_ref (escalation_agent (env w')))
           ∧ (∀ r, r ∈ queue (escalation_agent (env w')) →
                   r ∈ queue (escalation_agent (env w'')))
           ∧ next_ref (escalation_agent (env w')) ∈ queue (escalation_agent (env w''))
           ∧ (length (active_records (escalation_agent (env w'')) sid) ≤ 1)%nat).
Proof.
  intros Hfuel. destruct fuel as [|[|[|f]]]; [lia..|].
  destruct (publish_all_keeps f events system_start system_start_ok)
    as (w' & Hall & Hw' & Hok).
  exists w'. split; [done|]. split; [|split].
  - intros sid. by apply active_records_at_most_one.
  - intros sid r Hr. destruct Hok as [Hact _].
    destruct (Hact sid r Hr) as (e & He & Hsid & Hout).
    unfold outstanding_for. rewrite He, Hout, andb_true_r. by apply String.eqb_eq.
  - intros sid reason p Hsid Hreason.
    destruct (publish_task_escalate (S f) w' sid reason p Hw' Hsid Hreason)
      as (e2 & e3 & w'' & Hpub & _ & _ & _ & Hagent & _).
    destruct (publish_any_returns f "TASK_ESCALATE" p w') as (w2 & Hpub2 & _ & Hok2);
      [by split|].
    assert (w2 = w'') as -> by congruence.
    exists w''. split; [done|]. rewrite Hagent in *. repeat split.
    + cbn. apply lookup_insert_eq.
    + intros r Hr. cbn. destruct (eq_str _ "HIGH"); set_solver.
    + cbn. destruct (eq_str _ "HIGH"); set_solver.
    + by apply active_records_at_most_one.
Qed.

(** C3, as the specification has it, fails: after two escalation requests
    for the session "s1" the agent holds two outstanding records for it,
    both QUEUED. *)
Lemma second_request_adds_outstanding_record :
  ¬ (length (outstanding_records (escalation_agent (env escalated_twice)) "s1") ≤ 1)%nat.
Proof.
  assert (length (outstanding_records (escalation_agent (env escalated_twice)) "s1") = 2)
    as -> by (by vm_compute).
  lia.
Qed.

(** ** The statements at concrete worlds *)

Lemma one_session_wired : wired one_session.
Proof. apply (bool_decide_unpack _). vm_compute. exact I. Defined.

Lemma one_queued_wired : wired one_queued.
Proof. apply (bool_decide_unpack _). vm_compute. exact I. Defined.

Lemma gate2_threshold_is_strict_witness :
  (3 ≤ 3)%nat
  ∧ wired one_session
  ∧ ∃ w',
    bus_publish 3 "RESULT_INTENT_RECOGNIZED" return_at_threshold one_session
      = Returned (event_of "RESULT_INTENT_RECOGNIZED" return_at_threshold one_session) w'
    ∧ ((CoordinatorAgent.INTENT_CONFIDENCE_THRESHOLD
        < CoordinatorAgent.INTENT_CONFIDENCE_THRESHOLD)%Q →
       escalated_for "LOW_INTENT_CONFIDENCE" "s1" one_session w')
    ∧ (¬ (CoordinatorAgent.INTENT_CONFIDENCE_THRESHOLD
          < CoordinatorAgent.INTENT_CONFIDENCE_THRESHOLD)%Q →
       match CoordinatorAgent.INTENT_ROUTING !! "process_return" with
       | Some task => routed_without_escalation one_session w'
       | None => escalated_for "UNKNOWN_INTENT" "s1" one_session w'
       end)
    ∧ ((CoordinatorAgent.INTENT_CONFIDENCE_THRESHOLD
        == CoordinatorAgent.INTENT_CONFIDENCE_THRESHOLD)%Q →
       is_Some (CoordinatorAgent.INTENT_ROUTING !! "process_return") →
       routed_without_escalation one_session w')
    ∧ ((∃ e, e ∈ of_type "TASK_ESCALATE" (announced_since one_session w')
             ∧ payload e !! "reason" = Some (VStr "LOW_INTENT_CONFIDENCE"))
       ↔ (CoordinatorAgent.INTENT_CONFIDENCE_THRESHOLD
          < CoordinatorAgent.INTENT_CONFIDENCE_THRESHOLD)%Q).
Proof.
  split; [lia|]. split; [exact one_session_wired|].
  destruct (_contexts (store (env one_session)) !! "s1") as [ctx|] eqn:E;
    [|vm_compute in E; discriminate E].
  apply (gate2_threshold_is_strict 3 one_session "s1" "process_return"
           (VNum CoordinatorAgent.INTENT_CONFIDENCE_THRESHOLD)
           CoordinatorAgent.INTENT_CONFIDENCE_THRESHOLD ctx return_at_threshold).
  - lia.
  - exact one_session_wired.
  - exact E.
  - vm_compute. reflexivity.
  - vm_compute. reflexivity.
  - vm_compute. reflexivity.
  - reflexivity.
  - left. vm_compute. reflexivity.
Defined.

Lemma gate1_is_decided_by_the_label_witness :
  (3 ≤ 3)%nat
  ∧ wired one_session
  ∧ angry_result !! "sentiment" = Some (VStr "ANGRY")
  ∧ "ANGRY" ∈ CoordinatorAgent.SENTIMENT_ESCALATION_LABELS
  ∧ ∃ w',
    bus_publish 3 "RESULT_SENTIMENT_RECOGNIZED" angry_result one_session
      = Returned (event_of "RESULT_SENTIMENT_RECOGNIZED" angry_result one_session) w'
    ∧ if bool_decide ("ANGRY" ∈ CoordinatorAgent.SENTIMENT_ESCALATION_LABELS) then
        (∃ e, of_type "TASK_ESCALATE" (announced_since one_session w') = [e]
              ∧ payload e !! "session_id" = Some (VStr "s1")
              ∧ payload e !! "reason" = Some (VStr ("NEGATIVE_SENTIMENT_" +:+ "ANGRY")))
        ∧ of_type "TASK_RECOGNIZE_INTENT" (announced_since one_session w') = []
        ∧ ∃ ctx', _contexts (store (env w')) !! "s1" = Some ctx'
                  ∧ ctx_status ctx' = status_value ESCALATED
                  ∧ ctx_escalation_reason ctx'
                    = Some ("NEGATIVE_SENTIMENT_" +:+ "ANGRY")
      else True.
Proof.
  split; [lia|]. split; [exact one_session_wired|].
  split; [vm_compute; reflexivity|].
  destruct (_contexts (store (env one_session)) !! "s1") as [ctx|] eqn:E;
    [|vm_compute in E; discriminate E].
  destruct (gate1_is_decided_by_the_label 3 one_session "s1" "ANGRY" ctx angry_result)
    as (Hangry & w' & Hpub & Hdec).
  - lia.
  - exact one_session_wired.
  - exact E.
  - vm_compute. reflexivity.
  - vm_compute. reflexivity.
  - vm_compute. eexists. reflexivity.
  - split; [exact Hangry|]. exists w'. split; [exact Hpub|].
    destruct (bool_decide ("ANGRY" ∈ CoordinatorAgent.SENTIMENT_ESCALATION_LABELS));
      [exact Hdec|exact I].
Defined.

Lemma create_session_refuses_duplicate_witness :
  is_Some (_contexts (store (env one_session)) !! "s1")
  ∧ ContextStore.create_session "s1" None one_session
    = Raised (ValueError ("Session " +:+ "s1" +:+ " already exists")) one_session
  ∧ ∀ calls sid',
      (length (contexts_for sid' (after_store_calls calls initial_world)) ≤ 1)%nat.
Proof.
  destruct (_contexts (store (env one_session)) !! "s1") as [ctx|] eqn:E;
    [|vm_compute in E; discriminate E].
  split; [eexists; reflexivity|].
  destruct (create_session_refuses_duplicate one_session "s1" None ctx E)
    as (Hraise & _ & Hone).
  split; [exact Hraise|exact Hone].
Defined.

Lemma resolution_is_idempotent_witness :
  wired one_queued
  ∧ resolution "s1" (VStr "op-1") !! "session_id" = Some (VStr "s1")
  ∧ is_Some (active_escalations (escalation_agent (env one_queued)) !! "s1")
  ∧ ∃ confirmation w1 w2,
      bus_publish 2 "ESCALATION_RESOLVED" (resolution "s1" (VStr "op-1")) one_queued
        = Returned (event_of "ESCALATION_RESOLVED" (resolution "s1" (VStr "op-1"))
                      one_queued) w1
      ∧ escalation_agent (env w1)
        = resolved_session "s1" (escalation_agent (env one_queued))
      ∧ of_type "RESULT_ESCALATION_RESOLVED" (announced_since one_queued w1)
        = [confirmation]
      ∧ bus_publish 2 "ESCALATION_RESOLVED" (resolution "s1" (VStr "op-1")) w1
        = Returned (event_of "ESCALATION_RESOLVED" (resolution "s1" (VStr "op-1")) w1) w2
      ∧ env w2 = env w1
      ∧ of_type "RESULT_ESCALATION_RESOLVED" (announced_since w1 w2) = []
      ∧ log w2 = log w1 ++ [not_active_warning "s1"].
Proof.
  split; [exact one_queued_wired|]. split; [vm_compute; reflexivity|].
  destruct (active_escalations (escalation_agent (env one_queued)) !! "s1")
    as [r|] eqn:Er; [|vm_compute in Er; discriminate Er].
  split; [eexists; reflexivity|].
  destruct (objects (escalation_agent (env one_queued)) !! r) as [record|] eqn:Eo.
  - destruct (resolution_is_idempotent 0 one_queued "s1" (resolution "s1" (VStr "op-1")))
      as [_ Htwice].
    + exact one_queued_wired.
    + vm_compute. reflexivity.
    + apply (Htwice r record Er Eo). vm_compute. eexists. reflexivity.
  - vm_compute in Er. injection Er as <-. vm_compute in Eo. discriminate Eo.
Defined.

Lemma resolved_while_queued_is_assigned_later_witness :
  wired one_queued
  ∧ queue (escalation_agent (env one_queued)) = [] ++ 0 :: []
  ∧ active_escalations (escalation_agent (env one_queued)) !! "s1" = Some 0
  ∧ ∃ w1 new w2,
      bus_publish 2 "ESCALATION_RESOLVED" (resolution "s1" (VStr "op-1")) one_queued
        = Returned (event_of "ESCALATION_RESOLVED" (resolution "s1" (VStr "op-1"))
                      one_queued) w1
      ∧ active_escalations (escalation_agent (env w1)) !! "s1" = None
      ∧ queue (escalation_agent (env w1)) = [] ++ 0 :: []
      ∧ assign_all 2 [VStr "op-2"] w1 = Returned tt w2
      ∧ announced w2 = announced w1 ++ new
      ∧ last (assigned_sessions new) = Some "s1"
      ∧ queue (escalation_agent (env w2)) = []
      ∧ active_escalations (escalation_agent (env w2)) !! "s1" = None.
Proof.
  split; [exact one_queued_wired|]. split; [vm_compute; reflexivity|].
  split; [vm_compute; reflexivity|].
  destruct (objects (escalation_agent (env one_queued)) !! 0) as [record|] eqn:Eo;
    [|vm_compute in Eo; discriminate Eo].
  destruct (resolved_while_queued_is_assigned_later 0 one_queued "s1" (VStr "op-1")
              0 record [] [] [VStr "op-2"])
    as (w1 & new & w2 & H1 & H2 & H3 & _ & H5 & H6 & H7 & H8 & H9).
  - exact one_queued_wired.
  - unfold queue_allocated.
    replace (queue (escalation_agent (env one_queued))) with [0]
      by (vm_compute; reflexivity).
    constructor; [rewrite Eo; eexists; reflexivity|constructor].
  - vm_compute. reflexivity.
  - exact Eo.
  - vm_compute in Eo. injection Eo as <-. reflexivity.
  - vm_compute in Eo. injection Eo as <-. reflexivity.
  - vm_compute. reflexivity.
  - reflexivity.
  - exists w1, new, w2. repeat split; assumption.
Defined.

Lemma active_escalations_hold_one_record_per_session_witness :
  (3 ≤ 3)%nat
  ∧ ∃ w',
    publish_all 3 [ ("TASK_ESCALATE",
                     escalation_request (mkRequest "s1" "NEGATIVE_SENTIMENT_ANGRY" None));
                    ("TASK_ESCALATE",
                     escalation_request (mkRequest "s1" "LOW_INTENT_CONFIDENCE" None)) ]
      system_start = Returned tt w'
    ∧ (∀ sid, (length (active_records (escalation_agent (env w')) sid) ≤ 1)%nat).
Proof.
  split; [lia|].
  destruct (active_escalations_hold_one_record_per_session 3
              [ ("TASK_ESCALATE",
                 escalation_request (mkRequest "s1" "NEGATIVE_SENTIMENT_ANGRY" None));
                ("TASK_ESCALATE",
                 escalation_request (mkRequest "s1" "LOW_INTENT_CONFIDENCE" None)) ])
    as (w' & Hall & Hone & _); [lia|].
  exists w'. split; [exact Hall|exact Hone].
Defined.
(** ** Further properties of the context *)

(** [get_last_n_messages n] answers with a suffix of the history: for a
    positive [n] the last [n] messages, or all of them when there are
    fewer; for [n = 0] all of them, not none; for a negative [n] all but
    the first [-n]. *)
Theorem get_last_n_messages_window (n : Z) (ctx : ConversationContext) :
  ((0 < n)%Z →
     ∃ earlier,
       ctx_messages ctx = earlier ++ ConversationContext.get_last_n_messages n ctx
       ∧ length (ConversationContext.get_last_n_messages n ctx)
         = Z.to_nat n `min` length (ctx_messages ctx))
  ∧ (n = 0%Z → ConversationContext.get_last_n_messages n ctx = ctx_messages ctx)
  ∧ ((n < 0)%Z →
     ConversationContext.get_last_n_messages n ctx
     = drop (Z.to_nat (- n)) (ctx_messages ctx)).
Proof.
  unfold ConversationContext.get_last_n_messages.
  split; [|split].
  - intros Hpos. case_bool_decide as Hle.
    + rewrite bool_decide_eq_true_2 by lia.
      exists (take (length (ctx_messages ctx) - Z.to_nat n) (ctx_messages ctx)).
      split; [by rewrite take_drop|]. rewrite length_drop. lia.
    + exists []. split; [done|]. lia.
  - intros ->. rewrite bool_decide_eq_true_2 by lia.
    by rewrite bool_decide_eq_false_2 by lia.
  - intros Hneg. rewrite bool_decide_eq_true_2 by lia.
    by rewrite bool_decide_eq_false_2 by lia.
Qed.

Lemma user_history_on_last_message f msgs :
  (∀ m, msg_sender (f m) = msg_sender m ∧ msg_text (f m) = msg_text m) →
  msg_text <$> filter (λ msg, msg_sender msg = "USER") (on_last_message f msgs)
  = msg_text <$> filter (λ msg, msg_sender msg = "USER") msgs.
Proof.
  intros Hf. destruct msgs as [|m l _] using rev_ind; [done|].
  rewrite on_last_message_snoc, !filter_app, !fmap_app. f_equal.
  destruct (Hf m) as [Hs Ht]. rewrite !filter_cons, !filter_nil, Hs.
  destruct (decide (msg_sender m = "USER")); [|done]. cbn. by rewrite Ht.
Qed.

(** The history of the user's messages, which Gate 1 hands to the intent
    agent, grows by the text of a message exactly when the sender of the
    message is "USER", at its end; labels, entities, an escalation and a
    resolution leave it as it is. *)
Theorem user_message_history_follows_user_messages (ctx : ConversationContext) :
  (∀ sender text kwargs now,
     ConversationContext.get_user_message_history
       (ConversationContext.add_message sender text kwargs now ctx).2
     = ConversationContext.get_user_message_history ctx
       ++ (if decide (sender = "USER") then [text] else []))
  ∧ (∀ sentiment,
       ConversationContext.get_user_message_history
         (ConversationContext.update_sentiment sentiment ctx)
       = ConversationContext.get_user_message_history ctx)
  ∧ (∀ intent confidence,
       ConversationContext.get_user_message_history
         (ConversationContext.update_intent intent confidence ctx)
       = ConversationContext.get_user_message_history ctx)
  ∧ (∀ entities,
       ConversationContext.get_user_message_history
         (ConversationContext.merge_entities entities ctx)
       = ConversationContext.get_user_message_history ctx)
  ∧ (∀ reason,
       ConversationContext.get_user_message_history
         (ConversationContext.resolve (ConversationContext.escalate reason ctx))
       = ConversationContext.get_user_message_history ctx).
Proof.
  unfold ConversationContext.get_user_message_history.
  split; [|split; [|split; [|split]]].
  - intros sender text kwargs now. cbn.
    rewrite filter_app, fmap_app, filter_cons, filter_nil. cbn.
    by destruct (decide (sender = "USER")).
  - intros sentiment. cbn. by apply user_history_on_last_message.
  - intros intent confidence. cbn. by apply user_history_on_last_message.
  - intros entities. cbn. by apply user_history_on_last_message.
  - done.
Qed.

Lemma update_entities_twice entities m :
  update_entities entities (update_entities entities m) = update_entities entities m.
Proof.
  unfold update_entities. cbn. f_equal. f_equal.
  by rewrite (assoc_L (∪)), (idemp_L (∪)).
Qed.

Lemma on_last_message_twice f msgs :
  (∀ m, f (f m) = f m) →
  on_last_message f (on_last_message f msgs) = on_last_message f msgs.
Proof.
  intros Hf. destruct msgs as [|m l _] using rev_ind; [done|].
  by rewrite !on_last_message_snoc, Hf.
Qed.

(** [merge_entities] is a last-write-wins merge: a key of the new
    dictionary gets the new value, every other key keeps the one it had.
    The same holds of the entities of the last message, which start from
    the empty dictionary when the message had none. Merging the same
    dictionary a second time changes nothing, and no message is added or
    dropped. *)
Theorem merge_entities_last_write_wins (entities : Payload)
    (ctx : ConversationContext) :
  (∀ key, ctx_entities (ConversationContext.merge_entities entities ctx) !! key
          = match entities !! key with
            | Some v => Some v
            | None => ctx_entities ctx !! key
            end)
  ∧ (∀ earlier m,
       ctx_messages ctx = earlier ++ [m] →
       ∃ m', ctx_messages (ConversationContext.merge_entities entities ctx)
             = earlier ++ [m']
             ∧ msg_sender m' = msg_sender m ∧ msg_text m' = msg_text m
             ∧ ∀ key, default ∅ (msg_entities m') !! key
                      = match entities !! key with
                        | Some v => Some v
                        | None => default ∅ (msg_entities m) !! key
                        end)
  ∧ ConversationContext.merge_entities entities
      (ConversationContext.merge_entities entities ctx)
    = ConversationContext.merge_entities entities ctx
  ∧ length (ctx_messages (ConversationContext.merge_entities entities ctx))
    = length (ctx_messages ctx).
Proof.
  split; [|split; [|split]].
  - intros key. cbn. rewrite lookup_union.
    destruct (entities !! key), (ctx_entities ctx !! key); done.
  - intros earlier m Hm. exists (update_entities entities m). cbn.
    rewrite Hm, on_last_message_snoc. repeat split.
    intros key. rewrite lookup_union.
    destruct (entities !! key), (default ∅ (msg_entities m) !! key); done.
  - unfold ConversationContext.merge_entities. cbn. f_equal.
    + apply on_last_message_twice, update_entities_twice.
    + by rewrite (assoc_L (∪)), (idemp_L (∪)).
  - cbn. apply on_last_message_length.
Qed.
(** ** The dictionaries written for the database *)

Lemma opt_str_inj o1 o2 : opt_str o1 = opt_str o2 → o1 = o2.
Proof. destruct o1, o2; cbn; congruence. Qed.

Lemma opt_num_inj o1 o2 : opt_num o1 = opt_num o2 → o1 = o2.
Proof. destruct o1, o2; cbn; congruence. Qed.

(** The fields of a message in its dictionary: the three fields every
    message has, and each optional field under its key when it is set. *)
Lemma Message_to_dict_lookup (m : Message) :
  Message_to_dict m !! "sender" = Some (VStr (msg_sender m))
  ∧ Message_to_dict m !! "text" = Some (VStr (msg_text m))
  ∧ Message_to_dict m !! "timestamp" = Some (VNat (msg_timestamp m))
  ∧ Message_to_dict m !! "intent_label" = VStr <$> msg_intent_label m
  ∧ Message_to_dict m !! "sentiment_label" = VStr <$> msg_sentiment_label m
  ∧ Message_to_dict m !! "entities" = VDict <$> msg_entities m
  ∧ Message_to_dict m !! "agent_action" = VDict <$> msg_agent_action m.
Proof.
  destruct m as [sender text ts [i|] [s|] [e|] [a|]]; unfold Message_to_dict; cbn;
    repeat split; by plookup.
Qed.

Lemma Message_to_dict_inj m1 m2 :
  Message_to_dict m1 = Message_to_dict m2 → m1 = m2.
Proof.
  intros H.
  destruct (Message_to_dict_lookup m1) as (S1 & T1 & N1 & I1 & L1 & E1 & A1).
  destruct (Message_to_dict_lookup m2) as (S2 & T2 & N2 & I2 & L2 & E2 & A2).
  rewrite H in S1, T1, N1, I1, L1, E1, A1.
  rewrite S2 in S1. rewrite T2 in T1. rewrite N2 in N1. rewrite I2 in I1.
  rewrite L2 in L1. rewrite E2 in E1. rewrite A2 in A1.
  destruct m1 as [s1 t1 n1 i1 l1 e1 a1], m2 as [s2 t2 n2 i2 l2 e2 a2]. cbn in *.
  injection S1 as ->. injection T1 as ->.
  assert (n2 = n1) as -> by (injection N1; lia).
  assert (i2 = i1) as -> by (destruct i1, i2; cbn in *; congruence).
  assert (l2 = l1) as -> by (destruct l1, l2; cbn in *; congruence).
  assert (e2 = e1) as -> by (destruct e1, e2; cbn in *; congruence).
  assert (a2 = a1) as -> by (destruct a1, a2; cbn in *; congruence).
  done.
Qed.

Lemma messages_to_dicts_inj (l1 l2 : list Message) :
  (λ msg, VDict (Message_to_dict msg)) <$> l1
  = (λ msg, VDict (Message_to_dict msg)) <$> l2 → l1 = l2.
Proof.
  revert l2. induction l1 as [|m1 l1 IH]; intros [|m2 l2]; cbn; try done.
  intros [= Hm Hl]. f_equal; [by apply Message_to_dict_inj|by apply IH].
Qed.

Lemma Message_to_dict_no_None (m : Message) key v :
  Message_to_dict m !! key = Some v → v ≠ VNone.
Proof.
  destruct m as [sender text ts [i|] [s|] [e|] [a|]]; unfold Message_to_dict; cbn;
    intros H;
    repeat (apply lookup_insert_Some in H as [[_ <-]|[_ H]]; [done|]);
    by apply lookup_singleton_Some in H as [_ <-].
Qed.

(** [to_dict] keeps everything. The dictionary of a message holds its
    sender, text and timestamp, holds an optional field under its key
    exactly when the field is set, and maps no key to [None]. The
    dictionary of a context has the same thirteen keys whatever the
    context, with one dictionary for each message under "messages", in
    their order; and two contexts with the same dictionary are equal. *)
Theorem to_dict_keeps_every_field (m : Message) (c1 c2 : ConversationContext) :
  (Message_to_dict m !! "sender" = Some (VStr (msg_sender m))
   ∧ Message_to_dict m !! "text" = Some (VStr (msg_text m))
   ∧ Message_to_dict m !! "timestamp" = Some (VNat (msg_timestamp m))
   ∧ Message_to_dict m !! "intent_label" = VStr <$> msg_intent_label m
   ∧ Message_to_dict m !! "sentiment_label" = VStr <$> msg_sentiment_label m
   ∧ Message_to_dict m !! "entities" = VDict <$> msg_entities m
   ∧ Message_to_dict m !! "agent_action" = VDict <$> msg_agent_action m)
  ∧ (∀ key v, Message_to_dict m !! key = Some v → v ≠ VNone)
  ∧ dom (ConversationContext.to_dict c1)
    = list_to_set [ "session_id"; "start_time"; "customer_email"; "customer_id";
                    "status"; "current_sentiment"; "current_intent";
                    "intent_confidence"; "messages"; "entities"; "metadata";
                    "escalation_reason"; "operator_id" ]
  ∧ ConversationContext.to_dict c1 !! "messages"
    = Some (VList ((λ msg, VDict (Message_to_dict msg)) <$> ctx_messages c1))
  ∧ (ConversationContext.to_dict c1 = ConversationContext.to_dict c2 → c1 = c2).
Proof.
  split; [apply Message_to_dict_lookup|].
  split; [apply Message_to_dict_no_None|].
  split; [|split].
  - unfold ConversationContext.to_dict. rewrite !dom_insert_L, dom_singleton_L.
    cbn. set_solver.
  - unfold ConversationContext.to_dict. by plookup.
  - intros H.
    assert (∀ key, ConversationContext.to_dict c1 !! key
                   = ConversationContext.to_dict c2 !! key) as Hk by by rewrite H.
    destruct c1 as [a1 b1 c1 d1 e1 f1 g1 h1 i1 j1 k1 l1 m1],
             c2 as [a2 b2 c2 d2 e2 f2 g2 h2 i2 j2 k2 l2 m2].
    unfold ConversationContext.to_dict in Hk. cbn in Hk.
    pose proof (Hk "session_id") as Ha. pose proof (Hk "start_time") as Hb.
    pose proof (Hk "customer_email") as Hc. pose proof (Hk "customer_id") as Hd.
    pose proof (Hk "status") as He. pose proof (Hk "current_sentiment") as Hf.
    pose proof (Hk "current_intent") as Hg. pose proof (Hk "intent_confidence") as Hh.
    pose proof (Hk "messages") as Hi. pose proof (Hk "entities") as Hj.
    pose proof (Hk "metadata") as Hl. pose proof (Hk "escalation_reason") as Hm.
    pose proof (Hk "operator_id") as Hn. clear Hk H.
    repeat first [ rewrite lookup_insert_eq in Ha
                 | rewrite lookup_insert_ne in Ha by discriminate ].
    repeat first [ rewrite lookup_insert_eq in Hb
                 | rewrite lookup_insert_ne in Hb by discriminate ].
    repeat first [ rewrite lookup_insert_eq in Hc
                 | rewrite lookup_insert_ne in Hc by discriminate ].
    repeat first [ rewrite lookup_insert_eq in Hd
                 | rewrite lookup_insert_ne in Hd by discriminate ].
    repeat first [ rewrite lookup_insert_eq in He
                 | rewrite lookup_insert_ne in He by discriminate ].
    repeat first [ rewrite lookup_insert_eq in Hf
                 | rewrite lookup_insert_ne in Hf by discriminate ].
    repeat first [ rewrite lookup_insert_eq in Hg
                 | rewrite lookup_insert_ne in Hg by discriminate ].
    repeat first [ rewrite lookup_insert_eq in Hh
                 | rewrite lookup_insert_ne in Hh by discriminate ].
    repeat first [ rewrite lookup_insert_eq in Hi
                 | rewrite lookup_insert_ne in Hi by discriminate ].
    repeat first [ rewrite lookup_insert_eq in Hj
                 | rewrite lookup_insert_ne in Hj by discriminate ].
    repeat first [ rewrite lookup_insert_eq in Hl
                 | rewrite lookup_insert_ne in Hl by discriminate ].
    repeat first [ rewrite lookup_insert_eq in Hm
                 | rewrite lookup_insert_ne in Hm by discriminate ].
    repeat first [ rewrite lookup_insert_eq in Hn
                 | rewrite lookup_insert_ne in Hn by discriminate
                 | rewrite lookup_singleton_eq in Hn ].
    injection Ha as ->. injection Hb as Hb. injection He as ->.
    injection Hc as Hc%opt_str_inj. injection Hd as Hd%opt_str_inj.
    injection Hf as Hf%opt_str_inj. injection Hg as Hg%opt_str_inj.
    injection Hh as Hh%opt_num_inj. injection Hi as Hi%messages_to_dicts_inj.
    injection Hj as ->. injection Hl as ->.
    injection Hm as Hm%opt_str_inj. injection Hn as Hn%opt_str_inj.
    subst. f_equal. lia.
Qed.
(** ** The registry *)

Lemma stored_messages_insert_fresh m sid c :
  m !! sid = None →
  stored_messages (<[sid := c]> m) = length (ctx_messages c) + stored_messages m.
Proof.
  intros H. unfold stored_messages. by rewrite map_to_list_insert.
Qed.

Lemma stored_messages_delete m sid c :
  m !! sid = Some c →
  length (ctx_messages c) + stored_messages (delete sid m) = stored_messages m.
Proof.
  intros H. unfold stored_messages. by rewrite <- (map_to_list_delete m sid c H).
Qed.

Lemma stored_messages_insert m sid c c' :
  m !! sid = Some c →
  stored_messages (<[sid := c']> m) + length (ctx_messages c)
  = stored_messages m + length (ctx_messages c').
Proof.
  intros H. rewrite <- insert_delete_eq.
  rewrite stored_messages_insert_fresh by apply lookup_delete_eq.
  rewrite <- (stored_messages_delete m sid c H). lia.
Qed.

Lemma stored_messages_empty : stored_messages ∅ = 0.
Proof. unfold stored_messages. by rewrite map_to_list_empty. Qed.

Lemma store_call_counts c (w : CoreWorld) :
  store_counts (store (env w)) → store_counts (store (env (after (store_call c) w))).
Proof.
  intros Hw. unfold after.
  destruct c as [sid email|sid|sid email|sid sender text kw|sid]; cbn [store_call].
  - destruct (_contexts (store (env w)) !! sid) as [ctx|] eqn:E.
    + unfold bind at 1. by rewrite (create_session_existing _ _ _ _ E).
    + unfold ContextStore.create_session, bind, gets, utcnow, modify, ret; cbn.
      rewrite E. rewrite decide_False by (by intros [? ?]).
      destruct Hw as (Ha & He & Hc & Hm). unfold store_counts. cbn.
      rewrite map_size_insert_None, stored_messages_insert_fresh by done.
      cbn. repeat split; lia.
  - done.
  - unfold ContextStore.get_or_create, ContextStore.get, bind at 1 2, gets.
    destruct (_contexts (store (env w)) !! sid) as [ctx|] eqn:E; [done|].
    unfold ContextStore.create_session, bind, gets, utcnow, modify, ret; cbn.
    rewrite E. rewrite decide_False by (by intros [? ?]).
    destruct Hw as (Ha & He & Hc & Hm). unfold store_counts. cbn.
    rewrite map_size_insert_None, stored_messages_insert_fresh by done.
    cbn. repeat split; lia.
  - unfold ContextStore.add_message, bind at 1 2, gets.
    destruct (_contexts (store (env w)) !! sid) as [ctx|] eqn:E; [|done].
    destruct Hw as (Ha & He & Hc & Hm). unfold store_counts. cbn.
    rewrite map_size_insert_Some by eauto.
    pose proof (stored_messages_insert _ sid ctx
                  (set_messages (λ messages, messages ++
                     [mkMessage sender text (clock w) (kw_intent_label kw)
                        (kw_sentiment_label kw) (kw_entities kw) (kw_agent_action kw)])
                     ctx) E) as Hs.
    cbn in Hs. rewrite length_app in Hs. cbn in Hs.
    repeat split; lia.
  - unfold ContextStore.delete, bind at 1 2, gets.
    destruct (_contexts (store (env w)) !! sid) as [ctx|] eqn:E; [|done].
    destruct Hw as (Ha & He & Hc & Hm). unfold store_counts. cbn.
    rewrite map_size_delete_Some by eauto.
    pose proof (stored_messages_delete _ sid ctx E) as Hs.
    assert (0 < size (_contexts (store (env w)))).
    { destruct (size (_contexts (store (env w)))) eqn:Hz; [|lia].
      apply map_size_empty_inv in Hz. rewrite Hz in E. by rewrite lookup_empty in E. }
    repeat split; lia.
Qed.

Lemma clear_all_counts (w : CoreWorld) :
  store_counts (store (env w)) →
  store_counts (store (env (after ContextStore.clear_all w))).
Proof.
  intros (Ha & He & Hc & Hm).
  unfold after, ContextStore.clear_all, store_counts. cbn.
  rewrite map_size_empty, stored_messages_empty.
  repeat split; lia.
Qed.

Lemma after_registry_calls_counts calls (w : CoreWorld) :
  store_counts (store (env w)) →
  store_counts (store (env (after_registry_calls calls w))).
Proof.
  revert w. induction calls as [|c calls IH]; intros w Hw; [done|].
  cbn. apply IH. destruct c; [by apply store_call_counts|by apply clear_all_counts].
Qed.

Lemma registry_call_balance c (w : CoreWorld) :
  c ≠ registry_clear_all →
  sessions_created (_store_stats (store (env w)))
  = (sessions_active (_store_stats (store (env w)))
     + sessions_ended (_store_stats (store (env w))))%Z →
  sessions_created (_store_stats (store (env (after (registry_call_run c) w))))
  = (sessions_active (_store_stats (store (env (after (registry_call_run c) w))))
     + sessions_ended (_store_stats (store (env (after (registry_call_run c) w)))))%Z.
Proof.
  intros Hc Hw. destruct c as [c|]; [|done]. cbn [registry_call_run].
  set (w' := after (store_call c) w).
  assert (w' = after (store_call c) w) as Hw' by done. clearbody w'.
  unfold after in Hw'.
  destruct c as [sid email|sid|sid email|sid sender text kw|sid]; cbn [store_call] in Hw'.
  - destruct (_contexts (store (env w)) !! sid) as [ctx|] eqn:E.
    + unfold bind at 1 in Hw'. rewrite (create_session_existing _ _ _ _ E) in Hw'.
      by subst.
    + unfold ContextStore.create_session, bind, gets, utcnow, modify, ret in Hw';
        cbn in Hw'.
      rewrite E in Hw'. rewrite decide_False in Hw' by (by intros [? ?]).
      subst w'. cbn. lia.
  - by subst.
  - unfold ContextStore.get_or_create, ContextStore.get, bind at 1 2, gets in Hw'.
    destruct (_contexts (store (env w)) !! sid) as [ctx|] eqn:E; [by subst|].
    unfold ContextStore.create_session, bind, gets, utcnow, modify, ret in Hw';
      cbn in Hw'.
    rewrite E in Hw'. rewrite decide_False in Hw' by (by intros [? ?]).
    subst w'. cbn. lia.
  - unfold ContextStore.add_message, bind at 1 2, gets in Hw'.
    destruct (_contexts (store (env w)) !! sid) as [ctx|] eqn:E; by subst.
  - unfold ContextStore.delete, bind at 1 2, gets in Hw'.
    destruct (_contexts (store (env w)) !! sid) as [ctx|] eqn:E; [|by subst].
    subst w'. cbn. lia.
Qed.

Lemma after_registry_calls_balance calls (w : CoreWorld) :
  registry_clear_all ∉ calls →
  sessions_created (_store_stats (store (env w)))
  = (sessions_active (_store_stats (store (env w)))
     + sessions_ended (_store_stats (store (env w))))%Z →
  sessions_created (_store_stats (store (env (after_registry_calls calls w))))
  = (sessions_active (_store_stats (store (env (after_registry_calls calls w))))
     + sessions_ended (_store_stats (store (env (after_registry_calls calls w)))))%Z.
Proof.
  revert w. induction calls as [|c calls IH]; intros w Hnot Hw; [done|].
  cbn. apply IH; [set_solver|]. apply registry_call_balance; [set_solver|done].
Qed.

(** The counters of the registry after any calls of its interface on a new
    registry, [clear_all] among them. [sessions_active] is the number of
    contexts it holds, which is what [get_active_count] answers;
    [sessions_ended] is not negative; the sessions active and ended were
    created; and every message held in a context was counted in
    [total_messages]. As long as [clear_all] is not called, every session
    created is active or ended; [clear_all] drops the active sessions
    without counting them as ended. *)
Theorem registry_counters_match_contents (calls : list RegistryCall) :
  ∃ n stats,
    ContextStore.get_active_count (after_registry_calls calls initial_world)
      = Returned n (after_registry_calls calls initial_world)
    ∧ ContextStore.get_stats (after_registry_calls calls initial_world)
      = Returned stats (after_registry_calls calls initial_world)
    ∧ sessions_active stats = Z.of_nat n
    ∧ (0 ≤ sessions_ended stats)%Z
    ∧ (sessions_active stats + sessions_ended stats ≤ sessions_created stats)%Z
    ∧ (Z.of_nat (stored_messages
                   (_contexts (store (env (after_registry_calls calls initial_world)))))
       ≤ total_messages stats)%Z
    ∧ (registry_clear_all ∉ calls →
       sessions_created stats = (sessions_active stats + sessions_ended stats)%Z).
Proof.
  eexists _, _. split; [reflexivity|]. split; [reflexivity|].
  destruct (after_registry_calls_counts calls initial_world) as (Ha & He & Hc & Hm).
  { unfold store_counts. cbn. rewrite map_size_empty, stored_messages_empty.
    repeat split; lia. }
  repeat split; try done.
  intros Hnot. by apply after_registry_calls_balance.
Qed.

(** [clear_all] breaks the balance of the counters: after a session is
    created and the registry is cleared, one session was created and none is
    active or ended. *)
Example clear_all_loses_count_of_sessions :
  _store_stats (store (env (after_registry_calls
     [registry_call (call_create_session "s1" None); registry_clear_all]
     initial_world)))
  = mkStoreStats 1 0 0 0.
Proof. reflexivity. Qed.

(** A session goes in and out of the registry. [create_session] of an id
    the registry does not hold returns a new context, active and without
    messages; [get] then answers with that context; [delete] hands it back
    and takes it out, so that [get] answers [None], the registry holds the
    contexts it held before, and a second [delete] finds nothing and
    changes nothing. One session more was created and one more has ended. *)
Theorem create_get_delete_round_trip (w : CoreWorld) (sid : string)
    (email : option string) :
  _contexts (store (env w)) !! sid = None →
  ∃ ctx w1 w2,
    ContextStore.create_session sid email w = Returned ctx w1
    ∧ ctx_session_id ctx = sid ∧ ctx_customer_email ctx = email
    ∧ ctx_status ctx = "ACTIVE" ∧ ctx_messages ctx = []
    ∧ ContextStore.get sid w1 = Returned (Some ctx) w1
    ∧ ContextStore.delete sid w1 = Returned (Some ctx) w2
    ∧ ContextStore.get sid w2 = Returned None w2
    ∧ ContextStore.delete sid w2 = Returned None w2
    ∧ _contexts (store (env w2)) = _contexts (store (env w))
    ∧ sessions_created (_store_stats (store (env w2)))
      = (sessions_created (_store_stats (store (env w))) + 1)%Z
    ∧ sessions_ended (_store_stats (store (env w2)))
      = (sessions_ended (_store_stats (store (env w))) + 1)%Z
    ∧ sessions_active (_store_stats (store (env w2)))
      = sessions_active (_store_stats (store (env w))).
Proof.
  intros Hnew. wdestruct w. cbn in Hnew.
  unfold ContextStore.create_session, ContextStore.get, ContextStore.delete,
    bind, gets, utcnow, modify, ret. cbn.
  rewrite Hnew. rewrite decide_False by (by intros [? ?]).
  eexists _, _, _. split; [reflexivity|]. do 4 (split; [reflexivity|]).
  split; [cbn; by rewrite lookup_insert_eq|].
  split; [cbn; rewrite lookup_insert_eq; reflexivity|].
  cbn. rewrite lookup_delete_eq, delete_insert_id by done.
  repeat split; try done. lia.
Qed.

Lemma add_message_existing (w : CoreWorld) sid sender text kwargs ctx :
  _contexts (store (env w)) !! sid = Some ctx →
  ∃ w',
    ContextStore.add_message sid sender text kwargs w
      = Returned (Some (ConversationContext.add_message sender text kwargs
                          (clock w) ctx).1) w'
    ∧ _contexts (store (env w'))
      = <[sid := (ConversationContext.add_message sender text kwargs
                    (clock w) ctx).2]> (_contexts (store (env w)))
    ∧ total_messages (_store_stats (store (env w')))
      = (total_messages (_store_stats (store (env w))) + 1)%Z
    ∧ clock w' = S (clock w) ∧ log w' = log w.
Proof.
  intros H. unfold ContextStore.add_message, bind, gets, utcnow, modify, ret. cbn.
  rewrite H. eexists. repeat split.
Qed.

(** Messages are kept in the order in which they are added. After
    [add_message] has been called for a session the registry holds, once for
    each of [messages] in turn, the history of the session is the history
    it had followed by these messages, sender and text, in the same order,
    with timestamps that increase; the other sessions are as they were, and
    [total_messages] has grown by the number of messages added. *)
Theorem add_message_keeps_the_order (messages : list (string * string))
    (w : CoreWorld) (sid : string) (ctx : ConversationContext) :
  _contexts (store (env w)) !! sid = Some ctx →
  ∃ w' ctx',
    add_messages sid messages w = Returned tt w'
    ∧ _contexts (store (env w')) = <[sid := ctx']> (_contexts (store (env w)))
    ∧ (∃ added, ctx_messages ctx' = ctx_messages ctx ++ added
                ∧ sender_and_text <$> added = messages
                ∧ msg_timestamp <$> added = seq (clock w) (length messages))
    ∧ total_messages (_store_stats (store (env w')))
      = (total_messages (_store_stats (store (env w)))
         + Z.of_nat (length messages))%Z
    ∧ log w' = log w.
Proof.
  revert w ctx. induction messages as [|[sender text] rest IH]; intros w ctx Hctx.
  - exists w, ctx. split; [done|]. split; [by rewrite insert_id|].
    split; [exists []; by rewrite app_nil_r|]. split; [cbn; lia|done].
  - destruct (add_message_existing w sid sender text no_kwargs ctx Hctx)
      as (w1 & Hadd & Hmap & Htotal & Hclock & Hlog).
    destruct (IH w1 (ConversationContext.add_message sender text no_kwargs
                       (clock w) ctx).2)
      as (w' & ctx' & Hrest & Hmap' & (added & Hmsgs & Hst & Hts) & Htotal' & Hlog').
    { rewrite Hmap. apply lookup_insert_eq. }
    exists w', ctx'. cbn [add_messages]. unfold bind at 1. rewrite Hadd.
    split; [done|]. split; [by rewrite Hmap', Hmap, insert_insert_eq|].
    split; [|split; [rewrite Htotal', Htotal; cbn [length]; lia|congruence]].
    exists (mkMessage sender text (clock w) None None None None :: added).
    split; [|split].
    + rewrite Hmsgs. cbn. by rewrite <- app_assoc.
    + cbn. by rewrite Hst.
    + cbn. by rewrite Hts, Hclock.
Qed.
(** ** Further properties of the event bus *)

Section EventBusSubscriptions.
Context {Cb : Type} `{!EqDecision Cb} {Env : Type}.
Variable run : Cb → (string → Payload → M Cb Env Event) → Event → M Cb Env unit.
Implicit Types w : World Cb Env.

Lemma list_remove_first (x : Cb) l1 l2 :
  x ∉ l1 → list_remove x (l1 ++ x :: l2) = Some (l1 ++ l2).
Proof.
  induction l1 as [|y l1 IH]; intros Hnot; cbn.
  - by rewrite decide_True.
  - apply not_elem_of_cons in Hnot as [Hne Hnot].
    rewrite decide_False by done. by rewrite IH.
Qed.

Lemma list_remove_absent (x : Cb) l : x ∉ l → list_remove x l = None.
Proof.
  induction l as [|y l IH]; intros Hnot; cbn; [done|].
  apply not_elem_of_cons in Hnot as [Hne Hnot].
  rewrite decide_False by done. by rewrite IH.
Qed.

Lemma first_occurrence_unique (x : Cb) l1 l2 l1' l2' :
  l1 ++ x :: l2 = l1' ++ x :: l2' → x ∉ l1 → x ∉ l1' → l1 = l1' ∧ l2 = l2'.
Proof.
  revert l1'. induction l1 as [|y l1 IH]; intros [|y' l1'] Heq Hnot Hnot'; cbn in *.
  - by injection Heq as ->.
  - injection Heq as <- _. exfalso. apply Hnot'. by left.
  - injection Heq as -> _. exfalso. apply Hnot. by left.
  - injection Heq as -> Heq. apply not_elem_of_cons in Hnot as [_ Hnot].
    apply not_elem_of_cons in Hnot' as [_ Hnot'].
    by destruct (IH l1' Heq) as [-> ->].
Qed.

(** [unsubscribe] takes the first subscription of the callback to the
    event type off the list and keeps the others in their order; the
    subscribers of the other event types, the counters and the log are as
    they were. When the callback is not subscribed to the event type nothing
    is raised and no subscription changes: a WARNING is logged if the type
    has, or once had, subscribers, and nothing at all happens if the type
    was never subscribed to. *)
Theorem unsubscribe_removes_first_subscription (ty : string) (cb : Cb) w :
  (∀ before later,
     snapshot ty w = before ++ cb :: later → cb ∉ before →
     ∃ w', unsubscribe ty cb w = Returned tt w'
           ∧ snapshot ty w' = before ++ later
           ∧ (∀ ty', ty' ≠ ty → snapshot ty' w' = snapshot ty' w)
           ∧ _stats (bus w') = _stats (bus w) ∧ env w' = env w ∧ log w' = log w)
  ∧ (cb ∉ snapshot ty w →
     ∃ w', unsubscribe ty cb w = Returned tt w'
           ∧ bus w' = bus w ∧ env w' = env w
           ∧ log w'
             = log w ++ match _subscribers (bus w) !! ty with
                        | Some _ =>
                            [mkLog WARNING ("Callback not found for '" +:+ ty +:+ "'")]
                        | None => []
                        end).
Proof.
  split.
  - intros before later Hsnap Hnot. unfold unsubscribe, bind, gets.
    unfold snapshot in Hsnap.
    destruct (_subscribers (bus w) !! ty) as [l|] eqn:E; cbn in Hsnap;
      [|by destruct before].
    subst l. rewrite list_remove_first by done.
    eexists. split; [reflexivity|]. cbn. unfold snapshot. cbn.
    rewrite lookup_insert_eq. repeat split; try done.
    intros ty' Hne. by rewrite lookup_insert_ne.
  - intros Hnot. unfold unsubscribe, bind, gets. unfold snapshot in Hnot.
    destruct (_subscribers (bus w) !! ty) as [l|] eqn:E; cbn in Hnot.
    + rewrite list_remove_absent by done. eexists. split; [reflexivity|]. done.
    + exists w. by rewrite app_nil_r.
Qed.

(** [subscribe] followed by [unsubscribe] of the same callback. If the
    callback was not subscribed to the event type, every event type has the
    subscribers it had before. If it was, the pair takes its first
    subscription off and leaves the new one: the callback now comes after
    the subscribers that used to follow it. *)
Theorem subscribe_then_unsubscribe (ty : string) (cb : Cb) w :
  ∃ w', bind (subscribe ty cb) (λ _, unsubscribe ty cb) w = Returned tt w'
        ∧ (∀ ty', ty' ≠ ty → snapshot ty' w' = snapshot ty' w)
        ∧ _stats (bus w') = _stats (bus w) ∧ env w' = env w ∧ log w' = log w
        ∧ (cb ∉ snapshot ty w → snapshot ty w' = snapshot ty w)
        ∧ (∀ before later,
             snapshot ty w = before ++ cb :: later → cb ∉ before →
             snapshot ty w' = before ++ later ++ [cb]).
Proof.
  assert (Hrun : ∀ l', list_remove cb (snapshot ty w ++ [cb]) = Some l' →
    ∃ w', bind (subscribe ty cb) (λ _, unsubscribe ty cb) w = Returned tt w'
          ∧ snapshot ty w' = l'
          ∧ (∀ ty', ty' ≠ ty → snapshot ty' w' = snapshot ty' w)
          ∧ _stats (bus w') = _stats (bus w) ∧ env w' = env w ∧ log w' = log w).
  { intros l' Hl'. unfold bind at 1. unfold subscribe, modify.
    unfold unsubscribe, bind, gets. cbn. rewrite lookup_insert_eq.
    fold (snapshot ty w). rewrite Hl'.
    eexists. split; [reflexivity|]. unfold snapshot. cbn.
    rewrite insert_insert_eq, lookup_insert_eq. repeat split; try done.
    intros ty' Hne. by rewrite lookup_insert_ne. }
  destruct (decide (cb ∈ snapshot ty w)) as [Hin|Hnot].
  - apply list_elem_of_split_l in Hin as (before & later & Hsnap & Hbefore).
    destruct (Hrun (before ++ later ++ [cb]))
      as (w' & Hw' & Hty & Hother & Hstats & Henv & Hlog).
    { rewrite Hsnap, <- app_assoc. cbn [app]. by rewrite list_remove_first. }
    exists w'. repeat split; try done.
    + intros Hnot. exfalso. apply Hnot. rewrite Hsnap.
      apply elem_of_app. right. by left.
    + intros before' later' Heq Hnot'. rewrite Hsnap in Heq.
      by destruct (first_occurrence_unique cb before later before' later')
        as [-> ->].
  - destruct (Hrun (snapshot ty w))
      as (w' & Hw' & Hty & Hother & Hstats & Henv & Hlog).
    { replace (snapshot ty w ++ [cb]) with (snapshot ty w ++ cb :: []) by done.
      rewrite list_remove_first by done. by rewrite app_nil_r. }
    exists w'. repeat split; try done.
    intros before later Heq Hnot'. exfalso. apply Hnot. rewrite Heq.
    apply elem_of_app. right. by left.
Qed.

End EventBusSubscriptions.
Section EventBusCounters.
Context {Cb : Type} `{!EqDecision Cb} {Env : Type}.
Variable run : Cb → (string → Payload → M Cb Env Event) → Event → M Cb Env unit.
Implicit Types w : World Cb Env.

Lemma deliver_counts (call : Cb → Event → M Cb Env unit) subscribers event w :
  (∀ cb, cb ∈ subscribers → keeps_counters (call cb event)) →
  ∃ report w',
    deliver call subscribers event w = Returned report w'
    ∧ report.*1 = subscribers
    ∧ published (_stats (bus w')) = published (_stats (bus w))
    ∧ delivered (_stats (bus w'))
      = delivered (_stats (bus w)) + returned_calls report
    ∧ errors (_stats (bus w')) = errors (_stats (bus w)) + raised_calls report.
Proof.
  revert w. induction subscribers as [|cb rest IH]; intros w Hcall.
  - exists [], w. cbn. repeat split; unfold returned_calls, raised_calls; cbn; lia.
  - cbn [deliver].
    assert (Hrest : ∀ cb', cb' ∈ rest → keeps_counters (call cb' event))
      by (intros; apply Hcall; by right).
    pose proof (Hcall cb ltac:(by left) w) as Hcb.
    destruct (call cb event w) as [[] w1|e w1|]; [| |done].
    + unfold bind at 1. cbn [modify].
      destruct (IH (set_bus (set_stats incr_delivered) w1) Hrest)
        as (r & w' & Hr & Hfst & Hp & Hd & He).
      exists ((cb, true) :: r), w'. rewrite (bind_Returned _ _ _ _ _ Hr).
      split; [done|]. split; [by rewrite fmap_cons, Hfst|].
      cbn in Hp, Hd, He. rewrite Hcb in Hp, Hd, He.
      unfold returned_calls, raised_calls in *.
      rewrite filter_cons_True by done. rewrite filter_cons_False by done.
      cbn [length]. repeat split; lia.
    + unfold bind at 1. cbn [modify]. unfold bind at 1. cbn [logger].
      match goal with |- context [bind _ _ ?w0] =>
        destruct (IH w0 Hrest) as (r & w' & Hr & Hfst & Hp & Hd & He) end.
      exists ((cb, false) :: r), w'. rewrite (bind_Returned _ _ _ _ _ Hr).
      split; [done|]. split; [by rewrite fmap_cons, Hfst|].
      cbn in Hp, Hd, He. rewrite Hcb in Hp, Hd, He.
      unfold returned_calls, raised_calls in *.
      rewrite filter_cons_False by done. rewrite filter_cons_True by done.
      cbn [length]. repeat split; lia.
Qed.

(** The counters of the bus after a publish whose subscribers leave them
    alone (they publish nothing themselves): [published] has grown by one;
    [delivered] by the number of subscribers that returned and [errors] by
    the number that raised, which together are the subscribers the event
    type had when the event was published. With no subscriber, only
    [published] grows. *)
Theorem publish_counts_every_call fuel ty p w :
  (∀ cb event, cb ∈ snapshot ty w → keeps_counters (run cb (publish run fuel) event)) →
  ∃ event report w',
    publish_report run (S fuel) ty p w = Returned (event, report) w'
    ∧ publish run (S fuel) ty p w = Returned event w'
    ∧ published (_stats (bus w')) = S (published (_stats (bus w)))
    ∧ delivered (_stats (bus w')) = delivered (_stats (bus w)) + returned_calls report
    ∧ errors (_stats (bus w')) = errors (_stats (bus w)) + raised_calls report
    ∧ returned_calls report + raised_calls report = length (snapshot ty w).
Proof.
  intros Hrun.
  assert (∃ report w',
    publish_report run (S fuel) ty p w = Returned (event_of ty p w, report) w'
    ∧ published (_stats (bus w')) = S (published (_stats (bus w)))
    ∧ delivered (_stats (bus w')) = delivered (_stats (bus w)) + returned_calls report
    ∧ errors (_stats (bus w')) = errors (_stats (bus w)) + raised_calls report
    ∧ report.*1 = snapshot ty w)
    as (report & w' & Hrep & Hp & Hd & He & Hfst).
  { rewrite publish_report_unfold.
    destruct (snapshot ty w) as [|cb rest] eqn:Hsnap.
    - eexists [], _. split; [reflexivity|]. cbn.
      unfold returned_calls, raised_calls. cbn. repeat split; lia.
    - destruct (deliver_counts (λ cb, run cb (publish run fuel)) (cb :: rest)
                  (event_of ty p w) (dispatching ty p w))
        as (report & w' & Hdel & Hfst & Hp & Hd & He).
      { intros cb' Hin. by apply Hrun. }
      exists report, w'. rewrite (bind_Returned _ _ _ _ _ Hdel).
      split; [done|]. cbn in Hp, Hd, He. repeat split; try done; lia. }
  exists (event_of ty p w), report, w'. split; [done|].
  split; [by rewrite publish_unfold, (bind_Returned _ _ _ _ _ Hrep)|].
  repeat split; try done.
  rewrite <- Hfst, length_fmap. unfold returned_calls, raised_calls.
  clear. induction report as [|[cb [|]] report IH]; [done|..].
  - rewrite filter_cons_True by done. rewrite filter_cons_False by done.
    cbn [length]. lia.
  - rewrite filter_cons_False by done. rewrite filter_cons_True by done.
    cbn [length]. lia.
Qed.

Lemma publish_report_calls_snapshot fuel ty p w :
  (∀ cb w1, cb ∈ snapshot ty w →
     run cb (publish run fuel) (event_of ty p w) w1 ≠ OutOfFuel) →
  ∃ report w',
    publish_report run (S fuel) ty p w = Returned (event_of ty p w, report) w'
    ∧ report.*1 = snapshot ty w.
Proof.
  intros Hret. rewrite publish_report_unfold.
  destruct (snapshot ty w) as [|cb rest] eqn:Hsnap.
  - by eexists [], _.
  - destruct (deliver_report (λ cb, run cb (publish run fuel)) (cb :: rest)
                (event_of ty p w) (dispatching ty p w) Hret)
      as (report & w' & Hdel & Hfst).
    exists report, w'. by rewrite (bind_Returned _ _ _ _ _ Hdel).
Qed.

(** [get_subscribers] counts what the next publish will call. For an event
    type, it answers with the one entry of that type, which is [0] for a type
    nobody subscribed to, and a publish whose subscribers come back calls
    that many callbacks. For no event type, and for the empty string, which
    [if event_type:] takes for none, it answers with the counts of all the
    types that were subscribed to. After [clear_all_subscribers] the table
    is empty and every event goes undelivered. *)
Theorem get_subscribers_counts_the_next_delivery fuel ty p w :
  (∀ cb w1, cb ∈ snapshot ty w →
     run cb (publish run fuel) (event_of ty p w) w1 ≠ OutOfFuel) →
  (ty ≠ "" →
   get_subscribers (Some ty) w = Returned {[ ty := length (snapshot ty w) ]} w)
  ∧ (∃ event report w',
       publish_report run (S fuel) ty p w = Returned (event, report) w'
       ∧ length report = length (snapshot ty w))
  ∧ get_subscribers (Some "") w = get_subscribers None w
  ∧ get_subscribers None w = Returned (length <$> _subscribers (bus w)) w
  ∧ (∃ w', clear_all_subscribers w = Returned tt w'
           ∧ get_subscribers None w' = Returned ∅ w'
           ∧ env w' = env w ∧ _stats (bus w') = _stats (bus w)
           ∧ ∀ ty' p', publish run (S fuel) ty' p' w'
                       = Returned (event_of ty' p' w') (undelivered ty' p' w')).
Proof.
  intros Hret. split; [|split; [|split; [|split]]].
  - intros Hne. unfold get_subscribers, bind, gets. cbn.
    apply String.eqb_neq in Hne. by rewrite Hne.
  - destruct (publish_report_calls_snapshot fuel ty p w Hret)
      as (report & w' & Hrep & Hfst).
    exists (event_of ty p w), report, w'. split; [done|].
    by rewrite <- Hfst, length_fmap.
  - done.
  - done.
  - eexists. split; [reflexivity|]. split.
    + unfold get_subscribers, bind, gets. cbn. by rewrite fmap_empty.
    + split; [done|]. split; [done|]. intros ty' p'. by apply publish_inert.
Qed.

End EventBusCounters.
(** ** The counters of the system *)

Lemma by_reason_total_incr (counts : gmap string Z) reason :
  by_reason_total (<[reason := (default 0 (counts !! reason) + 1)%Z]> counts)
  = (by_reason_total counts + 1)%Z.
Proof.
  unfold by_reason_total.
  destruct (counts !! reason) as [n|] eqn:E; cbn.
  - rewrite <- insert_delete_eq.
    rewrite map_fold_insert_L; [|intros; lia|apply lookup_delete_eq].
    rewrite (map_fold_delete_L _ _ reason n counts); [lia|intros; lia|done].
  - rewrite map_fold_insert_L; [lia|intros; lia|done].
Qed.

Lemma agent_counts_enqueue objs n q act t qd asg res by_ sid reason e q' :
  agent_counts objs n q act (mkEscalationStats t qd asg res by_) →
  esc_status e = "QUEUED" →
  q' = n :: q ∨ q' = q ++ [n] →
  agent_counts (<[n := e]> objs) (S n) q' (<[sid := n]> act)
    (mkEscalationStats (t + 1) (qd + 1) asg res
       (<[reason := (default 0 (by_ !! reason) + 1)%Z]> by_)).
Proof.
  intros (Hnd & Hq & Hal & Hqd & Ht & Hby & Hres & Hact) He Hq'. cbn in *.
  assert (Hn : n ∉ q).
  { intros Hin. apply Hq in Hin as (e' & He' & _).
    assert (n < n) by (apply Hal; eauto). lia. }
  assert (Hin' : ∀ r, r ∈ q' ↔ r = n ∨ r ∈ q).
  { intros r. destruct Hq' as [->| ->].
    - apply elem_of_cons.
    - rewrite elem_of_app, list_elem_of_singleton. tauto. }
  assert (Hlen : length q' = S (length q)).
  { destruct Hq' as [->| ->]; [done|]. rewrite length_app. cbn. lia. }
  repeat split.
  - destruct Hq' as [->| ->]; [by apply NoDup_cons|].
    apply NoDup_app. split; [done|]. split; [|apply NoDup_singleton].
    intros x Hx Hx'. apply list_elem_of_singleton in Hx' as ->. done.
  - intros [->|Hr]%Hin'.
    + exists e. by rewrite lookup_insert_eq.
    + apply Hq in Hr as (e' & He' & Hs). exists e'.
      rewrite lookup_insert_ne; [done|]. intros <-.
      assert (n < n) by (apply Hal; eauto). lia.
  - intros (e' & He' & Hs). apply Hin'.
    apply lookup_insert_Some in He' as [[<- <-]|[Hne He']]; [by left|].
    right. apply Hq. eauto.
  - rewrite lookup_insert_is_Some. intros [<-|[_ Hr]]; [lia|].
    apply Hal in Hr. lia.
  - intros Hr. rewrite lookup_insert_is_Some.
    destruct (decide (n = r)) as [|Hne]; [by left|]. right. split; [done|].
    apply Hal. lia.
  - cbn. rewrite Hlen. lia.
  - cbn. lia.
  - cbn. rewrite by_reason_total_incr. lia.
  - done.
  - cbn. destruct (act !! sid) eqn:E.
    + rewrite map_size_insert_Some by eauto. lia.
    + rewrite map_size_insert_None by done. lia.
Qed.

Lemma agent_counts_assign objs n r rest act t qd asg res by_ old e :
  agent_counts objs n (r :: rest) act (mkEscalationStats t qd asg res by_) →
  objs !! r = Some old →
  esc_status e ≠ "QUEUED" →
  agent_counts (<[r := e]> objs) n rest act
    (mkEscalationStats t (qd - 1) (asg + 1) res by_).
Proof.
  intros (Hnd & Hq & Hal & Hqd & Ht & Hby & Hres & Hact) Hold He. cbn in *.
  apply NoDup_cons in Hnd as [Hr Hnd].
  repeat split; try done.
  - intros Hin. assert (r0 ≠ r) by (intros ->; done).
    destruct (proj1 (Hq r0)) as (e' & He' & Hs); [by right|].
    exists e'. by rewrite lookup_insert_ne.
  - intros (e' & He' & Hs).
    apply lookup_insert_Some in He' as [[<- <-]|[Hne He']]; [done|].
    assert (Hin : r0 ∈ r :: rest) by (apply Hq; eauto).
    apply elem_of_cons in Hin as [->|Hin]; done.
  - rewrite lookup_insert_is_Some. intros [<-|[_ Hr0]]; apply Hal; eauto.
  - intros Hr0. rewrite lookup_insert_is_Some.
    destruct (decide (r = r0)) as [|Hne]; [by left|]. right. split; [done|].
    by apply Hal.
  - cbn. lia.
Qed.

Lemma agent_counts_dangling objs n r rest act stats :
  agent_counts objs n (r :: rest) act stats → objs !! r = None → False.
Proof.
  intros (_ & Hq & _) Hr. destruct (proj1 (Hq r)) as (e & He & _); [by left|].
  congruence.
Qed.

Lemma agent_counts_resolve objs n q act t qd asg res by_ sid r :
  agent_counts objs n q act (mkEscalationStats t qd asg res by_) →
  act !! sid = Some r →
  agent_counts objs n q (delete sid act)
    (mkEscalationStats t qd (asg - 1) (res + 1) by_).
Proof.
  intros (Hnd & Hq & Hal & Hqd & Ht & Hby & Hres & Hact) Hr. cbn in *.
  do 6 (split; [done|]). split; [cbn; lia|]. cbn.
  rewrite map_size_delete_Some by eauto.
  assert (0 < size act).
  { destruct (size act) eqn:Hz; [|lia].
    apply map_size_empty_inv in Hz. subst. by rewrite lookup_empty in Hr. }
  lia.
Qed.

Lemma registry_counts_update ctxs stats p sid c c' :
  registry_counts ctxs stats p →
  ctxs !! sid = Some c →
  ctx_session_id c' = ctx_session_id c →
  length (ctx_messages c') = length (ctx_messages c) →
  registry_counts (<[sid := c']> ctxs) stats p.
Proof.
  intros (Hf & Hc & Ha & He & Ht & Hp) Hsid Hid Hlen.
  pose proof (stored_messages_insert ctxs sid c c' Hsid) as Hs.
  repeat split; try done.
  - intros k c0 [[<- <-]|[_ H]]%lookup_insert_Some; [|by apply Hf].
    rewrite Hid. by apply Hf.
  - rewrite map_size_insert_Some by eauto. done.
  - rewrite map_size_insert_Some by eauto. done.
  - rewrite Ht. lia.
Qed.

Lemma registry_counts_add ctxs cr ac en t p sid c c' :
  registry_counts ctxs (mkStoreStats cr ac en t) p →
  ctxs !! sid = Some c →
  ctx_session_id c' = ctx_session_id c →
  length (ctx_messages c') = S (length (ctx_messages c)) →
  registry_counts (<[sid := c']> ctxs) (mkStoreStats cr ac en (t + 1)) (p + 1).
Proof.
  intros (Hf & Hc & Ha & He & Ht & Hp) Hsid Hid Hlen. cbn in *.
  pose proof (stored_messages_insert ctxs sid c c' Hsid) as Hs.
  repeat split; cbn; try done.
  - intros k c0 [[<- <-]|[_ H]]%lookup_insert_Some; [|by apply Hf].
    rewrite Hid. by apply Hf.
  - rewrite map_size_insert_Some by eauto. done.
  - rewrite map_size_insert_Some by eauto. done.
  - lia.
  - lia.
Qed.

Lemma registry_counts_create ctxs cr ac en t p sid c' :
  registry_counts ctxs (mkStoreStats cr ac en t) p →
  ctxs !! sid = None →
  ctx_session_id c' = sid →
  length (ctx_messages c') = 1 →
  registry_counts (<[sid := c']> ctxs) (mkStoreStats (cr + 1) (ac + 1) en (t + 1))
    (p + 1).
Proof.
  intros (Hf & Hc & Ha & He & Ht & Hp) Hsid Hid Hlen. cbn in *.
  repeat split; cbn; try done.
  - intros k c0 [[<- <-]|[_ H]]%lookup_insert_Some; [done|by apply Hf].
  - rewrite map_size_insert_None by done. lia.
  - rewrite map_size_insert_None by done. lia.
  - rewrite stored_messages_insert_fresh by done. lia.
  - lia.
Qed.
(** The counters on a world given by its records. *)
Ltac solve_agent_counts :=
  first
    [ assumption
    | eapply agent_counts_enqueue;
        [eassumption|reflexivity|first [left; reflexivity|right; reflexivity]]
    | eapply agent_counts_assign; [eassumption|eassumption|discriminate]
    | eapply agent_counts_resolve; eassumption ].

Ltac solve_registry_counts :=
  rewrite ?insert_insert_eq;
  first
    [ assumption
    | eapply registry_counts_update;
        [solve_registry_counts|eassumption|reflexivity
        |cbn; by rewrite ?on_last_message_length]
    | eapply registry_counts_add;
        [eassumption|eassumption|reflexivity|cbn; rewrite length_app; cbn; lia]
    | eapply registry_counts_create; [eassumption|eassumption|reflexivity|reflexivity] ].

Ltac solve_counts :=
  first
    [ by (exfalso; eapply agent_counts_dangling; eassumption)
    | split; [reflexivity|];
      cbv [objects next_ref queue active_escalations escalation_stats
           escalation_agent env store _contexts _store_stats coordinator_stats
           messages_processed];
      split; [solve_agent_counts|solve_registry_counts] ].

Ltac use_pub_counts pub Hpub side :=
  match goal with
  | |- context [pub ?ty ?p ?w1] =>
      let H := fresh "H" in
      let w2 := fresh "w" in
      assert (H : keeps system_counts (pub ty p)) by (apply Hpub; side);
      specialize (H w1 ltac:(solve_counts));
      destruct (pub ty p w1) as [? w2|? w2|]; [| |done];
      destruct H as (? & ? & ?); wdestruct_fresh w2; wproj; subst
  end.

(** A branch that cannot be taken. *)
Ltac absurd_branch :=
  match goal with
  | H : None = Some _ |- _ => discriminate H
  | H : Some _ = None |- _ => discriminate H
  | H : ¬ is_Some (Some _) |- _ => exfalso; apply H; eexists; reflexivity
  | H : ?x = None, i : is_Some ?x |- _ =>
      let Hi := fresh in
      exfalso; pose proof i as [? Hi]; rewrite H in Hi; discriminate Hi
  | H : ?x = Some _, n : ¬ is_Some ?x |- _ => exfalso; apply n; rewrite H; by eexists
  end.

Ltac counts_loop pub Hpub side :=
  repeat (mcbv; first [ absurd_branch
                      | rewrite lookup_insert_eq
                      | use_pub_counts pub Hpub side
                      | destruct_stuck ]).

Lemma handle_resolution_counts pub event :
  (∀ ty p, system_subscribers !! ty = None → keeps system_counts (pub ty p)) →
  keeps system_counts (EscalationAgent.handle_resolution pub event).
Proof.
  intros Hpub w (Hw & Hagent & Hreg). destruct event as [ty p ts id].
  wired_world w Hw.
  counts_loop pub Hpub ltac:(by vm_compute).
  all: try solve_counts.
Qed.

Lemma assign_to_operator_counts pub event :
  (∀ ty p, system_subscribers !! ty = None → keeps system_counts (pub ty p)) →
  keeps system_counts (EscalationAgent.assign_to_operator pub event).
Proof.
  intros Hpub w (Hw & Hagent & Hreg). destruct event as [ty p ts id].
  wired_world w Hw.
  counts_loop pub Hpub ltac:(by vm_compute).
  all: try solve_counts.
Qed.

Lemma handle_escalation_counts pub event :
  (∀ ty p, system_subscribers !! ty = None → keeps system_counts (pub ty p)) →
  keeps system_counts (EscalationAgent.handle_escalation pub event).
Proof.
  intros Hpub w (Hw & Hagent & Hreg). destruct event as [ty p ts id].
  wired_world w Hw.
  counts_loop pub Hpub ltac:(by vm_compute).
  all: try solve_counts.
Qed.
Lemma coordinator_counts cb pub event :
  cb ∈ [Coordinator_handle_new_message; Coordinator_handle_sentiment_result;
        Coordinator_handle_intent_result; Coordinator_handle_escalation_request;
        Coordinator_handle_agent_error] →
  (∀ ty p, escalation_level ty → keeps system_counts (pub ty p)) →
  keeps system_counts (run cb pub event).
Proof.
  intros Hcb Hpub w (Hw & Hagent & Hreg). destruct event as [ty p ts id].
  wired_world w Hw.
  repeat (apply elem_of_cons in Hcb as [->|Hcb]); [..|by apply elem_of_nil in Hcb];
    unrun.
  - counts_loop pub Hpub level_side. all: try solve_counts.
  - counts_loop pub Hpub level_side. all: try solve_counts.
  - counts_loop pub Hpub level_side. all: try solve_counts.
  - counts_loop pub Hpub level_side. all: try solve_counts.
  - counts_loop pub Hpub level_side. all: try solve_counts.
Qed.

Lemma system_counts_stable : stable system_counts.
Proof. intros w ? ? ? ? ? (Hw & Hagent & Hreg). by split. Qed.

Lemma publish_inert_counts f ty p :
  system_subscribers !! ty = None →
  keeps system_counts (publish run (S f) ty p).
Proof.
  intros Hty. apply keeps_of_publish. intros w Hw.
  apply publish_keeps; [apply system_counts_stable| |done].
  intros cb event Hcb. destruct Hw as [Hw _].
  rewrite (wired_inert w ty Hw Hty) in Hcb. by apply elem_of_nil in Hcb.
Qed.

Lemma publish_escalation_level_counts f ty p :
  escalation_level ty →
  keeps system_counts (publish run (S (S f)) ty p).
Proof.
  intros Hty. apply keeps_of_publish. intros w Hw.
  apply publish_keeps; [apply system_counts_stable| |done].
  intros cb event Hcb. destruct Hw as [Hw _].
  unfold snapshot in Hcb. rewrite Hw in Hcb.
  unfold escalation_level in Hty. rewrite Forall_forall in Hty.
  specialize (Hty cb Hcb).
  repeat (apply elem_of_cons in Hty as [->|Hty]); [..|by apply elem_of_nil in Hty];
    unrun.
  - apply handle_escalation_counts. intros. by apply publish_inert_counts.
  - apply assign_to_operator_counts. intros. by apply publish_inert_counts.
  - apply handle_resolution_counts. intros. by apply publish_inert_counts.
Qed.

(** With three units of fuel every publish on the system comes back, and
    it keeps the counters in step with the records. *)
Lemma publish_any_counts f ty p (w : CoreWorld) :
  system_counts w →
  ∃ w', bus_publish (S (S (S f))) ty p w = Returned (event_of ty p w) w'
        ∧ system_counts w'.
Proof.
  intros Hw. unfold bus_publish.
  apply publish_keeps; [apply system_counts_stable| |done].
  intros cb event _. destruct cb.
  1-5: apply coordinator_counts;
         [apply (bool_decide_unpack _); by vm_compute
         |intros; by apply publish_escalation_level_counts].
  - apply handle_escalation_counts. intros. by apply publish_inert_counts.
  - apply assign_to_operator_counts. intros. by apply publish_inert_counts.
  - apply handle_resolution_counts. intros. by apply publish_inert_counts.
Qed.

Lemma publish_all_counts f events (w : CoreWorld) :
  system_counts w →
  ∃ w', publish_all (S (S (S f))) events w = Returned tt w' ∧ system_counts w'.
Proof.
  revert w. induction events as [|[ty p] events IH]; intros w Hw.
  - by exists w.
  - cbn [publish_all]. unfold bind at 1.
    destruct (publish_any_counts f ty p w Hw) as (w1 & -> & Hw1). by apply IH.
Qed.

Lemma system_start_counts : system_counts system_start.
Proof.
  split; [apply startup_wires|]. split.
  - rewrite system_start_agent. cbn. repeat split; try done.
    + apply NoDup_nil_2.
    + by intros ?%elem_of_nil.
    + intros (e & He & _). by rewrite lookup_empty in He.
    + rewrite lookup_empty. by intros [? ?].
    + lia.
  - assert (store (env system_start) = ContextStore.init
            ∧ coordinator_stats (env system_start) = CoordinatorAgent.init_stats)
      as [-> ->] by (split; by vm_compute).
    cbn. repeat split; try done.
Qed.
(** ** Single events on the system *)

Lemma publish_task_escalate_reports f (w : CoreWorld) sid reason p :
  wired w →
  p !! "session_id" = Some (VStr sid) →
  p !! "reason" = Some (VStr reason) →
  ∃ e2 e3 w',
    bus_publish (S (S f)) "TASK_ESCALATE" p w
      = Returned (event_of "TASK_ESCALATE" p w) w'
    ∧ escalation_agent (env w')
      = enqueued sid reason (get_default p "details" (VDict ∅))
          (get_default p "context" VNone)
          (get_default p "priority" (VStr "NORMAL")) (S (clock w))
          (escalation_agent (env w))
    ∧ announced w' = announced w ++ [event_of "TASK_ESCALATE" p w; e2; e3]
    ∧ event_type e2 = "RESULT_ESCALATION_COMPLETE"
    ∧ payload e2
      = {[ "session_id" := VStr sid;
           "status" := VStr "QUEUED";
           "queue_position" := VNat (length (queue (escalation_agent (env w))) + 1);
           "estimated_wait_time" :=
             VInt (Z.of_nat (S (length (queue (escalation_agent (env w))))) * 300) ]}
    ∧ event_type e3 = "NOTIFICATION_OPERATOR"
    ∧ payload e3
      = {[ "type" := VStr "NEW_ESCALATION";
           "session_id" := VStr sid;
           "reason" := VStr reason;
           "priority" := get_default p "priority" (VStr "NORMAL");
           "queue_size" := VNat (S (length (queue (escalation_agent (env w))))) ]}.
Proof.
  intros Hw Hsid Hreason. wired_world w Hw.
  single "TASK_ESCALATE" Escalation_handle_escalation.
  mcbv. rewrite Hsid. mcbv. rewrite Hreason. mcbv.
  destruct (eq_str _ "HIGH") eqn:Hhigh; mcbv;
    inert "RESULT_ESCALATION_COMPLETE"; mcbv;
    inert "NOTIFICATION_OPERATOR"; mcbv.
  all: eexists _, _, _; split; [reflexivity|]; unfold enqueued; cbn;
    rewrite Hhigh, <- !app_assoc, ?length_app; cbn;
    rewrite ?Nat.add_1_r; done.
Qed.
(** ** The status of the queue *)

Lemma queue_entries_allocated (q : list nat) (i : nat) (w : CoreWorld) :
  Forall (λ r, is_Some (objects (escalation_agent (env w)) !! r)) q →
  ∃ entries,
    EscalationAgent.queue_entries i q w = Returned entries w
    ∧ omap (entry_field "session_id") entries
      = VStr <$> omap (session_of (escalation_agent (env w))) q
    ∧ omap (entry_field "position") entries = VNat <$> seq (S i) (length q).
Proof.
  revert i. induction q as [|r q IH]; intros i Hq.
  - by exists [].
  - apply Forall_cons in Hq as [[e He] Hq].
    destruct (IH (S i) Hq) as (entries & Hentries & Hs & Hp).
    cbn [EscalationAgent.queue_entries].
    unfold bind at 1. unfold EscalationAgent.deref, EscalationAgent.self_gets,
      bind at 1, gets. rewrite He. unfold ret at 1.
    unfold bind at 1. rewrite Hentries. unfold ret.
    eexists. split; [reflexivity|]. cbn [omap list_omap entry_field length seq].
    unfold session_of at 1. rewrite He. cbn.
    rewrite Hs, Hp, Nat.add_1_r.
    rewrite lookup_insert_eq. rewrite !lookup_insert_ne by discriminate.
    rewrite lookup_singleton_eq. done.
Qed.

Lemma agent_counts_queue_allocated a :
  agent_counts (objects a) (next_ref a) (queue a) (active_escalations a)
    (escalation_stats a) →
  queue_allocated a.
Proof.
  intros (_ & Hq & _). unfold queue_allocated. apply Forall_forall.
  intros r Hr. apply Hq in Hr as (e & He & _). eauto.
Qed.

Lemma get_queue_status_allocated (w : CoreWorld) :
  queue_allocated (escalation_agent (env w)) →
  ∃ entries,
    EscalationAgent.get_queue_status w
    = Returned {[ "queue_size" := VNat (length (queue (escalation_agent (env w))));
                  "active_escalations" :=
                    VNat (size (active_escalations (escalation_agent (env w))));
                  "estimated_wait_time" :=
                    VInt (Z.of_nat (length (queue (escalation_agent (env w)))) * 300);
                  "queue" := VList entries ]} w
    ∧ omap (entry_field "session_id") entries
      = VStr <$> queue_sessions (escalation_agent (env w))
    ∧ omap (entry_field "position") entries
      = VNat <$> seq 1 (length (queue (escalation_agent (env w)))).
Proof.
  intros Hq.
  destruct (queue_entries_allocated (queue (escalation_agent (env w))) 0 w Hq)
    as (entries & Hentries & Hs & Hp).
  exists entries. split; [|done].
  unfold EscalationAgent.get_queue_status, EscalationAgent._estimate_wait_time,
    EscalationAgent.self_gets, bind, gets. by rewrite Hentries.
Qed.

(** The queue as [get_queue_status] shows it, after any events on the
    system of the coordinator and the escalation agent, with payloads of
    the model. The call comes back; "queue_size" is the length of the queue and
    the estimated wait is 300 seconds for each record in it; "queue" lists the
    sessions that wait, with the positions 1, 2, ... And the list is the
    order of assignment: the operators that become available next get the
    sessions from its head, one each, in that order. *)
Theorem queue_status_is_the_order_of_assignment fuel events operators :
  (3 ≤ fuel)%nat →
  typed_events events = true →
  ∃ w' status entries sessions,
    publish_all fuel events system_start = Returned tt w'
    ∧ EscalationAgent.get_queue_status w' = Returned status w'
    ∧ status !! "queue_size" = Some (VNat (length sessions))
    ∧ status !! "estimated_wait_time" = Some (VInt (Z.of_nat (length sessions) * 300))
    ∧ status !! "queue" = Some (VList entries)
    ∧ omap (entry_field "session_id") entries = VStr <$> sessions
    ∧ omap (entry_field "position") entries = VNat <$> seq 1 (length sessions)
    ∧ ∃ new w'',
        assign_all fuel operators w' = Returned tt w''
        ∧ announced w'' = announced w' ++ new
        ∧ assigned_sessions new = take (length operators) sessions.
Proof.
  intros Hfuel _. destruct fuel as [|[|[|f]]]; [lia..|].
  destruct (publish_all_counts f events system_start system_start_counts)
    as (w' & Hall & Hw' & Hagent & _).
  pose proof (agent_counts_queue_allocated _ Hagent) as Hq.
  destruct (get_queue_status_allocated w' Hq) as (entries & Hstatus & Hs & Hp).
  destruct (assign_all_queue (S f) operators w' Hw' Hq)
    as (new & w'' & Hassign & _ & _ & _ & _ & Hann & Hnew).
  assert (Hlen : length (queue_sessions (escalation_agent (env w')))
                 = length (queue (escalation_agent (env w')))).
    by by apply omap_session_of_length.
  eexists w', _, entries, (queue_sessions (escalation_agent (env w'))).
  split; [done|]. split; [exact Hstatus|]. rewrite Hlen.
  split; [by plookup|]. split; [by plookup|]. split; [by plookup|].
  split; [done|]. split; [done|]. by exists new, w''.
Qed.

(** The counters of the escalation agent after any events on the system
    of the coordinator and the escalation agent, with payloads of the model,
    as [get_stats] shows them. "queued" is "queue_size", the length of the
    queue; the queue holds the records whose status is QUEUED, each once;
    the counts by reason add up to "total_escalations"; "resolved" is not
    negative, and the escalations resolved and the active ones together are
    not more than "total_escalations". *)
Theorem escalation_counters_match_the_queue fuel events :
  (3 ≤ fuel)%nat →
  typed_events events = true →
  ∃ w' stats,
    publish_all fuel events system_start = Returned tt w'
    ∧ EscalationAgent.get_stats w' = Returned stats w'
    ∧ stats !! "queued" = stats !! "queue_size"
    ∧ stats !! "queue_size"
      = Some (VNat (length (queue (escalation_agent (env w')))))
    ∧ NoDup (queue (escalation_agent (env w')))
    ∧ (∀ r, r ∈ queue (escalation_agent (env w'))
            ↔ ∃ e, objects (escalation_agent (env w')) !! r = Some e
                   ∧ esc_status e = "QUEUED")
    ∧ by_reason_total (by_reason (escalation_stats (escalation_agent (env w'))))
      = total_escalations (escalation_stats (escalation_agent (env w')))
    ∧ (0 ≤ resolved (escalation_stats (escalation_agent (env w'))))%Z
    ∧ (resolved (escalation_stats (escalation_agent (env w')))
       + Z.of_nat (size (active_escalations (escalation_agent (env w'))))
       ≤ total_escalations (escalation_stats (escalation_agent (env w'))))%Z.
Proof.
  intros Hfuel _. destruct fuel as [|[|[|f]]]; [lia..|].
  destruct (publish_all_counts f events system_start system_start_counts)
    as (w' & Hall & Hw' & (Hnd & Hq & Hal & Hqd & Ht & Hby & Hres & Hact) & _).
  eexists w', _. split; [done|]. split; [reflexivity|].
  split; [|split; [by plookup|done]].
  rewrite lookup_insert_ne by discriminate. rewrite lookup_insert_eq.
  rewrite !lookup_insert_ne by discriminate. rewrite lookup_insert_eq.
  by rewrite Hqd.
Qed.

(** The counters of the registry and of the coordinator after any events
    on the system of the coordinator and the escalation agent, with
    payloads of the model, as [get_stats] shows them. Nothing on this bus deletes a
    context: every session created is held, active, and filed under its own
    session id, which is what the coordinator reports as "active_sessions";
    and every message that was processed is in a context:
    "messages_processed", [total_messages] and the number of messages held
    are the same. *)
Theorem registry_counters_follow_the_events fuel events :
  (3 ≤ fuel)%nat →
  typed_events events = true →
  ∃ w' stats report,
    publish_all fuel events system_start = Returned tt w'
    ∧ ContextStore.get_stats w' = Returned stats w'
    ∧ CoordinatorAgent.get_stats w' = Returned report w'
    ∧ sessions_created stats = Z.of_nat (size (_contexts (store (env w'))))
    ∧ sessions_active stats = sessions_created stats
    ∧ sessions_ended stats = 0%Z
    ∧ report !! "active_sessions" = Some (VInt (sessions_active stats))
    ∧ total_messages stats
      = Z.of_nat (stored_messages (_contexts (store (env w'))))
    ∧ report !! "messages_processed" = Some (VInt (total_messages stats))
    ∧ ∀ key context, _contexts (store (env w')) !! key = Some context →
                     ctx_session_id context = key.
Proof.
  intros Hfuel _. destruct fuel as [|[|[|f]]]; [lia..|].
  destruct (publish_all_counts f events system_start system_start_counts)
    as (w' & Hall & Hw' & _ & (Hf & Hc & Ha & He & Ht & Hp)).
  eexists w', _, _. split; [done|]. split; [reflexivity|]. split; [reflexivity|].
  cbn. split; [done|]. split; [congruence|]. split; [done|].
  split; [|split; [done|split; [|done]]].
  - rewrite !lookup_insert_ne by discriminate. rewrite lookup_singleton_eq.
    unfold VNat, VInt. by rewrite Ha.
  - rewrite lookup_insert_eq. by rewrite Hp.
Qed.
(** The confirmation of an escalation reports the length of the queue
    after the record was put in it, whatever place the record took: a HIGH
    request goes to the head of the queue and is still told the last
    position, and the wait of the whole queue. The record keeps that
    position, and it becomes the active escalation of its session. *)
Theorem escalation_confirmation_reports_the_last_position f (w : CoreWorld)
    (sid reason : string) (p : Payload) :
  wired w →
  p !! "session_id" = Some (VStr sid) →
  p !! "reason" = Some (VStr reason) →
  ∃ confirmation notification record w',
    bus_publish (S (S f)) "TASK_ESCALATE" p w
      = Returned (event_of "TASK_ESCALATE" p w) w'
    ∧ announced_since w w'
      = [event_of "TASK_ESCALATE" p w; confirmation; notification]
    ∧ event_type confirmation = "RESULT_ESCALATION_COMPLETE"
    ∧ payload confirmation !! "queue_position"
      = Some (VNat (length (queue (escalation_agent (env w))) + 1))
    ∧ payload confirmation !! "estimated_wait_time"
      = Some (VInt (Z.of_nat (length (queue (escalation_agent (env w))) + 1) * 300))
    ∧ event_type notification = "NOTIFICATION_OPERATOR"
    ∧ payload notification !! "queue_size"
      = Some (VNat (length (queue (escalation_agent (env w))) + 1))
    ∧ queue (escalation_agent (env w'))
      = (if eq_str (get_default p "priority" (VStr "NORMAL")) "HIGH"
         then next_ref (escalation_agent (env w)) :: queue (escalation_agent (env w))
         else queue (escalation_agent (env w)) ++ [next_ref (escalation_agent (env w))])
    ∧ objects (escalation_agent (env w')) !! next_ref (escalation_agent (env w))
      = Some record
    ∧ esc_session_id record = sid ∧ esc_status record = "QUEUED"
    ∧ esc_queue_position record = length (queue (escalation_agent (env w))) + 1
    ∧ active_escalations (escalation_agent (env w')) !! sid
      = Some (next_ref (escalation_agent (env w))).
Proof.
  intros Hw Hsid Hreason.
  destruct (publish_task_escalate_reports f w sid reason p Hw Hsid Hreason)
    as (e2 & e3 & w' & Hpub & Hagent & Hann & Hty2 & Hp2 & Hty3 & Hp3).
  eexists e2, e3, _, w'. split; [done|].
  split; [unfold announced_since; by rewrite Hann, drop_app_length|].
  split; [done|]. rewrite Hp2, Hp3, Hagent, Nat.add_1_r.
  split; [by plookup|]. split; [by plookup|]. split; [done|].
  split; [by plookup|]. unfold enqueued. cbn.
  split; [done|]. rewrite !lookup_insert_eq. rewrite Nat.add_1_r. done.
Qed.

Lemma dropped_escalation f (w : CoreWorld) p :
  wired w →
  p !! "session_id" = None
  ∨ (∃ sid, p !! "session_id" = Some (VStr sid)) ∧ p !! "reason" = None →
  dropped_by_its_handler (S f) "TASK_ESCALATE" p w.
Proof.
  intros Hw Hp. unfold dropped_by_its_handler. wired_world w Hw.
  single "TASK_ESCALATE" Escalation_handle_escalation. mcbv.
  destruct Hp as [->|[[sid ->] Hreason]]; mcbv; [|rewrite Hreason; mcbv].
  all: by eexists _, _.
Qed.

Lemma dropped_operator f (w : CoreWorld) p :
  wired w → p !! "operator_id" = None →
  dropped_by_its_handler (S f) "OPERATOR_AVAILABLE" p w.
Proof.
  intros Hw Hp. unfold dropped_by_its_handler. wired_world w Hw.
  single "OPERATOR_AVAILABLE" Escalation_assign_to_operator. mcbv.
  rewrite Hp. mcbv. by eexists _, _.
Qed.

Lemma dropped_resolution f (w : CoreWorld) p :
  wired w →
  p !! "session_id" = None
  ∨ (∃ sid, p !! "session_id" = Some (VStr sid)) ∧ p !! "operator_id" = None →
  dropped_by_its_handler (S f) "ESCALATION_RESOLVED" p w.
Proof.
  intros Hw Hp. unfold dropped_by_its_handler. wired_world w Hw.
  single "ESCALATION_RESOLVED" Escalation_handle_resolution. mcbv.
  destruct Hp as [->|[[sid ->] Hop]]; mcbv; [|rewrite Hop; mcbv].
  all: by eexists _, _.
Qed.

(** An event for the escalation agent that lacks a field the handler reads
    is dropped by the handler itself: it logs an error and returns, so the
    bus counts a delivery and no error, and nothing changes: no record is
    queued, assigned or resolved, and no confirmation is published. A
    resolution without "operator_id" is dropped in this way even when its
    session is active. *)
Theorem escalation_agent_drops_incomplete_events f (w : CoreWorld) (p : Payload) :
  wired w →
  (p !! "session_id" = None
   ∨ (∃ sid, p !! "session_id" = Some (VStr sid)) ∧ p !! "reason" = None →
   dropped_by_its_handler (S f) "TASK_ESCALATE" p w)
  ∧ (p !! "operator_id" = None →
     dropped_by_its_handler (S f) "OPERATOR_AVAILABLE" p w)
  ∧ (p !! "session_id" = None
     ∨ (∃ sid, p !! "session_id" = Some (VStr sid)) ∧ p !! "operator_id" = None →
     dropped_by_its_handler (S f) "ESCALATION_RESOLVED" p w).
Proof.
  intros Hw. split; [|split].
  - by apply dropped_escalation.
  - by apply dropped_operator.
  - by apply dropped_resolution.
Qed.

Lemma failed_escalation_request f (w : CoreWorld) p :
  wired w →
  (p !! "session_id" = None →
   failed_in_the_bus (S f) "REQUEST_ESCALATION" p (KeyError "session_id") w)
  ∧ ((∃ sid, p !! "session_id" = Some (VStr sid)) → p !! "reason" = None →
     failed_in_the_bus (S f) "REQUEST_ESCALATION" p (KeyError "reason") w).
Proof.
  intros Hw. unfold failed_in_the_bus. wired_world w Hw. split.
  - intros Hp. single "REQUEST_ESCALATION" Coordinator_handle_escalation_request.
    mcbv. rewrite Hp. mcbv. by eexists.
  - intros [sid Hsid] Hp.
    single "REQUEST_ESCALATION" Coordinator_handle_escalation_request.
    mcbv. rewrite Hsid. mcbv. rewrite Hp. mcbv. by eexists.
Qed.

Lemma failed_agent_error f (w : CoreWorld) p :
  wired w →
  (p !! "session_id" = None →
   failed_in_the_bus (S f) "AGENT_ERROR" p (KeyError "session_id") w)
  ∧ ((∃ sid, p !! "session_id" = Some (VStr sid)) → p !! "agent_name" = None →
     failed_in_the_bus (S f) "AGENT_ERROR" p (KeyError "agent_name") w)
  ∧ ((∃ sid, p !! "session_id" = Some (VStr sid)) →
     (∃ name, p !! "agent_name" = Some (VStr name)) → p !! "error" = None →
     failed_in_the_bus (S f) "AGENT_ERROR" p (KeyError "error") w).
Proof.
  intros Hw. unfold failed_in_the_bus. wired_world w Hw. split; [|split].
  - intros Hp. single "AGENT_ERROR" Coordinator_handle_agent_error.
    mcbv. rewrite Hp. mcbv. by eexists.
  - intros [sid Hsid] Hp. single "AGENT_ERROR" Coordinator_handle_agent_error.
    mcbv. rewrite Hsid. mcbv. rewrite Hp. mcbv. by eexists.
  - intros [sid Hsid] [name Hname] Hp.
    single "AGENT_ERROR" Coordinator_handle_agent_error.
    mcbv. rewrite Hsid. mcbv. rewrite Hname. mcbv. rewrite Hp. mcbv. by eexists.
Qed.

(** The two handlers of the coordinator that have no [try] around them,
    [handle_escalation_request] and [handle_agent_error], raise [KeyError]
    into the bus when the event lacks a field they read. The bus catches it,
    logs it and counts an error, not a delivery; the session is not
    escalated, and no counter of the coordinator moves. *)
Theorem unguarded_handlers_fail_in_the_bus f (w : CoreWorld) (p : Payload) :
  wired w →
  (p !! "session_id" = None →
   failed_in_the_bus (S f) "REQUEST_ESCALATION" p (KeyError "session_id") w
   ∧ failed_in_the_bus (S f) "AGENT_ERROR" p (KeyError "session_id") w)
  ∧ ((∃ sid, p !! "session_id" = Some (VStr sid)) → p !! "reason" = None →
     failed_in_the_bus (S f) "REQUEST_ESCALATION" p (KeyError "reason") w)
  ∧ ((∃ sid, p !! "session_id" = Some (VStr sid)) → p !! "agent_name" = None →
     failed_in_the_bus (S f) "AGENT_ERROR" p (KeyError "agent_name") w)
  ∧ ((∃ sid, p !! "session_id" = Some (VStr sid)) →
     (∃ name, p !! "agent_name" = Some (VStr name)) → p !! "error" = None →
     failed_in_the_bus (S f) "AGENT_ERROR" p (KeyError "error") w).
Proof.
  intros Hw.
  destruct (failed_escalation_request f w p Hw) as [Hr1 Hr2].
  destruct (failed_agent_error f w p Hw) as (Ha1 & Ha2 & Ha3).
  split; [|split; [|split]]; try done.
  intros Hp. split; [by apply Hr1|by apply Ha1].
Qed.
(** *** Gate 0 *)

Lemma publish_new_message f (w : CoreWorld) sid text email p :
  wired w →
  p !! "session_id" = Some (VStr sid) →
  p !! "text" = Some (VStr text) →
  get_default p "customer_email" VNone = opt_str email →
  ∃ w',
    bus_publish (S (S f)) "NEW_USER_MESSAGE" p w
      = Returned (event_of "NEW_USER_MESSAGE" p w) w'
    ∧ wired w'
    ∧ _contexts (store (env w'))
      = <[sid := with_user_message sid text email (S (clock w))
                   (_contexts (store (env w)) !! sid)]> (_contexts (store (env w)))
    ∧ escalation_agent (env w') = escalation_agent (env w)
    ∧ coordinator_stats (env w')
      = mkCoordinatorStats (messages_processed (coordinator_stats (env w)) + 1)
          (escalations (coordinator_stats (env w)))
          (successful_routes (coordinator_stats (env w)))
          (coordinator_errors (coordinator_stats (env w)))
    ∧ announced w'
      = announced w
        ++ [ event_of "NEW_USER_MESSAGE" p w;
             mkEvent "TASK_RECOGNIZE_SENTIMENT"
               {[ "session_id" := VStr sid; "text" := VStr text ]}
               (clock w' - 1) (S (uuids w)) ]
    ∧ log w'
      = log w ++ [mkLog WARNING ("No subscribers for event type '"
                                 +:+ "TASK_RECOGNIZE_SENTIMENT" +:+ "'")].
Proof.
  intros Hw Hsid Htext Hemail. wired_world w Hw.
  single "NEW_USER_MESSAGE" Coordinator_handle_new_message.
  mcbv. rewrite Hsid. mcbv. rewrite Htext. mcbv. rewrite Hemail.
  destruct email as [email|]; cbn [opt_str]; mcbv.
  all: destruct (ctxs !! sid) as [ctx|] eqn:Hctx; mcbv.
  all: rewrite ?Hctx; mcbv.
  all: try (match goal with |- context [decide (is_Some ?x)] =>
              destruct (decide (is_Some x)) as [[? Habs]|_]; [discriminate Habs|]
            end; mcbv).
  all: rewrite ?Hctx, ?lookup_insert_eq; mcbv.
  all: inert "TASK_RECOGNIZE_SENTIMENT"; mcbv.
  all: eexists; split; [reflexivity|]; unfold wired;
    cbn [bus _subscribers env store _contexts escalation_agent coordinator_stats
         announced log clock uuids messages_processed escalations successful_routes
         coordinator_errors with_user_message];
    rewrite ?insert_insert_eq, <- ?app_assoc;
    cbn [app Nat.sub]; rewrite ?Nat.sub_0_r; done.
Qed.

(** Gate 0. A new message with the session and the text in it is
    recorded and sent for analysis: the session is created when the
    registry does not hold it, with the customer's email when the event
    carries it; the message is appended to the history of the session as a
    message of the sender "USER"; exactly one sentiment task is published,
    for the session and with the text; nothing is escalated, the escalation
    agent is as it was, and [messages_processed] has grown by one. *)
Theorem new_message_is_recorded_and_sent_for_analysis f (w : CoreWorld)
    (sid text : string) (email : option string) (p : Payload) :
  wired w →
  p !! "session_id" = Some (VStr sid) →
  p !! "text" = Some (VStr text) →
  get_default p "customer_email" VNone = opt_str email →
  ∃ w' ctx' message task,
    bus_publish (S (S f)) "NEW_USER_MESSAGE" p w
      = Returned (event_of "NEW_USER_MESSAGE" p w) w'
    ∧ _contexts (store (env w')) = <[sid := ctx']> (_contexts (store (env w)))
    ∧ ctx_messages ctx' = messages_of sid w ++ [message]
    ∧ msg_sender message = "USER" ∧ msg_text message = text
    ∧ (_contexts (store (env w)) !! sid = None →
       ctx_session_id ctx' = sid ∧ ctx_customer_email ctx' = email
       ∧ ctx_status ctx' = "ACTIVE")
    ∧ announced_since w w' = [event_of "NEW_USER_MESSAGE" p w; task]
    ∧ event_type task = "TASK_RECOGNIZE_SENTIMENT"
    ∧ payload task = {[ "session_id" := VStr sid; "text" := VStr text ]}
    ∧ escalation_agent (env w') = escalation_agent (env w)
    ∧ messages_processed (coordinator_stats (env w'))
      = (messages_processed (coordinator_stats (env w)) + 1)%Z
    ∧ escalations (coordinator_stats (env w'))
      = escalations (coordinator_stats (env w)).
Proof.
  intros Hw Hsid Htext Hemail.
  destruct (publish_new_message f w sid text email p Hw Hsid Htext Hemail)
    as (w' & Hpub & _ & Hctxs & Hagent & Hstats & Hann & _).
  exists w'. unfold messages_of.
  destruct (_contexts (store (env w)) !! sid) as [ctx|] eqn:Hctx.
  - eexists _, _, _. split; [done|]. split; [exact Hctxs|]. cbn.
    unfold announced_since. rewrite Hann, Hstats, drop_app_length. cbn.
    repeat split; done.
  - eexists _, _, _. split; [done|]. split; [exact Hctxs|]. cbn.
    unfold announced_since. rewrite Hann, Hstats, drop_app_length. cbn.
    repeat split; done.
Qed.

Lemma send_messages_history f texts (w : CoreWorld) sid :
  wired w →
  ∃ new w',
    send_messages (S (S f)) sid texts w = Returned tt w'
    ∧ wired w'
    ∧ sender_and_text <$> messages_of sid w'
      = (sender_and_text <$> messages_of sid w) ++ (pair "USER" <$> texts)
    ∧ announced w' = announced w ++ new
    ∧ sentiment_tasks new = VStr <$> texts
    ∧ of_type "TASK_ESCALATE" new = []
    ∧ (∀ sid', sid' ≠ sid →
         _contexts (store (env w')) !! sid' = _contexts (store (env w)) !! sid')
    ∧ escalation_agent (env w') = escalation_agent (env w).
Proof.
  revert w. induction texts as [|text texts IH]; intros w Hw.
  - exists [], w. cbn. by rewrite !app_nil_r.
  - destruct (publish_new_message f w sid text None (user_message sid text) Hw)
      as (w1 & Hpub & Hw1 & Hctxs & Hagent & _ & Hann & _);
      [by (unfold user_message; plookup)..|by (unfold get_default, user_message; plookup)|].
    destruct (IH w1 Hw1) as (new & w' & Hsend & Hw' & Hmsgs & Hann' & Htasks & Hesc
                             & Hother & Hagent').
    eexists _, w'. cbn [send_messages]. unfold bind at 1. rewrite Hpub.
    split; [done|]. split; [done|].
    split; [|split; [by rewrite Hann', Hann, <- app_assoc|split; [|split; [|split]]]].
    + rewrite Hmsgs. unfold messages_of at 1. rewrite Hctxs, lookup_insert_eq.
      unfold messages_of.
      destruct (_contexts (store (env w)) !! sid) as [ctx|]; cbn;
        rewrite ?fmap_app, <- ?app_assoc; done.
    + unfold sentiment_tasks, of_type in *.
      rewrite filter_app, omap_app, Htasks.
      rewrite filter_cons_False by (cbn; discriminate).
      rewrite filter_cons_True by done. rewrite filter_nil. cbn.
      by rewrite lookup_insert_ne, lookup_singleton_eq by discriminate.
    + unfold of_type in *. rewrite filter_app, Hesc.
      rewrite !filter_cons_False by (cbn; discriminate). done.
    + intros sid' Hne. rewrite Hother, Hctxs by done. by rewrite lookup_insert_ne.
    + by rewrite Hagent'.
Qed.

(** The messages of a user are kept in the order in which they arrive.
    After the "NEW_USER_MESSAGE" events of a session, one for each of
    [texts] in turn, the history of the session is the history it had
    followed by these texts as messages of "USER", in the same order; the
    sentiment agent was sent the same texts in that order; nothing was
    escalated; and the other sessions and the escalation agent are as they
    were. *)
Theorem user_messages_are_kept_in_order f (texts : list string) (w : CoreWorld)
    (sid : string) :
  wired w →
  ∃ w',
    send_messages (S (S f)) sid texts w = Returned tt w'
    ∧ sender_and_text <$> messages_of sid w'
      = (sender_and_text <$> messages_of sid w) ++ (pair "USER" <$> texts)
    ∧ sentiment_tasks (announced_since w w') = VStr <$> texts
    ∧ of_type "TASK_ESCALATE" (announced_since w w') = []
    ∧ (∀ sid', sid' ≠ sid →
         _contexts (store (env w')) !! sid' = _contexts (store (env w)) !! sid')
    ∧ escalation_agent (env w') = escalation_agent (env w).
Proof.
  intros Hw.
  destruct (send_messages_history f texts w sid Hw)
    as (new & w' & Hsend & _ & Hmsgs & Hann & Htasks & Hesc & Hother & Hagent).
  exists w'. unfold announced_since. rewrite Hann, drop_app_length.
  repeat split; done.
Qed.
(** *** Escalations of the coordinator *)

(** The nested escalation of a handler of the coordinator, with what the
    escalation agent made of it. *)
Ltac escalate_into_queue f sid reason :=
  match goal with |- context [publish run _ "TASK_ESCALATE" ?p ?w1] =>
    let Hpub := fresh "Hpub" in
    destruct (publish_task_escalate f w1 sid reason p)
      as (?e2 & ?e3 & ?w2 & Hpub & ?Hw2 & ?Hstore & ?Hcstats & ?Hagent & ?Hann
          & ?Hty2 & ?Hty3);
      [done|by plookup..|];
    unfold bus_publish in Hpub; rewrite Hpub; clear Hpub
  end.

(** The world the escalation came back with, taken apart. *)
Ltac escalated_world w2 :=
  wdestruct' w2; wproj; subst; mcbv;
  match goal with
  | Hstore : _ = mkContextStore _ _, Hcstats : _ = mkCoordinatorStats _ _ _ _,
    Hagent : _ = enqueued _ _ _ _ _ _ _ |- _ =>
      injection Hstore as -> ->; injection Hcstats as -> -> -> ->;
      unfold enqueued, get_default in Hagent; cbn in Hagent;
      repeat first [ rewrite lookup_insert_eq in Hagent
                   | rewrite lookup_insert_ne in Hagent by discriminate
                   | rewrite lookup_singleton_ne in Hagent by discriminate ];
      cbn in Hagent; injection Hagent as -> -> -> -> -> -> -> -> ->
  end.

Lemma escalation_request_queued f (w : CoreWorld) sid reason p :
  wired w →
  p !! "session_id" = Some (VStr sid) →
  p !! "reason" = Some (VStr reason) →
  ∃ w', bus_publish (S (S (S f))) "REQUEST_ESCALATION" p w
          = Returned (event_of "REQUEST_ESCALATION" p w) w'
        ∧ queued_at_the_back sid reason w w'.
Proof.
  intros Hw Hsid Hreason. wired_world w Hw.
  single "REQUEST_ESCALATION" Coordinator_handle_escalation_request.
  mcbv. rewrite Hsid. mcbv. rewrite Hreason. mcbv.
  destruct (ctxs !! sid) as [ctx|] eqn:Hctx; mcbv.
  - rewrite ?lookup_insert_eq. escalate_into_queue f sid reason.
    escalated_world w2.
    eexists. split; [reflexivity|]. unfold queued_at_the_back.
    cbn. rewrite Hctx, !lookup_insert_eq. eexists. repeat split; eauto.
  - rewrite ?Hctx. escalate_into_queue f sid reason.
    escalated_world w2.
    eexists. split; [reflexivity|]. unfold queued_at_the_back.
    cbn. rewrite Hctx, !lookup_insert_eq. eexists. repeat split; eauto.
Qed.

(** Closes a goal [∃ w', _ = Returned _ w' ∧ queued_at_the_back _ _ _ w']
    on worlds given by their records. *)
Ltac queued_at_the_back_done Hctx :=
  eexists; split; [reflexivity|]; unfold queued_at_the_back;
  cbn; rewrite ?Hctx, ?insert_insert_eq, !lookup_insert_eq;
  eexists; repeat split; eauto.

Lemma agent_error_queued f (w : CoreWorld) sid name error p :
  wired w →
  p !! "session_id" = Some (VStr sid) →
  p !! "agent_name" = Some (VStr name) →
  p !! "error" = Some error →
  ∃ w', bus_publish (S (S (S f))) "AGENT_ERROR" p w
          = Returned (event_of "AGENT_ERROR" p w) w'
        ∧ queued_at_the_back sid ("AGENT_ERROR_" +:+ name) w w'
        ∧ coordinator_errors (coordinator_stats (env w'))
          = (coordinator_errors (coordinator_stats (env w)) + 1)%Z.
Proof.
  intros Hw Hsid Hname Herror. wired_world w Hw.
  single "AGENT_ERROR" Coordinator_handle_agent_error.
  mcbv. rewrite Hsid. mcbv. rewrite Hname. mcbv. rewrite Herror. mcbv.
  destruct (ctxs !! sid) as [ctx|] eqn:Hctx; mcbv; rewrite ?lookup_insert_eq, ?Hctx;
    escalate_into_queue f sid ("AGENT_ERROR_" +:+ name); escalated_world w2.
  all: eexists; split; [reflexivity|]; split; [|done]; unfold queued_at_the_back;
    cbn; rewrite ?Hctx, ?insert_insert_eq, !lookup_insert_eq;
    eexists; repeat split; eauto.
Qed.

Lemma negative_sentiment_queued f (w : CoreWorld) sid label ctx p :
  wired w →
  _contexts (store (env w)) !! sid = Some ctx →
  p !! "session_id" = Some (VStr sid) →
  p !! "sentiment" = Some (VStr label) →
  is_Some (as_number (get_default p "confidence" (VNum 0))) →
  label ∈ CoordinatorAgent.SENTIMENT_ESCALATION_LABELS →
  ∃ w', bus_publish (S (S (S f))) "RESULT_SENTIMENT_RECOGNIZED" p w
          = Returned (event_of "RESULT_SENTIMENT_RECOGNIZED" p w) w'
        ∧ queued_at_the_back sid ("NEGATIVE_SENTIMENT_" +:+ label) w w'.
Proof.
  intros Hw Hctx Hsid Hsent [c Hc] Hlabel. wired_world w Hw.
  single "RESULT_SENTIMENT_RECOGNIZED" Coordinator_handle_sentiment_result.
  mcbv. rewrite Hsid. mcbv. rewrite Hsent. mcbv. rewrite Hc. mcbv.
  rewrite Hctx. mcbv. rewrite bool_decide_eq_true_2 by done.
  mcbv. rewrite lookup_insert_eq. mcbv.
  escalate_into_queue f sid ("NEGATIVE_SENTIMENT_" +:+ label). escalated_world w2.
  queued_at_the_back_done Hctx.
Qed.

Lemma low_confidence_queued f (w : CoreWorld) sid intent confidence c ctx p :
  wired w →
  _contexts (store (env w)) !! sid = Some ctx →
  p !! "session_id" = Some (VStr sid) →
  p !! "intent" = Some (VStr intent) →
  p !! "confidence" = Some confidence →
  as_number confidence = Some c →
  (p !! "entities" = None ∨ ∃ d, p !! "entities" = Some (VDict d)) →
  (c < CoordinatorAgent.INTENT_CONFIDENCE_THRESHOLD)%Q
  ∨ CoordinatorAgent.INTENT_ROUTING !! intent = None →
  ∃ w', bus_publish (S (S (S f))) "RESULT_INTENT_RECOGNIZED" p w
          = Returned (event_of "RESULT_INTENT_RECOGNIZED" p w) w'
        ∧ queued_at_the_back sid
            (if Qlt_bool c CoordinatorAgent.INTENT_CONFIDENCE_THRESHOLD
             then "LOW_INTENT_CONFIDENCE" else "UNKNOWN_INTENT") w w'.
Proof.
  intros Hw Hctx Hsid Hintent Hconf Hc Hent Hwhy.
  assert (∃ d, get_default p "entities" (VDict ∅) = VDict d) as [d Hd].
  { unfold get_default. destruct Hent as [->|[d ->]]; eauto. }
  assert (Hroute : Qlt_bool c CoordinatorAgent.INTENT_CONFIDENCE_THRESHOLD = false →
                   CoordinatorAgent.INTENT_ROUTING !! intent = None).
  { intros Hge. destruct Hwhy as [Hlt|Hnone]; [|done].
    apply Qlt_bool_spec in Hlt. congruence. }
  wired_world w Hw.
  single "RESULT_INTENT_RECOGNIZED" Coordinator_handle_intent_result.
  mcbv. rewrite Hsid. mcbv. rewrite Hintent. mcbv. rewrite Hconf. mcbv.
  rewrite Hc. mcbv. rewrite Hctx. mcbv. rewrite Hd.
  destruct (truthy (VDict d)); mcbv;
    (destruct (Qlt_bool c CoordinatorAgent.INTENT_CONFIDENCE_THRESHOLD); mcbv;
     [|rewrite Hroute by done; mcbv]).
  all: rewrite lookup_insert_eq; mcbv;
    first [ escalate_into_queue f sid "LOW_INTENT_CONFIDENCE"
          | escalate_into_queue f sid "UNKNOWN_INTENT" ];
    escalated_world w2; queued_at_the_back_done Hctx.
Qed.

Lemma message_without_text_queued f (w : CoreWorld) sid p :
  wired w →
  p !! "session_id" = Some (VStr sid) → sid ≠ "" →
  p !! "text" = None →
  ∃ w', bus_publish (S (S (S f))) "NEW_USER_MESSAGE" p w
          = Returned (event_of "NEW_USER_MESSAGE" p w) w'
        ∧ queued_at_the_back sid "SYSTEM_ERROR" w w'
        ∧ coordinator_errors (coordinator_stats (env w'))
          = (coordinator_errors (coordinator_stats (env w)) + 1)%Z
        ∧ messages_processed (coordinator_stats (env w'))
          = messages_processed (coordinator_stats (env w))
        ∧ of_type "TASK_RECOGNIZE_SENTIMENT" (announced_since w w') = [].
Proof.
  intros Hw Hsid Hne Htext. wired_world w Hw.
  single "NEW_USER_MESSAGE" Coordinator_handle_new_message.
  mcbv. rewrite Hsid. mcbv. rewrite Htext. mcbv.
  unfold get_default. rewrite Hsid. cbn [default from_option id truthy].
  apply String.eqb_neq in Hne. rewrite Hne. cbn [negb]. mcbv.
  destruct (ctxs !! sid) as [ctx|] eqn:Hctx; mcbv; rewrite ?lookup_insert_eq, ?Hctx;
    escalate_into_queue f sid "SYSTEM_ERROR"; escalated_world w2.
  all: eexists; split; [reflexivity|]; split; [|split; [done|split; [done|]]].
  1,3: unfold queued_at_the_back;
    cbn; rewrite ?Hctx, ?insert_insert_eq, !lookup_insert_eq;
    eexists; repeat split; eauto.
  all: unfold announced_since; cbv [announced];
    rewrite <- !app_assoc, drop_app_length; cbn [app]; by filter_types.
Qed.
(** Whatever makes the coordinator escalate a session, the escalation
    joins the queue at its back. The coordinator sends no priority with its
    request, and it does not hand on the priority a "REQUEST_ESCALATION"
    event may carry, so the escalation agent files the record as NORMAL:
    behind every record that waits, also for an ANGRY customer. This holds of
    a request of another agent, of an error reported by an agent, of a
    negative sentiment at Gate 1, and of a low confidence or an intent
    without a route at Gate 2. The context is marked ESCALATED with the
    reason, and the record holds it as it then is. *)
Theorem coordinator_escalations_join_the_back_of_the_queue f (w : CoreWorld)
    (sid : string) (p : Payload) :
  wired w →
  p !! "session_id" = Some (VStr sid) →
  (∀ reason,
     p !! "reason" = Some (VStr reason) →
     ∃ w', bus_publish (S (S (S f))) "REQUEST_ESCALATION" p w
             = Returned (event_of "REQUEST_ESCALATION" p w) w'
           ∧ queued_at_the_back sid reason w w')
  ∧ (∀ name error,
       p !! "agent_name" = Some (VStr name) → p !! "error" = Some error →
       ∃ w', bus_publish (S (S (S f))) "AGENT_ERROR" p w
               = Returned (event_of "AGENT_ERROR" p w) w'
             ∧ queued_at_the_back sid ("AGENT_ERROR_" +:+ name) w w')
  ∧ (∀ ctx label,
       _contexts (store (env w)) !! sid = Some ctx →
       p !! "sentiment" = Some (VStr label) →
       is_Some (as_number (get_default p "confidence" (VNum 0))) →
       label ∈ CoordinatorAgent.SENTIMENT_ESCALATION_LABELS →
       ∃ w', bus_publish (S (S (S f))) "RESULT_SENTIMENT_RECOGNIZED" p w
               = Returned (event_of "RESULT_SENTIMENT_RECOGNIZED" p w) w'
             ∧ queued_at_the_back sid ("NEGATIVE_SENTIMENT_" +:+ label) w w')
  ∧ (∀ ctx intent confidence c,
       _contexts (store (env w)) !! sid = Some ctx →
       p !! "intent" = Some (VStr intent) →
       p !! "confidence" = Some confidence →
       as_number confidence = Some c →
       (p !! "entities" = None ∨ ∃ d, p !! "entities" = Some (VDict d)) →
       (c < CoordinatorAgent.INTENT_CONFIDENCE_THRESHOLD)%Q
       ∨ CoordinatorAgent.INTENT_ROUTING !! intent = None →
       ∃ w', bus_publish (S (S (S f))) "RESULT_INTENT_RECOGNIZED" p w
               = Returned (event_of "RESULT_INTENT_RECOGNIZED" p w) w'
             ∧ queued_at_the_back sid
                 (if Qlt_bool c CoordinatorAgent.INTENT_CONFIDENCE_THRESHOLD
                  then "LOW_INTENT_CONFIDENCE" else "UNKNOWN_INTENT") w w').
Proof.
  intros Hw Hsid. split; [|split; [|split]].
  - intros reason Hreason. by apply escalation_request_queued.
  - intros name error Hname Herror.
    destruct (agent_error_queued f w sid name error p) as (w' & Hpub & Hq & _);
      [done..|].
    by exists w'.
  - intros ctx label Hctx Hlabel Hconf Hin.
    by eapply negative_sentiment_queued.
  - intros ctx intent confidence c Hctx Hintent Hconf Hc Hent Hwhy.
    by eapply low_confidence_queued.
Qed.

Lemma message_without_session f (w : CoreWorld) p :
  wired w →
  p !! "session_id" = None →
  ∃ error w',
    bus_publish (S f) "NEW_USER_MESSAGE" p w
      = Returned (event_of "NEW_USER_MESSAGE" p w) w'
    ∧ announced w' = announced w ++ [event_of "NEW_USER_MESSAGE" p w]
    ∧ store (env w') = store (env w)
    ∧ escalation_agent (env w') = escalation_agent (env w)
    ∧ coordinator_stats (env w')
      = mkCoordinatorStats (messages_processed (coordinator_stats (env w)))
          (escalations (coordinator_stats (env w)))
          (successful_routes (coordinator_stats (env w)))
          (coordinator_errors (coordinator_stats (env w)) + 1)
    ∧ log w'
      = log w ++ [ mkLog ERROR ("[GATE 0] Error handling new message: " +:+ error);
                   mkLog CRITICAL ("Emergency escalation without session_id: "
                                   +:+ error) ].
Proof.
  intros Hw Hsid. wired_world w Hw.
  single "NEW_USER_MESSAGE" Coordinator_handle_new_message.
  mcbv. rewrite Hsid. mcbv. unfold get_default. rewrite Hsid.
  cbn [default from_option id truthy]. mcbv.
  eexists _, _. split; [reflexivity|]. cbn. rewrite <- !app_assoc. done.
Qed.

(** Gate 0 with an incomplete event. Without "session_id" the message
    cannot be escalated: the coordinator counts an error and logs two
    records, one of them CRITICAL, and that is all: no session is created,
    nothing is published and nothing is queued. With a session and
    without "text" the session is escalated for "SYSTEM_ERROR" and joins the
    queue, though the registry may not hold it; the message is not counted
    as processed and no sentiment task is published. *)
Theorem incomplete_message_is_escalated_or_lost f (w : CoreWorld) (p : Payload) :
  wired w →
  (p !! "session_id" = None →
   ∃ error w',
     bus_publish (S (S (S f))) "NEW_USER_MESSAGE" p w
       = Returned (event_of "NEW_USER_MESSAGE" p w) w'
     ∧ announced w' = announced w ++ [event_of "NEW_USER_MESSAGE" p w]
     ∧ store (env w') = store (env w)
     ∧ escalation_agent (env w') = escalation_agent (env w)
     ∧ coordinator_errors (coordinator_stats (env w'))
       = (coordinator_errors (coordinator_stats (env w)) + 1)%Z
     ∧ messages_processed (coordinator_stats (env w'))
       = messages_processed (coordinator_stats (env w))
     ∧ log w'
       = log w ++ [ mkLog ERROR ("[GATE 0] Error handling new message: " +:+ error);
                    mkLog CRITICAL ("Emergency escalation without session_id: "
                                    +:+ error) ])
  ∧ (∀ sid,
       p !! "session_id" = Some (VStr sid) → sid ≠ "" → p !! "text" = None →
       ∃ w',
         bus_publish (S (S (S f))) "NEW_USER_MESSAGE" p w
           = Returned (event_of "NEW_USER_MESSAGE" p w) w'
         ∧ queued_at_the_back sid "SYSTEM_ERROR" w w'
         ∧ coordinator_errors (coordinator_stats (env w'))
           = (coordinator_errors (coordinator_stats (env w)) + 1)%Z
         ∧ messages_processed (coordinator_stats (env w'))
           = messages_processed (coordinator_stats (env w))
         ∧ of_type "TASK_RECOGNIZE_SENTIMENT" (announced_since w w') = []).
Proof.
  intros Hw. split.
  - intros Hsid.
    destruct (message_without_session (S (S f)) w p Hw Hsid)
      as (error & w' & Hpub & Hann & Hstore & Hagent & Hstats & Hlog).
    exists error, w'. rewrite Hstats. repeat split; done.
  - intros sid Hsid Hne Htext. by apply message_without_text_queued.
Qed.

Lemma sentiment_for_unknown_session f (w : CoreWorld) sid label p :
  wired w →
  _contexts (store (env w)) !! sid = None →
  p !! "session_id" = Some (VStr sid) →
  p !! "sentiment" = Some (VStr label) →
  is_Some (as_number (get_default p "confidence" (VNum 0))) →
  dropped_by_its_handler (S f) "RESULT_SENTIMENT_RECOGNIZED" p w.
Proof.
  intros Hw Hctx Hsid Hsent [c Hc]. unfold dropped_by_its_handler.
  wired_world w Hw.
  single "RESULT_SENTIMENT_RECOGNIZED" Coordinator_handle_sentiment_result.
  mcbv. rewrite Hsid. mcbv. rewrite Hsent. mcbv. rewrite Hc. mcbv.
  rewrite Hctx. mcbv. by eexists _, _.
Qed.

Lemma intent_for_unknown_session f (w : CoreWorld) sid intent confidence p :
  wired w →
  _contexts (store (env w)) !! sid = None →
  p !! "session_id" = Some (VStr sid) →
  p !! "intent" = Some (VStr intent) →
  p !! "confidence" = Some confidence →
  is_Some (as_number confidence) →
  dropped_by_its_handler (S f) "RESULT_INTENT_RECOGNIZED" p w.
Proof.
  intros Hw Hctx Hsid Hintent Hconf [c Hc]. unfold dropped_by_its_handler.
  wired_world w Hw.
  single "RESULT_INTENT_RECOGNIZED" Coordinator_handle_intent_result.
  mcbv. rewrite Hsid. mcbv. rewrite Hintent. mcbv. rewrite Hconf. mcbv.
  rewrite Hc. mcbv. rewrite Hctx. mcbv. by eexists _, _.
Qed.

(** A result for a session the registry does not hold is dropped at the
    gate: Gate 1 and Gate 2 log an error and return. No session is created,
    nothing is escalated or routed, no counter of the coordinator moves, and
    the bus counts a delivery. *)
Theorem results_for_an_unknown_session_are_dropped f (w : CoreWorld)
    (sid : string) (p : Payload) :
  wired w →
  _contexts (store (env w)) !! sid = None →
  p !! "session_id" = Some (VStr sid) →
  (∀ label,
     p !! "sentiment" = Some (VStr label) →
     is_Some (as_number (get_default p "confidence" (VNum 0))) →
     dropped_by_its_handler (S f) "RESULT_SENTIMENT_RECOGNIZED" p w)
  ∧ (∀ intent confidence,
       p !! "intent" = Some (VStr intent) →
       p !! "confidence" = Some confidence →
       is_Some (as_number confidence) →
       dropped_by_its_handler (S f) "RESULT_INTENT_RECOGNIZED" p w).
Proof.
  intros Hw Hctx Hsid. split.
  - intros label Hlabel Hconf. by eapply sentiment_for_unknown_session.
  - intros intent confidence Hintent Hconf Hc.
    by eapply intent_for_unknown_session.
Qed.



(** ** The further statements at concrete worlds *)

Lemma probes_keep_counters (cb : Probe) (event : Event) :
  cb ∈ snapshot "PING" two_probes →
  keeps_counters (run_probe cb (publish run_probe 0) event).
Proof.
  change (snapshot "PING" two_probes) with [probe_raises; probe_returns].
  intros Hin. apply elem_of_cons in Hin as [->|Hin];
    [|apply list_elem_of_singleton in Hin as ->]; intros w; reflexivity.
Defined.

Lemma probes_come_back (cb : Probe) (w1 : World Probe (list Probe)) :
  cb ∈ snapshot "PING" two_probes →
  run_probe cb (publish run_probe 0) (event_of "PING" ∅ two_probes) w1 ≠ OutOfFuel.
Proof.
  change (snapshot "PING" two_probes) with [probe_raises; probe_returns].
  intros Hin. apply elem_of_cons in Hin as [->|Hin];
    [|apply list_elem_of_singleton in Hin as ->]; discriminate.
Defined.

Lemma create_get_delete_round_trip_witness :
  (_contexts (store (env system_start)) !! "s1" = None)
  ∧ (∃ ctx w1 w2,
       ContextStore.create_session "s1" (Some "user@example.com") system_start = Returned
           ctx w1
       ∧ ctx_session_id ctx = "s1" ∧ ctx_customer_email ctx = (Some "user@example.com")
       ∧ ctx_status ctx = "ACTIVE" ∧ ctx_messages ctx = []
       ∧ ContextStore.get "s1" w1 = Returned (Some ctx) w1
       ∧ ContextStore.delete "s1" w1 = Returned (Some ctx) w2
       ∧ ContextStore.get "s1" w2 = Returned None w2
       ∧ ContextStore.delete "s1" w2 = Returned None w2
       ∧ _contexts (store (env w2)) = _contexts (store (env system_start))
       ∧ sessions_created (_store_stats (store (env w2)))
         = (sessions_created (_store_stats (store (env system_start))) + 1)%Z
       ∧ sessions_ended (_store_stats (store (env w2)))
         = (sessions_ended (_store_stats (store (env system_start))) + 1)%Z
       ∧ sessions_active (_store_stats (store (env w2)))
         = sessions_active (_store_stats (store (env system_start)))).
Proof.
  split; [vm_compute; reflexivity|].
  apply (create_get_delete_round_trip system_start "s1" (Some "user@example.com")).
  - vm_compute; reflexivity.
Defined.

Lemma add_message_keeps_the_order_witness :
  (_contexts (store (env one_session)) !! "s1" = Some first_context)
  ∧ (∃ w' ctx',
       add_messages "s1" two_replies one_session = Returned tt w'
       ∧ _contexts (store (env w')) = <["s1" := ctx']> (_contexts (store (env
           one_session)))
       ∧ (∃ added, ctx_messages ctx' = ctx_messages first_context ++ added
                   ∧ sender_and_text <$> added = two_replies
                   ∧ msg_timestamp <$> added = seq (clock one_session) (length
                       two_replies))
       ∧ total_messages (_store_stats (store (env w')))
         = (total_messages (_store_stats (store (env one_session)))
            + Z.of_nat (length two_replies))%Z
       ∧ log w' = log one_session).
Proof.
  split; [vm_compute; reflexivity|].
  apply (add_message_keeps_the_order two_replies one_session "s1" first_context).
  - vm_compute; reflexivity.
Defined.

Lemma publish_counts_every_call_witness :
  (∀ cb event, cb ∈ snapshot "PING" two_probes → keeps_counters (run_probe cb (publish
      run_probe 0) event))
  ∧ (∃ event report w',
       publish_report run_probe (S 0) "PING" ∅ two_probes = Returned (event, report) w'
       ∧ publish run_probe (S 0) "PING" ∅ two_probes = Returned event w'
       ∧ published (_stats (bus w')) = S (published (_stats (bus two_probes)))
       ∧ delivered (_stats (bus w')) = delivered (_stats (bus two_probes)) +
           returned_calls report
       ∧ errors (_stats (bus w')) = errors (_stats (bus two_probes)) + raised_calls report
       ∧ returned_calls report + raised_calls report = length (snapshot "PING"
           two_probes)).
Proof.
  split; [exact probes_keep_counters|].
  apply (publish_counts_every_call run_probe 0 "PING" ∅ two_probes).
  - exact probes_keep_counters.
Defined.

Lemma get_subscribers_counts_the_next_delivery_witness :
  (∀ cb w1, cb ∈ snapshot "PING" two_probes →
        run_probe cb (publish run_probe 0) (event_of "PING" ∅ two_probes) w1 ≠ OutOfFuel)
  ∧ (("PING" ≠ "" →
      get_subscribers (Some "PING") two_probes = Returned {[ "PING" := length (snapshot
          "PING" two_probes) ]} two_probes)
     ∧ (∃ event report w',
          publish_report run_probe (S 0) "PING" ∅ two_probes = Returned (event, report) w'
          ∧ length report = length (snapshot "PING" two_probes))
     ∧ get_subscribers (Some "") two_probes = get_subscribers None two_probes
     ∧ get_subscribers None two_probes = Returned (length <$> _subscribers (bus
         two_probes)) two_probes
     ∧ (∃ w', clear_all_subscribers two_probes = Returned tt w'
              ∧ get_subscribers None w' = Returned ∅ w'
              ∧ env w' = env two_probes ∧ _stats (bus w') = _stats (bus two_probes)
              ∧ ∀ ty' p', publish run_probe (S 0) ty' p' w'
                          = Returned (event_of ty' p' w') (undelivered ty' p' w'))).
Proof.
  split; [exact probes_come_back|].
  apply (get_subscribers_counts_the_next_delivery run_probe 0 "PING" ∅ two_probes).
  - exact probes_come_back.
Defined.

Lemma queue_status_is_the_order_of_assignment_witness :
  ((3 ≤ 3)%nat)
  ∧ (typed_events conversation_events = true)
  ∧ (∃ w' status entries sessions,
       publish_all 3 conversation_events system_start = Returned tt w'
       ∧ EscalationAgent.get_queue_status w' = Returned status w'
       ∧ status !! "queue_size" = Some (VNat (length sessions))
       ∧ status !! "estimated_wait_time" = Some (VInt (Z.of_nat (length sessions) * 300))
       ∧ status !! "queue" = Some (VList entries)
       ∧ omap (entry_field "session_id") entries = VStr <$> sessions
       ∧ omap (entry_field "position") entries = VNat <$> seq 1 (length sessions)
       ∧ ∃ new w'',
           assign_all 3 two_operators w' = Returned tt w''
           ∧ announced w'' = announced w' ++ new
           ∧ assigned_sessions new = take (length two_operators) sessions).
Proof.
  split; [lia|].
  split; [reflexivity|].
  apply (queue_status_is_the_order_of_assignment 3 conversation_events two_operators).
  - lia.
  - reflexivity.
Defined.

Lemma escalation_counters_match_the_queue_witness :
  ((3 ≤ 3)%nat)
  ∧ (typed_events conversation_events = true)
  ∧ (∃ w' stats,
       publish_all 3 conversation_events system_start = Returned tt w'
       ∧ EscalationAgent.get_stats w' = Returned stats w'
       ∧ stats !! "queued" = stats !! "queue_size"
       ∧ stats !! "queue_size"
         = Some (VNat (length (queue (escalation_agent (env w')))))
       ∧ NoDup (queue (escalation_agent (env w')))
       ∧ (∀ r, r ∈ queue (escalation_agent (env w'))
               ↔ ∃ e, objects (escalation_agent (env w')) !! r = Some e
                      ∧ esc_status e = "QUEUED")
       ∧ by_reason_total (by_reason (escalation_stats (escalation_agent (env w'))))
         = total_escalations (escalation_stats (escalation_agent (env w')))
       ∧ (0 ≤ resolved (escalation_stats (escalation_agent (env w'))))%Z
       ∧ (resolved (escalation_stats (escalation_agent (env w')))
          + Z.of_nat (size (active_escalations (escalation_agent (env w'))))
          ≤ total_escalations (escalation_stats (escalation_agent (env w'))))%Z).
Proof.
  split; [lia|].
  split; [reflexivity|].
  apply (escalation_counters_match_the_queue 3 conversation_events).
  - lia.
  - reflexivity.
Defined.

Lemma registry_counters_follow_the_events_witness :
  ((3 ≤ 3)%nat)
  ∧ (typed_events conversation_events = true)
  ∧ (∃ w' stats report,
       publish_all 3 conversation_events system_start = Returned tt w'
       ∧ ContextStore.get_stats w' = Returned stats w'
       ∧ CoordinatorAgent.get_stats w' = Returned report w'
       ∧ sessions_created stats = Z.of_nat (size (_contexts (store (env w'))))
       ∧ sessions_active stats = sessions_created stats
       ∧ sessions_ended stats = 0%Z
       ∧ report !! "active_sessions" = Some (VInt (sessions_active stats))
       ∧ total_messages stats
         = Z.of_nat (stored_messages (_contexts (store (env w'))))
       ∧ report !! "messages_processed" = Some (VInt (total_messages stats))
       ∧ ∀ key context, _contexts (store (env w')) !! key = Some context →
                        ctx_session_id context = key).
Proof.
  split; [lia|].
  split; [reflexivity|].
  apply (registry_counters_follow_the_events 3 conversation_events).
  - lia.
  - reflexivity.
Defined.

Lemma escalation_confirmation_reports_the_last_position_witness :
  (wired one_queued)
  ∧ (urgent_request !! "session_id" = Some (VStr "s2"))
  ∧ (urgent_request !! "reason" = Some (VStr "NEGATIVE_SENTIMENT_ANGRY"))
  ∧ (∃ confirmation notification record w',
       bus_publish (S (S 0)) "TASK_ESCALATE" urgent_request one_queued
         = Returned (event_of "TASK_ESCALATE" urgent_request one_queued) w'
       ∧ announced_since one_queued w'
         = [event_of "TASK_ESCALATE" urgent_request one_queued; confirmation;
             notification]
       ∧ event_type confirmation = "RESULT_ESCALATION_COMPLETE"
       ∧ payload confirmation !! "queue_position"
         = Some (VNat (length (queue (escalation_agent (env one_queued))) + 1))
       ∧ payload confirmation !! "estimated_wait_time"
         = Some (VInt (Z.of_nat (length (queue (escalation_agent (env one_queued))) + 1) *
             300))
       ∧ event_type notification = "NOTIFICATION_OPERATOR"
       ∧ payload notification !! "queue_size"
         = Some (VNat (length (queue (escalation_agent (env one_queued))) + 1))
       ∧ queue (escalation_agent (env w'))
         = (if eq_str (get_default urgent_request "priority" (VStr "NORMAL")) "HIGH"
            then next_ref (escalation_agent (env one_queued)) :: queue (escalation_agent
                (env one_queued))
            else queue (escalation_agent (env one_queued)) ++ [next_ref (escalation_agent
                (env one_queued))])
       ∧ objects (escalation_agent (env w')) !! next_ref (escalation_agent (env
           one_queued))
         = Some record
       ∧ esc_session_id record = "s2" ∧ esc_status record = "QUEUED"
       ∧ esc_queue_position record = length (queue (escalation_agent (env one_queued))) +
           1
       ∧ active_escalations (escalation_agent (env w')) !! "s2"
         = Some (next_ref (escalation_agent (env one_queued)))).
Proof.
  split; [exact one_queued_wired|].
  split; [reflexivity|].
  split; [reflexivity|].
  apply (escalation_confirmation_reports_the_last_position 0 one_queued "s2"
      "NEGATIVE_SENTIMENT_ANGRY" urgent_request).
  - exact one_queued_wired.
  - reflexivity.
  - reflexivity.
Defined.

Lemma escalation_agent_drops_incomplete_events_witness :
  (wired one_queued)
  ∧ ((only_session !! "session_id" = None
      ∨ (∃ sid, only_session !! "session_id" = Some (VStr sid)) ∧ only_session !! "reason"
          = None →
      dropped_by_its_handler (S 0) "TASK_ESCALATE" only_session one_queued)
     ∧ (only_session !! "operator_id" = None →
        dropped_by_its_handler (S 0) "OPERATOR_AVAILABLE" only_session one_queued)
     ∧ (only_session !! "session_id" = None
        ∨ (∃ sid, only_session !! "session_id" = Some (VStr sid)) ∧ only_session !!
            "operator_id" = None →
        dropped_by_its_handler (S 0) "ESCALATION_RESOLVED" only_session one_queued)).
Proof.
  split; [exact one_queued_wired|].
  apply (escalation_agent_drops_incomplete_events 0 one_queued only_session).
  - exact one_queued_wired.
Defined.

Lemma unguarded_handlers_fail_in_the_bus_witness :
  (wired one_session)
  ∧ ((only_session !! "session_id" = None →
      failed_in_the_bus (S 0) "REQUEST_ESCALATION" only_session (KeyError "session_id")
          one_session
      ∧ failed_in_the_bus (S 0) "AGENT_ERROR" only_session (KeyError "session_id")
          one_session)
     ∧ ((∃ sid, only_session !! "session_id" = Some (VStr sid)) → only_session !! "reason"
         = None →
        failed_in_the_bus (S 0) "REQUEST_ESCALATION" only_session (KeyError "reason")
            one_session)
     ∧ ((∃ sid, only_session !! "session_id" = Some (VStr sid)) → only_session !!
         "agent_name" = None →
        failed_in_the_bus (S 0) "AGENT_ERROR" only_session (KeyError "agent_name")
            one_session)
     ∧ ((∃ sid, only_session !! "session_id" = Some (VStr sid)) →
        (∃ name, only_session !! "agent_name" = Some (VStr name)) → only_session !!
            "error" = None →
        failed_in_the_bus (S 0) "AGENT_ERROR" only_session (KeyError "error")
            one_session)).
Proof.
  split; [exact one_session_wired|].
  apply (unguarded_handlers_fail_in_the_bus 0 one_session only_session).
  - exact one_session_wired.
Defined.

Lemma new_message_is_recorded_and_sent_for_analysis_witness :
  (wired system_start)
  ∧ (first_message !! "session_id" = Some (VStr "s1"))
  ∧ (first_message !! "text" = Some (VStr "I cannot log in"))
  ∧ (get_default first_message "customer_email" VNone = opt_str (Some "user@example.com"))
  ∧ (∃ w' ctx' message task,
       bus_publish (S (S 0)) "NEW_USER_MESSAGE" first_message system_start
         = Returned (event_of "NEW_USER_MESSAGE" first_message system_start) w'
       ∧ _contexts (store (env w')) = <["s1" := ctx']> (_contexts (store (env
           system_start)))
       ∧ ctx_messages ctx' = messages_of "s1" system_start ++ [message]
       ∧ msg_sender message = "USER" ∧ msg_text message = "I cannot log in"
       ∧ (_contexts (store (env system_start)) !! "s1" = None →
          ctx_session_id ctx' = "s1" ∧ ctx_customer_email ctx' = (Some "user@example.com")
          ∧ ctx_status ctx' = "ACTIVE")
       ∧ announced_since system_start w' = [event_of "NEW_USER_MESSAGE" first_message
           system_start; task]
       ∧ event_type task = "TASK_RECOGNIZE_SENTIMENT"
       ∧ payload task = {[ "session_id" := VStr "s1"; "text" := VStr "I cannot log in" ]}
       ∧ escalation_agent (env w') = escalation_agent (env system_start)
       ∧ messages_processed (coordinator_stats (env w'))
         = (messages_processed (coordinator_stats (env system_start)) + 1)%Z
       ∧ escalations (coordinator_stats (env w'))
         = escalations (coordinator_stats (env system_start))).
Proof.
  split; [apply startup_wires|].
  split; [reflexivity|].
  split; [reflexivity|].
  split; [reflexivity|].
  apply (new_message_is_recorded_and_sent_for_analysis 0 system_start "s1"
      "I cannot log in" (Some "user@example.com") first_message).
  - apply startup_wires.
  - reflexivity.
  - reflexivity.
  - reflexivity.
Defined.

Lemma user_messages_are_kept_in_order_witness :
  (wired one_session)
  ∧ (∃ w',
       send_messages (S (S 0)) "s1" two_texts one_session = Returned tt w'
       ∧ sender_and_text <$> messages_of "s1" w'
         = (sender_and_text <$> messages_of "s1" one_session) ++ (pair "USER" <$>
             two_texts)
       ∧ sentiment_tasks (announced_since one_session w') = VStr <$> two_texts
       ∧ of_type "TASK_ESCALATE" (announced_since one_session w') = []
       ∧ (∀ sid', sid' ≠ "s1" →
            _contexts (store (env w')) !! sid' = _contexts (store (env one_session)) !!
                sid')
       ∧ escalation_agent (env w') = escalation_agent (env one_session)).
Proof.
  split; [exact one_session_wired|].
  apply (user_messages_are_kept_in_order 0 two_texts one_session "s1").
  - exact one_session_wired.
Defined.

Lemma coordinator_escalations_join_the_back_of_the_queue_witness :
  (wired one_session)
  ∧ (agent_request !! "session_id" = Some (VStr "s1"))
  ∧ ((∀ reason,
        agent_request !! "reason" = Some (VStr reason) →
        ∃ w', bus_publish (S (S (S 0))) "REQUEST_ESCALATION" agent_request one_session
                = Returned (event_of "REQUEST_ESCALATION" agent_request one_session) w'
              ∧ queued_at_the_back "s1" reason one_session w')
     ∧ (∀ name error,
          agent_request !! "agent_name" = Some (VStr name) → agent_request !! "error" =
              Some error →
          ∃ w', bus_publish (S (S (S 0))) "AGENT_ERROR" agent_request one_session
                  = Returned (event_of "AGENT_ERROR" agent_request one_session) w'
                ∧ queued_at_the_back "s1" ("AGENT_ERROR_" +:+ name) one_session w')
     ∧ (∀ ctx label,
          _contexts (store (env one_session)) !! "s1" = Some ctx →
          agent_request !! "sentiment" = Some (VStr label) →
          is_Some (as_number (get_default agent_request "confidence" (VNum 0))) →
          label ∈ CoordinatorAgent.SENTIMENT_ESCALATION_LABELS →
          ∃ w', bus_publish (S (S (S 0))) "RESULT_SENTIMENT_RECOGNIZED" agent_request
              one_session
                  = Returned (event_of "RESULT_SENTIMENT_RECOGNIZED" agent_request
                      one_session) w'
                ∧ queued_at_the_back "s1" ("NEGATIVE_SENTIMENT_" +:+ label) one_session
                    w')
     ∧ (∀ ctx intent confidence c,
          _contexts (store (env one_session)) !! "s1" = Some ctx →
          agent_request !! "intent" = Some (VStr intent) →
          agent_request !! "confidence" = Some confidence →
          as_number confidence = Some c →
          (agent_request !! "entities" = None ∨ ∃ d, agent_request !! "entities" = Some
              (VDict d)) →
          (c < CoordinatorAgent.INTENT_CONFIDENCE_THRESHOLD)%Q
          ∨ CoordinatorAgent.INTENT_ROUTING !! intent = None →
          ∃ w', bus_publish (S (S (S 0))) "RESULT_INTENT_RECOGNIZED" agent_request
              one_session
                  = Returned (event_of "RESULT_INTENT_RECOGNIZED" agent_request
                      one_session) w'
                ∧ queued_at_the_back "s1"
                    (if Qlt_bool c CoordinatorAgent.INTENT_CONFIDENCE_THRESHOLD
                     then "LOW_INTENT_CONFIDENCE" else "UNKNOWN_INTENT") one_session w')).
Proof.
  split; [exact one_session_wired|].
  split; [reflexivity|].
  apply (coordinator_escalations_join_the_back_of_the_queue 0 one_session "s1"
      agent_request).
  - exact one_session_wired.
  - reflexivity.
Defined.

Lemma incomplete_message_is_escalated_or_lost_witness :
  (wired one_session)
  ∧ ((anonymous_message !! "session_id" = None →
      ∃ error w',
        bus_publish (S (S (S 0))) "NEW_USER_MESSAGE" anonymous_message one_session
          = Returned (event_of "NEW_USER_MESSAGE" anonymous_message one_session) w'
        ∧ announced w' = announced one_session ++ [event_of "NEW_USER_MESSAGE"
            anonymous_message one_session]
        ∧ store (env w') = store (env one_session)
        ∧ escalation_agent (env w') = escalation_agent (env one_session)
        ∧ coordinator_errors (coordinator_stats (env w'))
          = (coordinator_errors (coordinator_stats (env one_session)) + 1)%Z
        ∧ messages_processed (coordinator_stats (env w'))
          = messages_processed (coordinator_stats (env one_session))
        ∧ log w'
          = log one_session ++ [ mkLog ERROR ("[GATE 0] Error handling new message: " +:+
              error);
                       mkLog CRITICAL ("Emergency escalation without session_id: "
                                       +:+ error) ])
     ∧ (∀ sid,
          anonymous_message !! "session_id" = Some (VStr sid) → sid ≠ "" →
              anonymous_message !! "text" = None →
          ∃ w',
            bus_publish (S (S (S 0))) "NEW_USER_MESSAGE" anonymous_message one_session
              = Returned (event_of "NEW_USER_MESSAGE" anonymous_message one_session) w'
            ∧ queued_at_the_back sid "SYSTEM_ERROR" one_session w'
            ∧ coordinator_errors (coordinator_stats (env w'))
              = (coordinator_errors (coordinator_stats (env one_session)) + 1)%Z
            ∧ messages_processed (coordinator_stats (env w'))
              = messages_processed (coordinator_stats (env one_session))
            ∧ of_type "TASK_RECOGNIZE_SENTIMENT" (announced_since one_session w') = [])).
Proof.
  split; [exact one_session_wired|].
  apply (incomplete_message_is_escalated_or_lost 0 one_session anonymous_message).
  - exact one_session_wired.
Defined.

Lemma results_for_an_unknown_session_are_dropped_witness :
  (wired system_start)
  ∧ (_contexts (store (env system_start)) !! "s1" = None)
  ∧ (angry_result !! "session_id" = Some (VStr "s1"))
  ∧ ((∀ label,
        angry_result !! "sentiment" = Some (VStr label) →
        is_Some (as_number (get_default angry_result "confidence" (VNum 0))) →
        dropped_by_its_handler (S 0) "RESULT_SENTIMENT_RECOGNIZED" angry_result
            system_start)
     ∧ (∀ intent confidence,
          angry_result !! "intent" = Some (VStr intent) →
          angry_result !! "confidence" = Some confidence →
          is_Some (as_number confidence) →
          dropped_by_its_handler (S 0) "RESULT_INTENT_RECOGNIZED" angry_result
              system_start)).
Proof.
  split; [apply startup_wires|].
  split; [vm_compute; reflexivity|].
  split; [reflexivity|].
  apply (results_for_an_unknown_session_are_dropped 0 system_start "s1" angry_result).
  - apply startup_wires.
  - vm_compute; reflexivity.
  - reflexivity.
Defined.


